(** * ShaderLab-Server: middleware pipeline, response model, router and proxy passes

    A shallow embedding of the parts of the server that its specification
    makes claims about.  The functions, with the place of their text in the
    sources:

    - [compose]: plugins/express/compose.js, lines 6 to 30;
    - the response facade (status, body, headers): plugins/express/response.js,
      lines 18 to 451;
    - [Layer], [Router], [routes], [allowedMethods] of router.js: the text
      that follows in plugins/express/response.js, lines 452 to 1046;
    - [handleRequest] and [handleResponse]: plugins/express/index.js;
    - [onerror] of context.js: unnamed/part_004, lines 65 to 106;
    - [setRedirectHostRewrite] of web.out.js: the text that follows in
      plugins/express/compose.js, lines 68 to 84;
    - [rewriteCookieProperty] of shared.js: unnamed/part_007, lines 114 to 128.

    JavaScript objects are records, a promise is the outcome that it settles
    with, and the state that closures share is an explicit store, threaded
    through every call.  What a typed embedding rules out is left out: the
    checks of [compose] and of the [Layer] constructor that every step is a
    function, and arrays or numbers as header values.  Listeners that are
    only registered ([onFinished], [once("error")]) have no effect on the
    state below and are left out as well.

    A number is an integer; its text is the decimal one, which is what
    JavaScript writes for the safe integers.  A string that is a body is held
    as the bytes of its UTF-8 text, so that its length is its byte length;
    the text of a header is Latin-1, one byte for each character. *)

From Stdlib Require Import ZArith String Ascii List Lia Bool DecimalString.
From stdpp Require Import base tactics option list strings gmap.

Open Scope string_scope.
Open Scope Z_scope.
Open Scope list_scope.

(** ** Thrown values and promise outcomes *)

(** A field of an error object that the code reads with [typeof] and
    truthiness tests: absent, a number, or a string. *)
Inductive jsfield : Type :=
| FUndefined
| FNumber (n : Z)
| FString (s : string).

(** [x || y] on such fields. *)
Definition field_truthy (f : jsfield) : bool :=
  match f with
  | FUndefined => false
  | FNumber n => negb (n =? 0)%Z
  | FString s => negb (String.eqb s "")
  end.

Definition field_or (a b : jsfield) : jsfield :=
  if field_truthy a then a else b.

(** An [Error] object with the properties that the framework reads. *)
Record JsError : Type := mkError {
  err_message : string;
  err_status : jsfield;
  err_statusCode : jsfield;
  err_expose : bool;
  err_code : option string;
  err_headers : list (string * string);
  err_headerSent : bool
}.

(** [new Error(msg)] *)
Definition Error (msg : string) : JsError :=
  {| err_message := msg; err_status := FUndefined; err_statusCode := FUndefined;
     err_expose := false; err_code := None; err_headers := [];
     err_headerSent := false |}.

(** What a [throw] statement or a rejected promise carries. *)
Inductive thrown : Type :=
| TError (e : JsError)          (* an Error object *)
| TNullish                      (* null or undefined *)
| TOther (json : string).       (* any other value, by its JSON rendering *)

(** How the promise returned by a call settles. *)
Inductive Outcome : Type :=
| Resolved
| Rejected (reason : thrown).

(** The result of a statement that may throw. *)
Inductive Exc (A : Type) : Type :=
| Ok (a : A)
| Raise (e : thrown).
Arguments Ok {A} a.
Arguments Raise {A} e.

#[global] Instance exc_ret : MRet Exc := fun A a => Ok a.
#[global] Instance exc_bind : MBind Exc := fun A B f m =>
  match m with
  | Ok a => f a
  | Raise e => Raise e
  end.

(** ** The store

    Every call of a composed function owns a private variable [index]
    (compose.js line 15) that all the [dispatch] closures of that call share.
    The store keeps one cell per call.  [clock] counts the suspension points
    that asynchronous steps go through. *)

Record World (Ctx : Type) : Type := mkWorld {
  ctx : Ctx;
  cells : list Z;
  clock : nat
}.
Arguments mkWorld {Ctx} ctx cells clock.
Arguments ctx {Ctx} w.
Arguments cells {Ctx} w.
Arguments clock {Ctx} w.

Section Store.
Context {Ctx : Type}.

(** The value of the variable [index] of the call that owns [cell]. *)
Definition index_of (cell : nat) (w : World Ctx) : Z :=
  default (-1) (cells w !! cell).

(** [index = i] *)
Definition set_index (cell : nat) (i : Z) (w : World Ctx) : World Ctx :=
  mkWorld (ctx w) (<[cell := i]> (cells w)) (clock w).

(** [let index = -1] of a new call; the new cell is [length (cells w)]. *)
Definition alloc (w : World Ctx) : World Ctx :=
  mkWorld (ctx w) (cells w ++ [-1]) (clock w).

Definition with_ctx (f : Ctx -> Ctx) (w : World Ctx) : World Ctx :=
  mkWorld (f (ctx w)) (cells w) (clock w).

Definition tick (w : World Ctx) : World Ctx :=
  mkWorld (ctx w) (cells w) (S (clock w)).
End Store.

(** A continuation: a call that takes the store and settles a promise. *)
Definition K (Ctx : Type) : Type := World Ctx -> Outcome * World Ctx.

(** ** compose.js *)

Definition multiple_times : thrown :=
  TError (Error "next() called multiple times").

Section Compose.
Context {Ctx M : Type}.

(** [call func next] is [func(context, next)], seen through the promise that
    [Promise.resolve] makes of its result; a synchronous throw is caught by
    the [try] of [dispatch] and gives a rejected promise as well. *)
Variable call : M -> K Ctx -> K Ctx.

(** [dispatch(i)] once [i] is past the last index at which the array or
    [next] holds a function: lines 17, 18 and 21. *)
Definition dispatch_end (cell : nat) (i : Z) : K Ctx := fun w =>
  if (i <=? index_of cell w)%Z then (Rejected multiple_times, w)
  else (Resolved, set_index cell i w).

(** [dispatch(i)], lines 16 to 27.  [middleware] is the part of the array
    from position [i] on, so that [middleware[i]] is its head and
    [i === middleware.length] when it is empty. *)
Fixpoint dispatch (cell : nat) (next : option (K Ctx -> K Ctx))
    (middleware : list M) (i : Z) (w : World Ctx) {struct middleware}
    : Outcome * World Ctx :=
  if (i <=? index_of cell w)%Z then (Rejected multiple_times, w)
  else
    let w := set_index cell i w in
    match middleware with
    | func :: rest => call func (dispatch cell next rest (i + 1)) w
    | [] =>
        match next with
        | Some func => func (dispatch_end cell (i + 1)) w
        | None => (Resolved, w)
        end
    end.

(** [compose(middleware)(context, next)], lines 13 to 29. *)
Definition compose (middleware : list M) (next : option (K Ctx -> K Ctx))
    : K Ctx := fun w =>
  dispatch (length (cells w)) next middleware 0 (alloc w).
End Compose.

(** ** Middleware bodies

    The body of a middleware function, as the sequence of things it does with
    its two arguments.  [Stmt f k] is a statement on the context that may
    throw, [Read k] a branch on the context.  [Next k] is [next()] awaited
    or chained with [then]: [k] gets the outcome of the promise, so a body
    may catch a downstream rejection or pass it on.  [Pause] is the await of
    a promise of the step's own (a timer): a point where an asynchronous
    step is suspended.  [Delegate ms k] is [compose(ms)(context, next)],
    awaited.

    An [async] function that awaits and a plain function that returns the
    chain [next().then(...)] have the same body here, and so have a
    [throw] in either: [dispatch] turns the value returned into a promise
    and a synchronous exception into a rejected one (lines 22 to 26).  The
    value that a promise resolves with is not kept. *)

#[warnings="-register-all"]
Inductive prog (Ctx : Type) : Type :=
| Ret
| Throw (e : thrown)
| Stmt (f : Ctx -> Exc Ctx) (k : prog Ctx)
| Read (k : Ctx -> prog Ctx)
| Pause (k : prog Ctx)
| Next (k : Outcome -> prog Ctx)
| Delegate (ms : list (prog Ctx)) (k : Outcome -> prog Ctx).
Arguments Ret {Ctx}.
Arguments Throw {Ctx} e.
Arguments Stmt {Ctx} f k.
Arguments Read {Ctx} k.
Arguments Pause {Ctx} k.
Arguments Next {Ctx} k.
Arguments Delegate {Ctx} ms k.

(** The end of a body that returns the promise it was given. *)
Definition settle {Ctx} (o : Outcome) : prog Ctx :=
  match o with
  | Resolved => Ret
  | Rejected e => Throw e
  end.

(** [run p next w]: how the promise of a call of the function with body [p]
    settles, and the store it leaves, when the call is made in the store [w]
    with the continuation [next]. *)
Fixpoint run {Ctx} (p : prog Ctx) (next : K Ctx) (w : World Ctx)
    {struct p} : Outcome * World Ctx :=
  match p with
  | Ret => (Resolved, w)
  | Throw e => (Rejected e, w)
  | Stmt f k =>
      match f (ctx w) with
      | Ok c => run k next (with_ctx (fun _ => c) w)
      | Raise e => (Rejected e, w)
      end
  | Read k => run (k (ctx w)) next w
  | Pause k => run k next (tick w)
  | Next k => let '(o, w') := next w in run (k o) next w'
  | Delegate ms k =>
      let '(o, w') := compose run ms (Some (fun _ => next)) w in
      run (k o) next w'
  end.

(** Induction on bodies that also goes through the lists of [Delegate]. *)
Section ProgInd.
Context {Ctx : Type} (P : prog Ctx -> Prop).
Hypothesis HRet : P Ret.
Hypothesis HThrow : forall e, P (Throw e).
Hypothesis HStmt : forall f k, P k -> P (Stmt f k).
Hypothesis HRead : forall k, (forall c, P (k c)) -> P (Read k).
Hypothesis HPause : forall k, P k -> P (Pause k).
Hypothesis HNext : forall k, (forall o, P (k o)) -> P (Next k).
Hypothesis HDelegate :
  forall ms k, Forall P ms -> (forall o, P (k o)) -> P (Delegate ms k).

Fixpoint prog_nested_ind (p : prog Ctx) : P p :=
  match p with
  | Ret => HRet
  | Throw e => HThrow e
  | Stmt f k => HStmt f k (prog_nested_ind k)
  | Read k => HRead k (fun c => prog_nested_ind (k c))
  | Pause k => HPause k (prog_nested_ind k)
  | Next k => HNext k (fun o => prog_nested_ind (k o))
  | Delegate ms k =>
      HDelegate ms k
        ((fix all (l : list (prog Ctx)) : Forall P l :=
            match l with
            | [] => @List.Forall_nil _ P
            | m :: l' => @List.Forall_cons _ P m l' (prog_nested_ind m) (all l')
            end) ms)
        (fun o => prog_nested_ind (k o))
  end.
End ProgInd.

(** ** Later stores

    [w2] is a later store than [w1]: every call of [w1] is still there and
    its index is at least what it was. *)

Definition cells_le {Ctx} (w1 w2 : World Ctx) : Prop :=
  forall c v, cells w1 !! c = Some v ->
    exists v', cells w2 !! c = Some v' /\ (v <= v')%Z.

Definition mono_K {Ctx} (k : K Ctx) : Prop := forall w, cells_le w (k w).2.

Definition mono_M {Ctx} (m : K Ctx -> K Ctx) : Prop :=
  forall k, mono_K k -> mono_K (m k).

(** ** Steps that record their index

    The steps of the ordering property: each pushes its index, calls and
    awaits [next()], and pushes its index again.  An asynchronous step awaits
    timers of its own before and after the call ([before] and [after] of
    them); a synchronous one has none.  The context is the array. *)

Fixpoint pauses {Ctx} (n : nat) (k : prog Ctx) : prog Ctx :=
  match n with
  | O => k
  | S n' => Pause (pauses n' k)
  end.

Definition push (i : nat) (arr : list nat) : Exc (list nat) := Ok (arr ++ [i]).

Definition recorder (i before after : nat) : prog (list nat) :=
  Stmt (push i)
    (pauses before
       (Next (fun o =>
          match o with
          | Resolved => pauses after (Stmt (push i) Ret)
          | Rejected e => Throw e
          end))).

(** The steps with indices [i], [i + 1], ..., one for each entry of [styles]. *)
Fixpoint recorders (i : nat) (styles : list (nat * nat))
    : list (prog (list nat)) :=
  match styles with
  | [] => []
  | (before, after) :: rest => recorder i before after :: recorders (S i) rest
  end.

(** A step that calls [next()] twice, as in
    [async (ctx, next) => { await next(); await next(); }]. *)
Definition twice {Ctx} : prog Ctx := Next (fun _ => Next settle).

(** ** Strings *)

Definition lower_ascii (c : ascii) : ascii :=
  let n := nat_of_ascii c in
  if ((65 <=? n) && (n <=? 90))%nat then ascii_of_nat (n + 32) else c.

Definition upper_ascii (c : ascii) : ascii :=
  let n := nat_of_ascii c in
  if ((97 <=? n) && (n <=? 122))%nat then ascii_of_nat (n - 32) else c.

Fixpoint map_string (f : ascii -> ascii) (s : string) : string :=
  match s with
  | EmptyString => EmptyString
  | String c s' => String (f c) (map_string f s')
  end.

(** [s.toLowerCase()] and [s.toUpperCase()] on ASCII text. *)
Definition toLowerCase : string -> string := map_string lower_ascii.
Definition toUpperCase : string -> string := map_string upper_ascii.

(** [s.split(sep, 1)[0]]: the text before the first [sep]. *)
Fixpoint before_char (sep : ascii) (s : string) : string :=
  match s with
  | EmptyString => EmptyString
  | String c s' => if Ascii.eqb c sep then EmptyString
                   else String c (before_char sep s')
  end.

(** [Number.isSafeInteger(n)]: the integers that a number holds exactly. *)
Definition isSafeInteger (n : Z) : bool :=
  (- 9007199254740991 <=? n)%Z && (n <=? 9007199254740991)%Z.

(** [String(n)] for a safe integer: its decimal text.  (A larger number is
    written with its shortest digits, and with an exponent from 1e21 on.) *)
Definition string_of_Z (n : Z) : string :=
  DecimalString.NilZero.string_of_int (Z.to_int n).

(** [Buffer.byteLength(s)]: a string is held as the bytes of its UTF-8
    text. *)
Definition byteLength (s : string) : Z := Z.of_nat (String.length s).

(** [arr.join(sep)] *)
Fixpoint join (sep : string) (l : list string) : string :=
  match l with
  | [] => ""
  | [x] => x
  | x :: rest => String.append x (String.append sep (join sep rest))
  end.

(** [parseInt(s, 10)]: the value of the leading digits after white space
    and a sign; [None] is NaN. *)
Definition digit_of (c : ascii) : option Z :=
  let n := nat_of_ascii c in
  if ((48 <=? n) && (n <=? 57))%nat then Some (Z.of_nat (n - 48)) else None.

Fixpoint digits_value (acc : option Z) (s : string) : option Z :=
  match s with
  | EmptyString => acc
  | String c s' =>
      match digit_of c with
      | Some d => digits_value (Some (10 * default 0 acc + d)) s'
      | None => acc
      end
  end.

Definition is_space (c : ascii) : bool :=
  let n := nat_of_ascii c in
  ((n =? 32) || ((9 <=? n) && (n <=? 13)))%nat.

Fixpoint skip_spaces (s : string) : string :=
  match s with
  | String c s' => if is_space c then skip_spaces s' else s
  | EmptyString => s
  end.

Definition parseInt (s : string) : option Z :=
  match skip_spaces s with
  | String "-" s' => Z.opp <$> digits_value None s'
  | String "+" s' => digits_value None s'
  | s' => digits_value None s'
  end.

(** The white space of [\s] that is not ASCII, in the UTF-8 text of a
    string: U+00A0 takes two bytes; U+1680, U+2000 to U+200A, U+2028,
    U+2029, U+202F, U+205F, U+3000 and U+FEFF take three. *)
Definition space_of_two_bytes (a b : ascii) : bool :=
  ((nat_of_ascii a =? 194) && (nat_of_ascii b =? 160))%nat.

Definition space_of_three_bytes (a b c : ascii) : bool :=
  let a := nat_of_ascii a in
  let b := nat_of_ascii b in
  let c := nat_of_ascii c in
  ((a =? 225) && (b =? 154) && (c =? 128)
   || (a =? 226) && (b =? 128)
      && ((128 <=? c) && (c <=? 138) || (c =? 168) || (c =? 169) || (c =? 175))
   || (a =? 226) && (b =? 129) && (c =? 159)
   || (a =? 227) && (b =? 128) && (c =? 128)
   || (a =? 239) && (b =? 187) && (c =? 191))%nat.

(** What is left of [s] after the white space of [\s*]. *)
Fixpoint skip_white_space (s : string) : string :=
  match s with
  | String a s1 =>
      if is_space a then skip_white_space s1
      else
        match s1 with
        | String b s2 =>
            if space_of_two_bytes a b then skip_white_space s2
            else
              match s2 with
              | String c s3 =>
                  if space_of_three_bytes a b c then skip_white_space s3
                  else s
              | EmptyString => s
              end
        | EmptyString => s
        end
  | EmptyString => s
  end.

(** [/^\s*</.test(s)] *)
Definition starts_with_tag (s : string) : bool :=
  match skip_white_space s with
  | String "<" _ => true
  | _ => false
  end.

(** ** Header fields

    [res.setHeader(name, value)] of Node throws for a name that is not an
    HTTP token and for a value with a character that a header cannot hold.
    The text of a header is Latin-1: one character is one byte. *)

Fixpoint all_chars (p : ascii -> bool) (s : string) : bool :=
  match s with
  | String c s' => p c && all_chars p s'
  | EmptyString => true
  end.

(** The characters of a token: the letters, the digits and
    ! # $ % & ' * + - . ^ _ ` | ~ *)
Definition token_char (c : ascii) : bool :=
  let n := nat_of_ascii c in
  ((48 <=? n) && (n <=? 57) || (65 <=? n) && (n <=? 90)
   || (97 <=? n) && (n <=? 122))%nat
  || bool_decide (n ∈ [33; 35; 36; 37; 38; 39; 42; 43; 45; 46; 94; 95; 96;
                       124; 126]%nat).

(** [validateHeaderName]: a token of one character at least *)
Definition validHeaderName (name : string) : bool :=
  negb (String.eqb name "") && all_chars token_char name.

(** [checkInvalidHeaderChar]: a value holds tabs and the characters from
    0x20 to 0x7e and from 0x80 to 0xff. *)
Definition header_char (c : ascii) : bool :=
  let n := nat_of_ascii c in
  ((n =? 9) || (32 <=? n) && (n <=? 126) || (128 <=? n))%nat.

Definition validHeaderValue (value : string) : bool :=
  all_chars header_char value.

(** The fields of an object that [setHeader] accepts one after the other. *)
Definition valid_headers (fields : list (string * string)) : bool :=
  forallb (fun kv => validHeaderName kv.1 && validHeaderValue kv.2) fields.

(** ** Objects and their prototype

    The names that every ordinary object inherits from [Object.prototype].
    [k in obj] and the truthiness of [obj[k]] look at them as well as at the
    object's own properties. *)

Definition object_prototype_keys : list string :=
  [ "constructor"; "__defineGetter__"; "__defineSetter__"; "hasOwnProperty";
    "__lookupGetter__"; "__lookupSetter__"; "isPrototypeOf";
    "propertyIsEnumerable"; "toString"; "valueOf"; "__proto__";
    "toLocaleString" ].

Definition inherited (k : string) : bool :=
  bool_decide (k ∈ object_prototype_keys).

(** ** The libraries

    The tables and functions of npm packages that the code reads:
    [statuses.message], [mimeTypes.contentType], the route matcher that
    [pathToRegexp] compiles, and [decodeURIComponent]. *)

Record LayerOpts : Type := mkLayerOpts {
  opt_end : bool;
  opt_name : option string;
  opt_sensitive : bool;
  opt_strict : bool;
  opt_prefix : string;
  opt_ignoreCaptures : bool
}.

Record Libraries : Type := mkLibraries {
  (** [statuses.message[code]] *)
  statuses_message : Z -> option string;
  (** [mimeTypes.contentType(type)]; [None] is [false] *)
  mime_contentType : string -> option string;
  (** [pathToRegexp(path, keys, opts)] applied to a request path: the
      captures when it matches *)
  pathToRegexp : string -> LayerOpts -> string -> option (list string);
  (** the names that [pathToRegexp] puts in [keys] *)
  pathToRegexp_keys : string -> LayerOpts -> list string;
  (** [decodeURIComponent(s)]; [None] when it throws *)
  decodeURIComponent : string -> option string
}.

(** [statuses.empty[code]] *)
Definition statuses_empty (code : Z) : bool :=
  (code =? 204) || (code =? 205) || (code =? 304).

(** ** The response *)

(** What can be assigned to [body]. *)
Inductive body : Type :=
| BUndefined
| BNull
| BString (s : string)
| BBuffer (bytes : string)
| BStream (id : nat)
| BBool (b : bool)
| BNumber (n : Z)
| BObject (json : string).   (* an object or an array, with its JSON text *)

#[global] Instance body_eq_dec : EqDecision body.
Proof. solve_decision. Defined.

(** [value == null] *)
Definition nullish (v : body) : bool :=
  match v with
  | BUndefined | BNull => true
  | _ => false
  end.

Definition body_truthy (v : body) : bool :=
  match v with
  | BUndefined | BNull => false
  | BString s => negb (String.eqb s "")
  | BBool b => b
  | BNumber n => negb (n =? 0)
  | BBuffer _ | BStream _ | BObject _ => true
  end.

(** The values whose JSON text is given below: a number is a safe
    integer. *)
Definition json_exact (v : body) : bool :=
  match v with
  | BNumber n => isSafeInteger n
  | _ => true
  end.

(** [JSON.stringify(body)] for the values that reach it; the text of a
    number is that of [string_of_Z]. *)
Definition JSON_stringify (v : body) : string :=
  match v with
  | BBool true => "true"
  | BBool false => "false"
  | BNumber n => string_of_Z n
  | BObject json => json
  | BString s => s
  | BBuffer s => s
  | BStream _ | BUndefined | BNull => ""
  end.

(** What was handed to the transport. *)
Inductive sent : Type :=
| NotEnded
| Ended (payload : string)       (* [res.end(payload)], [""] for [res.end()] *)
| Piped (id : nat).              (* [body.pipe(res)] *)

(** Node's [res] together with the private fields that response.js keeps
    next to it. *)
Record Response : Type := mkResponse {
  statusCode : Z;
  statusMessage : option string;
  headers : gmap string string;     (* by lower-cased name *)
  headersSent : bool;
  writableEnded : bool;
  socket : option bool;             (* [res.socket], with its [writable] *)
  _explicitStatus : bool;
  _explicitNullBody : bool;
  _body : body;
  output : sent
}.

Definition with_statusCode (n : Z) (r : Response) : Response :=
  mkResponse n (statusMessage r) (headers r) (headersSent r) (writableEnded r)
    (socket r) (_explicitStatus r) (_explicitNullBody r) (_body r) (output r).

Definition with_statusMessage (m : option string) (r : Response) : Response :=
  mkResponse (statusCode r) m (headers r) (headersSent r) (writableEnded r)
    (socket r) (_explicitStatus r) (_explicitNullBody r) (_body r) (output r).

Definition with_headers (h : gmap string string) (r : Response) : Response :=
  mkResponse (statusCode r) (statusMessage r) h (headersSent r)
    (writableEnded r) (socket r) (_explicitStatus r) (_explicitNullBody r)
    (_body r) (output r).

Definition with_explicitStatus (b : bool) (r : Response) : Response :=
  mkResponse (statusCode r) (statusMessage r) (headers r) (headersSent r)
    (writableEnded r) (socket r) b (_explicitNullBody r) (_body r) (output r).

Definition with_explicitNullBody (b : bool) (r : Response) : Response :=
  mkResponse (statusCode r) (statusMessage r) (headers r) (headersSent r)
    (writableEnded r) (socket r) (_explicitStatus r) b (_body r) (output r).

Definition with_body (v : body) (r : Response) : Response :=
  mkResponse (statusCode r) (statusMessage r) (headers r) (headersSent r)
    (writableEnded r) (socket r) (_explicitStatus r) (_explicitNullBody r)
    v (output r).

(** [res.end(payload)]: the headers go out with the payload. *)
Definition res_end (payload : string) (r : Response) : Response :=
  mkResponse (statusCode r) (statusMessage r) (headers r) true true
    (socket r) (_explicitStatus r) (_explicitNullBody r) (_body r)
    (Ended payload).

(** [body.pipe(res)] *)
Definition res_pipe (id : nat) (r : Response) : Response :=
  mkResponse (statusCode r) (statusMessage r) (headers r) true
    (writableEnded r) (socket r) (_explicitStatus r) (_explicitNullBody r)
    (_body r) (Piped id).

(** The request, as far as the code below reads it. *)
Record Request : Type := mkRequest {
  method : string;
  path : string;
  host : string;
  httpVersionMajor : Z
}.

(** An [assert] of response.js that fails. *)
Definition AssertionError (msg : string) : thrown := TError (Error msg).

(** The errors of [setHeader], with their [code]. *)
Definition in_brackets (name : string) : string :=
  let quote := String (ascii_of_nat 34) EmptyString in
  String.append "["
    (String.append quote (String.append name (String.append quote "]"))).

Definition ERR_INVALID_HTTP_TOKEN (name : string) : thrown :=
  TError (mkError
            (String.append "Header name must be a valid HTTP token "
               (in_brackets name))
            FUndefined FUndefined false (Some "ERR_INVALID_HTTP_TOKEN") [] false).

Definition ERR_INVALID_CHAR (name : string) : thrown :=
  TError (mkError
            (String.append "Invalid character in header content "
               (in_brackets name))
            FUndefined FUndefined false (Some "ERR_INVALID_CHAR") [] false).

Section Response.
Variable lib : Libraries.
Variable req : Request.

(** [get(field)], [has(field)] *)
Definition get (field : string) (r : Response) : option string :=
  headers r !! toLowerCase field.

Definition has (field : string) (r : Response) : bool :=
  bool_decide (is_Some (get field r)).

(** [set(field, value)], lines 374 to 385, for one field whose name and
    value the code itself has chosen, which [setHeader] accepts *)
Definition set (field value : string) (r : Response) : Response :=
  if headersSent r then r
  else with_headers (<[toLowerCase field := value]> (headers r)) r.

(** [res.setHeader(name, value)] for a name and a value that the caller
    has not chosen itself: the two checks, then the assignment. *)
Definition setHeader (name value : string) (r : Response) : Exc Response :=
  if negb (validHeaderName name) then Raise (ERR_INVALID_HTTP_TOKEN name)
  else if negb (validHeaderValue value) then Raise (ERR_INVALID_CHAR name)
  else Ok (with_headers (<[toLowerCase name := value]> (headers r)) r).

(** [set(fields)] with an object, lines 381 to 383:
    [for (const key in field) this.set(key, field[key])] *)
Fixpoint set_all (fields : list (string * string)) (r : Response)
    : Exc Response :=
  match fields with
  | [] => Ok r
  | (key, value) :: fields' =>
      r ← (if headersSent r then Ok r else setHeader key value r);
      set_all fields' r
  end.

(** [remove(field)], lines 406 to 409 *)
Definition remove (field : string) (r : Response) : Response :=
  if headersSent r then r
  else with_headers (delete (toLowerCase field) (headers r)) r.

(** [get type], lines 320 to 324 *)
Definition get_type (r : Response) : string :=
  match get "Content-Type" r with
  | None => ""
  | Some type => before_char ";" type
  end.

(** [set type], lines 261 to 271.  The cache holds what [contentType]
    returned for the same argument. *)
Definition set_type (type : string) (r : Response) : Response :=
  match mime_contentType lib type with
  | Some mimeType =>
      if String.eqb mimeType "" then remove "Content-Type" r
      else set "Content-Type" mimeType r
  | None => remove "Content-Type" r
  end.

(** [set length], lines 154 to 157 *)
Definition set_length (n : Z) (r : Response) : Response :=
  if has "Transfer-Encoding" r then r
  else set "Content-Length" (string_of_Z n) r.

(** [get length], lines 163 to 171; [None] is [undefined] *)
Definition get_length (r : Response) : option Z :=
  if has "Content-Length" r then
    Some (default 0 (parseInt (default "" (get "Content-Length" r))))
  else
    match _body r with
    | BStream _ => None
    | BString s => if body_truthy (BString s) then Some (byteLength s) else None
    | BBuffer s => Some (byteLength s)
    | v => if body_truthy v then Some (byteLength (JSON_stringify v)) else None
    end.

(** [get writable], lines 415 to 420 *)
Definition writable (r : Response) : bool :=
  if writableEnded r then false
  else match socket r with
       | None => true
       | Some w => w
       end.

(** [get message], lines 69 to 71 *)
Definition get_message (r : Response) : option string :=
  match statusMessage r with
  | Some m => if String.eqb m "" then statuses_message lib (statusCode r)
              else Some m
  | None => statuses_message lib (statusCode r)
  end.

(** Lines 59 to 61 of [set status]. *)
Definition assign_status (code : Z) (r : Response) : Response :=
  with_statusMessage
    (if httpVersionMajor req <? 2 then statuses_message lib code
     else statusMessage r)
    (with_statusCode code (with_explicitStatus true r)).

(** [set status] (lines 55 to 63) and [set body] (lines 93 to 148) call each
    other; [fuel] bounds the depth of these calls. *)
Definition out_of_fuel : thrown := TOther "call depth exceeded".

Fixpoint set_status (fuel : nat) (code : Z) (r : Response) : Exc Response :=
  match fuel with
  | O => Raise out_of_fuel
  | S fuel' =>
      if headersSent r then Ok r
      else if negb ((100 <=? code) && (code <=? 999)) then
        Raise (AssertionError
                 (String.append "invalid status code: " (string_of_Z code)))
      else
        let r := assign_status code r in
        if body_truthy (_body r) && statuses_empty code
        then set_body fuel' BNull r
        else Ok r
  end
with set_body (fuel : nat) (value : body) (r : Response) : Exc Response :=
  match fuel with
  | O => Raise out_of_fuel
  | S fuel' =>
      let original := _body r in
      let r := with_body value r in
      if nullish value then
        (* no content *)
        if negb (statuses_empty (statusCode r))
           && String.eqb (get_type r) "application/json"
        then Ok (with_body (BString "null") r)
        else
          r ← (if negb (statuses_empty (statusCode r))
               then set_status fuel' 204 r else Ok r);
          let r := match value with
                   | BNull => with_explicitNullBody true r
                   | _ => r
                   end in
          Ok (remove "Transfer-Encoding"
                (remove "Content-Length" (remove "Content-Type" r)))
      else
        (* set the status *)
        r ← (if negb (_explicitStatus r) then set_status fuel' 200 r else Ok r);
        (* set the content-type only if not yet set *)
        let setType := negb (has "Content-Type" r) in
        match value with
        | BString s =>
            let r := if setType
                     then set_type (if starts_with_tag s then "html" else "text") r
                     else r in
            Ok (set_length (byteLength s) r)
        | BBuffer s =>
            let r := if setType then set_type "bin" r else r in
            Ok (set_length (byteLength s) r)
        | BStream id =>
            let r := if negb (bool_decide (original = value))
                        && negb (nullish original)
                     then remove "Content-Length" r else r in
            Ok (if setType then set_type "bin" r else r)
        | _ =>
            (* json *)
            Ok (set_type "json" (remove "Content-Length" r))
        end
  end.
End Response.

(** ** The context *)

(** What [allowedMethods] and the context keep of a layer. *)
Record LayerInfo : Type := mkLayerInfo {
  layer_path : string;
  layer_methods : list string;
  layer_name : option string;
  layer_opts : LayerOpts
}.

Record Context : Type := mkContext {
  request : Request;
  respond : bool;                        (* [ctx.respond !== false] *)
  response : Response;
  matched : option (list LayerInfo);
  routerPath : option string;
  routerName : option string;
  _matchedRoute : option string;
  _matchedRouteName : option string;
  captures : list string;
  params : gmap string string;
  emitted : list JsError                 (* [app.emit("error", err, ctx)] *)
}.

Definition with_response (r : Response) (c : Context) : Context :=
  mkContext (request c) (respond c) r (matched c) (routerPath c) (routerName c)
    (_matchedRoute c) (_matchedRouteName c) (captures c) (params c) (emitted c).

Definition with_matched (m : option (list LayerInfo)) (c : Context) : Context :=
  mkContext (request c) (respond c) (response c) m (routerPath c) (routerName c)
    (_matchedRoute c) (_matchedRouteName c) (captures c) (params c) (emitted c).

Definition with_matchedRoute (p : option string) (n : option string)
    (c : Context) : Context :=
  mkContext (request c) (respond c) (response c) (matched c) (routerPath c)
    (routerName c) p n (captures c) (params c) (emitted c).

Definition with_route (cs : list string) (ps : gmap string string)
    (rp rn : option string) (c : Context) : Context :=
  mkContext (request c) (respond c) (response c) (matched c) rp rn
    (_matchedRoute c) (_matchedRouteName c) cs ps (emitted c).

Definition emit_error (e : JsError) (c : Context) : Context :=
  mkContext (request c) (respond c) (response c) (matched c) (routerPath c)
    (routerName c) (_matchedRoute c) (_matchedRouteName c) (captures c)
    (params c) (emitted c ++ [e]).

(** The depth that the two setters need: each calls the other at most once,
    and that call goes no deeper. *)
Definition setter_depth : nat := 2.

Section Application.
Variable lib : Libraries.

(** The accessors that context.js delegates to the response. *)
Definition ctx_set_status (code : Z) (c : Context) : Exc Context :=
  r ← set_status lib (request c) setter_depth code (response c);
  Ok (with_response r c).

Definition ctx_set_body (value : body) (c : Context) : Exc Context :=
  r ← set_body lib (request c) setter_depth value (response c);
  Ok (with_response r c).

Definition ctx_set (field value : string) (c : Context) : Context :=
  with_response (set field value (response c)) c.

Definition on_response (f : Response -> Response) (c : Context) : Context :=
  with_response (f (response c)) c.

(** [handleResponse], index.js lines 85 to 133 *)
Definition handleResponse (c : Context) : Exc Context :=
  if negb (respond c) then Ok c
  else if negb (writable (response c)) then Ok c
  else
    let body := _body (response c) in
    let code := statusCode (response c) in
    (* ignore body *)
    if statuses_empty code then
      (* strip headers *)
      c ← ctx_set_body BNull c;
      Ok (on_response (res_end "") c)
    else if String.eqb (method (request c)) "HEAD" then
      let c :=
        if negb (headersSent (response c))
           && negb (has "Content-Length" (response c))
        then match get_length (response c) with
             | Some length => on_response (set_length length) c
             | None => c
             end
        else c in
      Ok (on_response (res_end "") c)
    else if nullish body then
      (* status body *)
      if _explicitNullBody (response c) then
        let c := on_response (remove "Content-Type") c in
        let c := on_response (remove "Transfer-Encoding") c in
        let c := on_response (set_length 0) c in
        Ok (on_response (res_end "") c)
      else
        let text :=
          if 2 <=? httpVersionMajor (request c) then string_of_Z code
          else match get_message lib (response c) with
               | Some m => if String.eqb m "" then string_of_Z code else m
               | None => string_of_Z code
               end in
        let c :=
          if negb (headersSent (response c))
          then on_response (set_length (byteLength text))
                 (on_response (set_type lib "text") c)
          else c in
        Ok (on_response (res_end text) c)
    else
      (* responses *)
      match body with
      | BBuffer s => Ok (on_response (res_end s) c)
      | BString s => Ok (on_response (res_end s) c)
      | BStream id => Ok (on_response (res_pipe id) c)
      | _ =>
          (* body: json *)
          let text := JSON_stringify body in
          let c := if negb (headersSent (response c))
                   then on_response (set_length (byteLength text)) c else c in
          Ok (on_response (res_end text) c)
      end.

(** Lines 69 and 70 of [onerror]: a value that is not an Error is wrapped. *)
Definition wrap_non_error (err : thrown) : JsError :=
  match err with
  | TError e => e
  | TOther json => Error (String.append "non-error thrown: " json)
  | TNullish => Error "non-error thrown: null"
  end.

(** [err.status || err.statusCode] *)
Definition own_status (e : JsError) : jsfield :=
  field_or (err_status e) (err_statusCode e).

(** [typeof statusCode === "number" && statuses.message[statusCode]] *)
Definition known_status (f : jsfield) : option Z :=
  match f with
  | FNumber n =>
      match statuses_message lib n with
      | Some m => if String.eqb m "" then None else Some n
      | None => None
      end
  | _ => None
  end.

(** [onerror], context.js lines 65 to 106 *)
Definition onerror (err : thrown) (c : Context) : Exc Context :=
  match err with
  | TNullish => Ok c
  | _ =>
      let err := wrap_non_error err in
      let headerSent :=
        headersSent (response c) || negb (writable (response c)) in
      let err :=
        if headerSent
        then mkError (err_message err) (err_status err) (err_statusCode err)
               (err_expose err) (err_code err) (err_headers err) true
        else err in
      (* delegate *)
      let c := emit_error err c in
      if headerSent then Ok c
      else
        (* first unset all headers *)
        let c := on_response (with_headers ∅) c in
        (* then set those specified *)
        r ← set_all (err_headers err) (response c);
        let c := with_response r c in
        (* force text/plain *)
        let c := on_response (set_type lib "text") c in
        let statusCode := own_status err in
        (* ENOENT support *)
        let statusCode :=
          if bool_decide (err_code err = Some "ENOENT") then FNumber 404
          else statusCode in
        (* default to 500 *)
        let statusCode := default 500 (known_status statusCode) in
        (* respond *)
        let msg := if err_expose err then Some (err_message err)
                   else statuses_message lib statusCode in
        c ← ctx_set_status statusCode c;
        match msg with
        | None => Raise (TError (Error "Buffer.byteLength: argument is undefined"))
        | Some msg =>
            let c := on_response (set_length (byteLength msg)) c in
            Ok (on_response (res_end msg) c)
        end
  end.

(** What [handleRequest] leaves: the store, and the value thrown if the
    promise that it returns is rejected. *)
Definition handleRequest (fnMiddleware : K Context) (w : World Context)
    : Exc (World Context) :=
  let w := with_ctx (on_response (with_statusCode 404)) w in
  let '(o, w) := fnMiddleware w in
  let finish (c : Exc Context) : Exc (World Context) :=
    c ← c; Ok (with_ctx (fun _ => c) w) in
  match o with
  | Resolved =>
      match handleResponse (ctx w) with
      | Ok c => Ok (with_ctx (fun _ => c) w)
      | Raise e => finish (onerror e (ctx w))
      end
  | Rejected e => finish (onerror e (ctx w))
  end.

(** [callback()], index.js lines 69 to 76 *)
Definition callback (middleware : list (prog Context)) : World Context -> Exc (World Context) :=
  handleRequest (compose run middleware None).
End Application.

(** [createContext], index.js lines 141 to 154, on a fresh [res]. *)
Definition fresh_response : Response :=
  mkResponse 200 None ∅ false false (Some true) false false BUndefined NotEnded.

Definition createContext (req : Request) : Context :=
  mkContext req true fresh_response None None None None None [] ∅ [].

(** ** An instance of the libraries

    The entries of [statuses] and [mime-types] that the examples below look
    up, and a matcher for patterns without parameters: a path matches the
    pattern that it is equal to. *)

Definition sample_message (code : Z) : option string :=
  if code =? 200 then Some "OK"
  else if code =? 204 then Some "No Content"
  else if code =? 205 then Some "Reset Content"
  else if code =? 304 then Some "Not Modified"
  else if code =? 403 then Some "Forbidden"
  else if code =? 404 then Some "Not Found"
  else if code =? 405 then Some "Method Not Allowed"
  else if code =? 500 then Some "Internal Server Error"
  else if code =? 501 then Some "Not Implemented"
  else None.

Definition sample_contentType (type : string) : option string :=
  if String.eqb type "text" then Some "text/plain; charset=utf-8"
  else if String.eqb type "html" then Some "text/html; charset=utf-8"
  else if String.eqb type "json" then Some "application/json; charset=utf-8"
  else if String.eqb type "bin" then Some "application/octet-stream"
  else None.

Definition sample_lib : Libraries :=
  mkLibraries sample_message sample_contentType
    (fun pattern _ path => if String.eqb pattern path then Some [] else None)
    (fun _ _ => [])
    Some.

(** The three headers that an empty body removes. *)
Definition content_headers_removed (r : Response) : Prop :=
  get "Content-Type" r = None /\
  get "Content-Length" r = None /\
  get "Transfer-Encoding" r = None.

(** The two orders of the assignments [status = 404] and [body = null] in a
    middleware function. *)
Definition status_then_null (lib : Libraries) : prog Context :=
  Stmt (ctx_set_status lib 404) (Stmt (ctx_set_body lib BNull) Ret).

Definition null_then_status (lib : Libraries) : prog Context :=
  Stmt (ctx_set_body lib BNull) (Stmt (ctx_set_status lib 404) Ret).

(** Two responses that differ in their headers at most. *)
Definition same_but_headers (r r' : Response) : Prop :=
  statusCode r' = statusCode r /\
  statusMessage r' = statusMessage r /\
  headersSent r' = headersSent r /\
  writableEnded r' = writableEnded r /\
  socket r' = socket r /\
  _explicitStatus r' = _explicitStatus r /\
  _explicitNullBody r' = _explicitNullBody r /\
  _body r' = _body r /\
  output r' = output r.

(** An error with the status 204 and a header, and a context on which a
    body has been set. *)
Definition no_content_error : JsError :=
  mkError "gone" (FNumber 204) FUndefined false None [("X-Reason", "gone")]
    false.

Definition context_with_body : Context :=
  on_response (with_body (BString "partial"))
    (createContext (mkRequest "GET" "/" "" 1)).

(** An error with its own status 403 that also carries the code ENOENT. *)
Definition forbidden_enoent : JsError :=
  mkError "no such file" (FNumber 403) FUndefined false (Some "ENOENT") [] false.


(** ** router.js: layers *)

Record Layer : Type := mkLayer {
  info : LayerInfo;
  stack : list (prog Context)
}.

(** The loop over [methods] of the constructor, lines 482 to 485: each
    method is pushed in upper case, and HEAD is put in front when the method
    just pushed is GET. *)
Definition layer_methods_of (methods : list string) : list string :=
  fold_left
    (fun acc m =>
       let acc := acc ++ [toUpperCase m] in
       if String.eqb (toUpperCase m) "GET" then "HEAD" :: acc else acc)
    methods [].

(** [new Layer(path, methods, middleware, opts)], lines 477 to 494 *)
Definition new_Layer (path : string) (methods : list string)
    (middleware : list (prog Context)) (opts : LayerOpts) : Layer :=
  mkLayer (mkLayerInfo path (layer_methods_of methods) (opt_name opts) opts)
    middleware.

(** [setPrefix(prefix)], lines 626 to 633 *)
Definition setPrefix (prefix : string) (l : Layer) : Layer :=
  let i := info l in
  if String.eqb (layer_path i) "" then l
  else
    let path :=
      if negb (String.eqb (layer_path i) "/") || opt_strict (layer_opts i)
      then String.append prefix (layer_path i)
      else prefix in
    mkLayer (mkLayerInfo path (layer_methods i) (layer_name i) (layer_opts i))
      (stack l).

(** ** router.js: the router *)

Inductive HostSpec : Type :=
| HostString (s : string)
| HostRegExp (test : string -> bool).

Record RouterOpts : Type := mkRouterOpts {
  ropt_methods : option (list string);
  ropt_exclusive : bool;
  ropt_host : option HostSpec;
  ropt_prefix : string;              (* [""] when there is none *)
  ropt_routerPath : string;          (* [""] when there is none *)
  ropt_sensitive : bool;
  ropt_strict : bool
}.

(** [new Router({})] gets these. *)
Definition default_opts : RouterOpts :=
  mkRouterOpts None false None "" "" false false.

Record Router : Type := mkRouter {
  router_opts : RouterOpts;
  router_methods : list string;
  exclusive : bool;
  router_host : option HostSpec;
  router_stack : list Layer
}.

(** The constructor, lines 649 to 654 *)
Definition new_Router (opts : RouterOpts) : Router :=
  mkRouter opts
    (default ["HEAD"; "OPTIONS"; "GET"; "PUT"; "PATCH"; "POST"; "DELETE"]
       (ropt_methods opts))
    (ropt_exclusive opts) (ropt_host opts) [].

(** The options that a caller of [register] passes. *)
Record RegisterOpts : Type := mkRegisterOpts {
  reg_end : option bool;
  reg_name : option string;
  reg_sensitive : bool;
  reg_strict : bool;
  reg_prefix : string;
  reg_ignoreCaptures : bool
}.

(** [a || b] on strings *)
Definition or_string (a b : string) : string :=
  if String.eqb a "" then b else a.

(** [register(path, methods, middleware, opts)], lines 903 to 936, for one
    path and a router without parameter middleware. *)
Definition register (path : string) (methods : list string)
    (middleware : list (prog Context)) (opts : RegisterOpts) (router : Router)
    : Router :=
  let ropts := router_opts router in
  let route :=
    new_Layer path methods middleware
      (mkLayerOpts
         (match reg_end opts with Some false => false | _ => true end)
         (reg_name opts)
         (reg_sensitive opts || ropt_sensitive ropts || false)
         (reg_strict opts || ropt_strict ropts || false)
         (or_string (reg_prefix opts) (or_string (ropt_prefix ropts) ""))
         (reg_ignoreCaptures opts)) in
  let route :=
    if String.eqb (ropt_prefix ropts) "" then route
    else setPrefix (ropt_prefix ropts) route in
  mkRouter ropts (router_methods router) (exclusive router)
    (router_host router) (router_stack router ++ [route]).

(** [router.get(path, ...middleware)] and the like, lines 1029 to 1044:
    [register(path, [method], middleware, { name })] with no name. *)
Definition verb (method : string) (path : string)
    (middleware : list (prog Context)) (router : Router) : Router :=
  register path [method] middleware
    (mkRegisterOpts None None false false "" false) router.

Record Matched : Type := mkMatched {
  matched_path : list Layer;
  pathAndMethod : list Layer;
  route : bool
}.

(** The options of [allowedMethods]. *)
Record AllowedOpts : Type := mkAllowedOpts {
  opt_throw : bool;
  opt_notImplemented : option thrown;
  opt_methodNotAllowed : option thrown
}.

(** [new HttpError.NotImplemented()] and [new HttpError.MethodNotAllowed()] *)
Definition NotImplemented : thrown :=
  TError (mkError "Not Implemented" (FNumber 501) (FNumber 501) false None []
            false).

Definition MethodNotAllowed : thrown :=
  TError (mkError "Method Not Allowed" (FNumber 405) (FNumber 405) true None []
            false).

(** Reading [length] of [undefined]. *)
Definition TypeError_undefined : thrown :=
  TError (Error "Cannot read properties of undefined").

Section Router.
Variable lib : Libraries.

(** [layer.match(path)], lines 501 to 503 *)
Definition layer_match (l : LayerInfo) (path : string) : bool :=
  bool_decide (is_Some (pathToRegexp lib (layer_path l) (layer_opts l) path)).

(** [layer.captures(path)], lines 533 to 535 *)
Definition layer_captures (l : LayerInfo) (path : string) : list string :=
  if opt_ignoreCaptures (layer_opts l) then []
  else default [] (pathToRegexp lib (layer_path l) (layer_opts l) path).

(** [params[name] = value] on the ordinary object that holds the
    parameters: under the name [__proto__] sits the accessor of
    [Object.prototype], whose setter drops a string. *)
Definition assign_param (name value : string) (params : gmap string string)
    : gmap string string :=
  if String.eqb name "__proto__" then params else <[name := value]> params.

(** [layer.params(path, captures, params)], lines 512 to 526 *)
Fixpoint layer_params_loop (names captures : list string)
    (params : gmap string string) : gmap string string :=
  match names, captures with
  | name :: names', capture :: captures' =>
      let params :=
        if String.eqb capture "" then params
        else assign_param name
               (default capture (decodeURIComponent lib capture)) params in
      layer_params_loop names' captures' params
  | _, _ => params
  end.

Definition layer_params (l : LayerInfo) (captures : list string)
    (params : gmap string string) : gmap string string :=
  layer_params_loop (pathToRegexp_keys lib (layer_path l) (layer_opts l))
    captures params.

(** [match(path, method)], lines 972 to 985 *)
Definition router_match (router : Router) (path method : string) : Matched :=
  fold_left
    (fun m layer =>
       if layer_match (info layer) path then
         let methods := layer_methods (info layer) in
         if bool_decide (methods = []) || bool_decide (method ∈ methods) then
           mkMatched (matched_path m ++ [layer]) (pathAndMethod m ++ [layer])
             (if bool_decide (methods = []) then route m else true)
         else mkMatched (matched_path m ++ [layer]) (pathAndMethod m) (route m)
       else m)
    (router_stack router) (mkMatched [] [] false).

(** [matchHost(input)], lines 992 to 1002 *)
Definition matchHost (router : Router) (input : string) : bool :=
  match router_host router with
  | None => true
  | Some (HostString "") => true
  | Some (HostString host) =>
      if String.eqb input "" then false else String.eqb input host
  | Some (HostRegExp test) =>
      if String.eqb input "" then false else test input
  end.

(** The function that [dispatch] puts in front of the stack of a matched
    layer, lines 763 to 771. *)
Definition enter_layer (path : string) (layer : Layer) : prog Context :=
  Stmt (fun c =>
          let cs := layer_captures (info layer) path in
          let ps := layer_params (info layer) cs (params c) in
          let c := with_route cs ps (Some (layer_path (info layer)))
                     (layer_name (info layer)) c in
          Ok (with_matchedRoute (Some (layer_path (info layer)))
                (match layer_name (info layer) with
                 | Some n => if String.eqb n "" then _matchedRouteName c
                             else Some n
                 | None => _matchedRouteName c
                 end) c))
    (Next settle).

(** [routes()], lines 734 to 781 *)
Definition routes (router : Router) : prog Context :=
  Read (fun c =>
    if negb (matchHost router (host (request c))) then Next settle
    else
      let path :=
        or_string (ropt_routerPath (router_opts router))
          (or_string (default "" (routerPath c)) (path (request c))) in
      let found := router_match router path (method (request c)) in
      Stmt (fun c =>
              Ok (with_matched
                    (Some (default [] (matched c)
                             ++ map info (matched_path found))) c))
        (if negb (route found) then Next settle
         else
           let matchedLayers := pathAndMethod found in
           match last matchedLayers with
           | None => Throw TypeError_undefined
           | Some mostSpecificLayer =>
               Stmt (fun c =>
                       Ok (with_matchedRoute
                             (Some (layer_path (info mostSpecificLayer)))
                             (match layer_name (info mostSpecificLayer) with
                              | Some n => if String.eqb n ""
                                          then _matchedRouteName c else Some n
                              | None => _matchedRouteName c
                              end) c))
                 (Delegate
                    (flat_map (fun layer => enter_layer path layer :: stack layer)
                       (if exclusive router then [mostSpecificLayer]
                        else matchedLayers))
                    settle)
           end)).

(** The keys of the object [allowed], lines 798 to 809, in the order in
    which they were first assigned. *)
Definition allowed_keys (matched : list LayerInfo) : list string :=
  fold_left
    (fun allowed method =>
       if bool_decide (method ∈ allowed) then allowed else allowed ++ [method])
    (flat_map layer_methods matched) [].

(** [allowed[method]] is truthy: an own key, or one that the object
    inherits. *)
Definition allowed_has (allowed : list string) (method : string) : bool :=
  bool_decide (method ∈ allowed) || inherited method.

(** The function that [allowedMethods] chains to [next()], lines 797 to 833 *)
Definition allowed_respond (router : Router) (options : AllowedOpts)
    (c : Context) : prog Context :=
  let implemented := router_methods router in
  let status := statusCode (response c) in
  if (status =? 0) || (status =? 404) then
    match matched c with
    | None => Throw TypeError_undefined
    | Some layers =>
        let allowedArr := allowed_keys layers in
        let allow := ctx_set "Allow" (join ", " allowedArr) in
        let method := method (request c) in
        if negb (bool_decide (method ∈ implemented)) then
          if opt_throw options then
            Throw (default NotImplemented (opt_notImplemented options))
          else
            Stmt (ctx_set_status lib 501) (Stmt (fun c => Ok (allow c)) Ret)
        else if (0 <? length allowedArr)%nat then
          if String.eqb method "OPTIONS" then
            Stmt (ctx_set_status lib 200)
              (Stmt (ctx_set_body lib (BString ""))
                 (Stmt (fun c => Ok (allow c)) Ret))
          else if negb (allowed_has allowedArr method) then
            if opt_throw options then
              Throw (default MethodNotAllowed (opt_methodNotAllowed options))
            else
              Stmt (ctx_set_status lib 405) (Stmt (fun c => Ok (allow c)) Ret)
          else Ret
        else Ret
    end
  else Ret.

(** [allowedMethods(options)], lines 793 to 835 *)
Definition allowedMethods (router : Router) (options : AllowedOpts)
    : prog Context :=
  Next (fun o =>
    match o with
    | Rejected e => Throw e
    | Resolved => Read (allowed_respond router options)
    end).
End Router.

(** ** The router of the allowed-methods property

    [router.get("/users", ...); router.put("/users", ...)] on a new router
    with the method table [methods], and the application that uses
    [router.routes()] and then [router.allowedMethods()]. *)

Definition users_router (methods : option (list string))
    (get_handlers put_handlers : list (prog Context)) : Router :=
  verb "put" "/users" put_handlers
    (verb "get" "/users" get_handlers
       (new_Router (mkRouterOpts methods false None "" "" false false))).

(** The options that [register] gives the two layers, and what the context
    keeps of them. *)
Definition users_opts : LayerOpts := mkLayerOpts true None false false "" false.
Definition users_get : LayerInfo :=
  mkLayerInfo "/users" ["HEAD"; "GET"] None users_opts.
Definition users_put : LayerInfo :=
  mkLayerInfo "/users" ["PUT"] None users_opts.

Definition users_app (lib : Libraries) (router : Router)
    : list (prog Context) :=
  [routes lib router; allowedMethods lib router (mkAllowedOpts false None None)].

(** The answer to a request: status, Allow header and payload. *)
Definition answer (w : Exc (World Context))
    : option (Z * option string * sent) :=
  match w with
  | Ok w =>
      let r := response (ctx w) in
      Some (statusCode r, get "Allow" r, output r)
  | Raise _ => None
  end.

(** ** The runtime's [url] module

    [url.parse] and [Url.prototype.format] of Node.  The fields are those
    of Node's [Url] objects; [None] is [null].

    [parse] follows the steps of Node's parser that act on printable ASCII
    text: the fast path for a simple path, the protocol, the two slashes,
    the host up to the first character that a host cannot hold, the port,
    the lower-cased host name, the escaping of the rest, the hash, the
    query and the path.  It leaves out what Node does with white space
    around the URL, with back slashes, with credentials before an [@]
    (which are decoded), with an IPv6 address in brackets, and with a host
    name that has other characters than those of a DNS name or a punycode
    label (which is cut or converted, differently from one version of Node
    to the next).  [plain] below holds of the URLs that need none of
    these. *)

Module NodeUrl.

Record Url : Type := mkUrl {
  protocol : option string;
  slashes : bool;
  auth : option string;
  host : option string;
  port : option string;
  hostname : option string;
  hash : option string;
  search : option string;
  pathname : option string
}.

Definition truthy (s : option string) : bool :=
  match s with
  | Some s => negb (String.eqb s "")
  | None => false
  end.

Definition or_empty (s : option string) : string := default "" s.

Definition slashedProtocol (p : string) : bool :=
  bool_decide (p ∈ ["http"; "http:"; "https"; "https:"; "ftp"; "ftp:";
                    "gopher"; "gopher:"; "file"; "file:"; "ws"; "ws:";
                    "wss"; "wss:"]).

(** [hostlessProtocol] and [unsafeProtocol] are the same set. *)
Definition hostlessProtocol (p : string) : bool :=
  bool_decide (p ∈ ["javascript"; "javascript:"]).

(** The characters of [/^[a-z0-9.+-]+:/i] before the colon. *)
Definition protocol_char (c : ascii) : bool :=
  let n := nat_of_ascii (lower_ascii c) in
  ((97 <=? n) && (n <=? 122) || (48 <=? n) && (n <=? 57)
   || (n =? 46) || (n =? 43) || (n =? 45))%nat.

(** [span p s]: the longest prefix of [s] whose characters satisfy [p], and
    the rest. *)
Fixpoint span (p : ascii -> bool) (s : string) : string * string :=
  match s with
  | String c s' =>
      if p c then let '(a, b) := span p s' in (String c a, b)
      else (EmptyString, s)
  | EmptyString => (EmptyString, EmptyString)
  end.

(** Some character of [s] satisfies [p]; every character of [s] does. *)
Fixpoint any (p : ascii -> bool) (s : string) : bool :=
  match s with
  | String c s' => p c || any p s'
  | EmptyString => false
  end.

Definition all (p : ascii -> bool) (s : string) : bool :=
  negb (any (fun c => negb (p c)) s).

Definition starts_with (pre s : string) : bool := String.prefix pre s.

Definition drop (n : nat) (s : string) : string :=
  String.substring n (String.length s - n) s.

(** The text before the last [c] of [s] and the text after it. *)
Fixpoint split_last (c : ascii) (s : string) : option (string * string) :=
  match s with
  | EmptyString => None
  | String d s' =>
      match split_last c s' with
      | Some (a, b) => Some (String d a, b)
      | None => if Ascii.eqb d c then Some (EmptyString, s') else None
      end
  end.

Definition is_digit (c : ascii) : bool :=
  let n := nat_of_ascii c in ((48 <=? n) && (n <=? 57))%nat.

Definition all_digits (s : string) : bool :=
  String.eqb (fst (span is_digit s)) s.

(** [parseHost]: the port is what [/:[0-9]*$/] matches. *)
Definition parseHost (host : string) : string * option string :=
  match split_last ":" host with
  | Some (name, digits) =>
      if all_digits digits
      then (name, if String.eqb digits "" then None else Some digits)
      else (host, None)
  | None => (host, None)
  end.

Definition nonempty (s : string) : option string :=
  if String.eqb s "" then None else Some s.

(** The characters that end a host: [/], [?] and [#]. *)
Definition hostEnding (c : ascii) : bool :=
  bool_decide (nat_of_ascii c ∈ [47; 63; 35]%nat).

(** The characters that a host never holds: the three above, white space
    (tab, line feed, carriage return, space), the double and the single
    quote, and the characters % ; < > \ ^ ` { | }. *)
Definition nonHost (c : ascii) : bool :=
  hostEnding c
  || bool_decide (nat_of_ascii c ∈ [9; 10; 13; 32; 34; 37; 39; 59; 60; 62;
                                     92; 94; 96; 123; 124; 125]%nat).

(** The characters that are escaped after the host, with their escapes:
    white space, the two quotes, and < > \ ^ ` { | }. *)
Definition autoEscape : list (nat * string) :=
  [ (9, "%09"); (10, "%0A"); (13, "%0D"); (32, "%20"); (34, "%22");
    (39, "%27"); (60, "%3C"); (62, "%3E"); (92, "%5C"); (94, "%5E");
    (96, "%60"); (123, "%7B"); (124, "%7C"); (125, "%7D") ]%nat.

Fixpoint escape_of (table : list (nat * string)) (c : ascii) : string :=
  match table with
  | (n, escaped) :: table' =>
      if (nat_of_ascii c =? n)%nat then escaped else escape_of table' c
  | [] => String c EmptyString
  end.

Fixpoint autoEscapeStr (s : string) : string :=
  match s with
  | String c s' => String.append (escape_of autoEscape c) (autoEscapeStr s')
  | EmptyString => EmptyString
  end.

(** White space of [\s], among the ASCII characters. *)
Definition white_space (c : ascii) : bool :=
  let n := nat_of_ascii c in ((n =? 32) || ((9 <=? n) && (n <=? 13)))%nat.

(** [simplePathPattern]: one slash, or two that no third follows, then a
    path and a query without white space. *)
Definition simplePath (s : string) : bool :=
  starts_with "/" s && negb (starts_with "///" s) && negb (any white_space s).

(** [hostPattern], [/^\/\/[^@/]+@[^@/]+/]: without a protocol, two slashes
    begin a host only before credentials. *)
Definition hostPattern (s : string) : bool :=
  let no_at_slash c := negb (Ascii.eqb c "@" || Ascii.eqb c "/") in
  starts_with "//" s
  && match span no_at_slash (drop 2 s) with
     | (user, String "@" s') =>
         negb (String.eqb user "")
         && negb (String.eqb (fst (span no_at_slash s')) "")
     | _ => false
     end.

(** The host name is dropped when it is longer than this. *)
Definition hostnameMaxLen : nat := 255.

(** [url.parse(s)] *)
Definition parse (s : string) : Url :=
  let hasHash := any (Ascii.eqb "#") s in
  (* an [@] before the first [?] or [#] *)
  let hasAt :=
    any (Ascii.eqb "@")
      (fst (span (fun c => negb (Ascii.eqb c "?" || Ascii.eqb c "#")) s)) in
  if negb hasHash && negb hasAt && simplePath s then
    (* the fast path: nothing is escaped *)
    let '(pathname, search) := span (fun c => negb (Ascii.eqb c "?")) s in
    mkUrl None false None None None None None (nonempty search) (Some pathname)
  else
  let '(proto, rest) :=
    match span protocol_char s with
    | (p, String ":" rest') =>
        if String.eqb p "" then (None, s)
        else (Some (String.append p ":"), rest')
    | _ => (None, s)
    end in
  let lowerProto := toLowerCase (or_empty proto) in
  let two_slashes :=
    (truthy proto || hostPattern rest) && starts_with "//" rest in
  let has_slashes := two_slashes && negb (hostlessProtocol lowerProto) in
  let rest := if has_slashes then drop 2 rest else rest in
  (* the protocol is looked up as it was written, not in lower case *)
  let with_host :=
    negb (hostlessProtocol lowerProto)
    && (two_slashes || (truthy proto && negb (slashedProtocol (or_empty proto)))) in
  (* the host ends at the first [/], [?] or [#]; the last [@] before that
     ends the credentials; then the first character that a host cannot
     hold ends the host *)
  let '(authority, tail) :=
    if with_host then span (fun c => negb (hostEnding c)) rest
    else (EmptyString, rest) in
  let '(auth, hostport) :=
    match split_last "@" authority with
    | Some (a, h) => (Some a, h)
    | None => (None, authority)
    end in
  let '(hostport, extra) := span (fun c => negb (nonHost c)) hostport in
  let rest := String.append extra tail in
  let '(name, port) := parseHost hostport in
  let hostname :=
    if (hostnameMaxLen <? String.length name)%nat then EmptyString
    else toLowerCase name in
  let host :=
    String.append hostname
      (match port with Some p => String.append ":" p | None => "" end) in
  let rest := if hostlessProtocol lowerProto then rest else autoEscapeStr rest in
  let '(before_hash, hash) := span (fun c => negb (Ascii.eqb c "#")) rest in
  let '(pathname, search) :=
    span (fun c => negb (Ascii.eqb c "?")) before_hash in
  let pathname :=
    if slashedProtocol lowerProto && negb (String.eqb hostname "")
       && String.eqb pathname ""
    then "/" else pathname in
  mkUrl (toLowerCase <$> proto) has_slashes (if with_host then auth else None)
    (if with_host then Some host else None)
    (if with_host then port else None)
    (if with_host then Some hostname else None)
    (nonempty hash) (nonempty search) (nonempty pathname).

(** [url.format()] *)
Definition format (u : Url) : string :=
  let auth := if truthy (auth u) then String.append (or_empty (auth u)) "@"
              else "" in
  let protocol := or_empty (protocol u) in
  let pathname := or_empty (pathname u) in
  let hash := or_empty (hash u) in
  let host :=
    if truthy (host u) then String.append auth (or_empty (host u))
    else if truthy (hostname u) then
      String.append auth
        (String.append (or_empty (hostname u))
           (if truthy (port u) then String.append ":" (or_empty (port u))
            else ""))
    else "" in
  let search := or_empty (search u) in
  let protocol :=
    if negb (String.eqb protocol "")
       && negb (String.eqb (drop (String.length protocol - 1) protocol) ":")
    then String.append protocol ":" else protocol in
  let '(host, pathname) :=
    if slashes u || slashedProtocol protocol then
      if slashes u || negb (String.eqb host "") then
        (String.append "//" host,
         if negb (String.eqb pathname "") && negb (starts_with "/" pathname)
         then String.append "/" pathname else pathname)
      else if starts_with "file" protocol then ("//", pathname)
      else (host, pathname)
    else (host, pathname) in
  let hash := if negb (String.eqb hash "") && negb (starts_with "#" hash)
              then String.append "#" hash else hash in
  let search := if negb (String.eqb search "") && negb (starts_with "?" search)
                then String.append "?" search else search in
  String.append protocol
    (String.append host (String.append pathname (String.append search hash))).

(** [url.host = h] and [url.protocol = p] *)
Definition set_host (h : option string) (u : Url) : Url :=
  mkUrl (protocol u) (slashes u) (auth u) h (port u) (hostname u) (hash u)
    (search u) (pathname u).

Definition set_protocol (p : option string) (u : Url) : Url :=
  mkUrl p (slashes u) (auth u) (host u) (port u) (hostname u) (hash u)
    (search u) (pathname u).




End NodeUrl.

(** ** web.out.js: the redirect pass *)

(** [String.prototype.endsWith] *)
Definition ends_with (suffix s : string) : bool :=
  let n := String.length s in
  let k := String.length suffix in
  (k <=? n)%nat && String.eqb (String.substring (n - k) k s) suffix.

(** [redirectRegex.test(statusCode)] for [/^201|30([1278])$/]: the text of
    the number begins with 201, or ends with 301, 302, 307 or 308. *)
Definition redirectRegex_test (statusCode : Z) : bool :=
  let s := string_of_Z statusCode in
  String.prefix "201" s
  || ends_with "301" s || ends_with "302" s
  || ends_with "307" s || ends_with "308" s.

(** The options that the pass reads; [""] and [false] are the falsy values
    of an option that is not set. *)
Record RewriteOptions : Type := mkRewriteOptions {
  target : string;
  hostRewrite : string;
  autoRewrite : bool;
  protocolRewrite : string
}.

(** [setRedirectHostRewrite(req, res, proxyRes, options)], web.out.js lines
    68 to 84, as the new value of [proxyRes.headers["location"]].
    [req_host] is [req.headers["host"]]. *)
Definition setRedirectHostRewrite (req_host : option string)
    (statusCode : Z) (location : option string) (options : RewriteOptions)
    : option string :=
  if (negb (String.eqb (hostRewrite options) "") || autoRewrite options
      || negb (String.eqb (protocolRewrite options) ""))
     && NodeUrl.truthy location && redirectRegex_test statusCode
  then
    let target := NodeUrl.parse (target options) in
    let url := NodeUrl.parse (default "" location) in
    (* make sure the redirected host matches the target host before rewriting *)
    if negb (bool_decide (NodeUrl.host target = NodeUrl.host url)) then location
    else
      let url :=
        if negb (String.eqb (hostRewrite options) "")
        then NodeUrl.set_host (Some (hostRewrite options)) url
        else if autoRewrite options then NodeUrl.set_host req_host url
        else url in
      let url :=
        if negb (String.eqb (protocolRewrite options) "")
        then NodeUrl.set_protocol (Some (protocolRewrite options)) url
        else url in
      Some (NodeUrl.format url)
  else location.


(** ** shared.js: cookie attributes *)

(** White space of [\s] in a header, which is Latin-1 text. *)
Definition regexp_space (c : ascii) : bool :=
  let n := nat_of_ascii c in
  ((n =? 32) || ((9 <=? n) && (n <=? 13)) || (n =? 160))%nat.

(** [s] begins with [property], up to the case of ASCII letters: the text
    that matched and the rest. *)
Fixpoint match_property (property s : string) : option (string * string) :=
  match property, s with
  | EmptyString, _ => Some (EmptyString, s)
  | String p property', String c s' =>
      if Ascii.eqb (lower_ascii p) (lower_ascii c) then
        match match_property property' s' with
        | Some (m, rest) => Some (String c m, rest)
        | None => None
        end
      else None
  | String _ _, EmptyString => None
  end.

(** A match of [(;\s*property=)([^;]+)] that begins at the start of [s]: the
    two groups and what follows the match. *)
Definition match_here (property s : string)
    : option (string * string * string) :=
  match s with
  | String ";" s1 =>
      let '(spaces, s2) := NodeUrl.span regexp_space s1 in
      match match_property property s2 with
      | Some (name, String "=" s3) =>
          let '(value, rest) :=
            NodeUrl.span (fun c => negb (Ascii.eqb c ";")) s3 in
          if String.eqb value "" then None
          else
            Some (String ";" (String.append spaces (String.append name "=")),
                  value, rest)
      | _ => None
      end
  | _ => None
  end.

(** The leftmost match in [s]: the text before it, the two groups, and the
    text after it. *)
Fixpoint find_match (property s : string)
    : option (string * string * string * string) :=
  match match_here property s with
  | Some (prefix, value, rest) => Some (EmptyString, prefix, value, rest)
  | None =>
      match s with
      | String c s' =>
          match find_match property s' with
          | Some (before, prefix, value, rest) =>
              Some (String c before, prefix, value, rest)
          | None => None
          end
      | EmptyString => None
      end
  end.

(** A property of the configuration object as [config[key]] gives it: a
    string of its own, or what the object inherits from [Object.prototype]. *)
Inductive property_value : Type :=
| OwnValue (s : string)
| InheritedValue (name : string).

(** [key in config] and [config[key]] *)
Definition config_get (config : gmap string string) (key : string)
    : option property_value :=
  match config !! key with
  | Some s => Some (OwnValue s)
  | None => if inherited key then Some (InheritedValue key) else None
  end.

(** The text that [prefix + value] appends for a value: the text of a native
    function for an inherited method, of an object for [__proto__]. *)
Definition value_text (v : property_value) : string :=
  match v with
  | OwnValue s => s
  | InheritedValue "__proto__" => "[object Object]"
  | InheritedValue "constructor" => "function Object() { [native code] }"
  | InheritedValue name =>
      String.append "function " (String.append name "() { [native code] }")
  end.

Definition value_truthy (v : property_value) : bool :=
  match v with
  | OwnValue s => negb (String.eqb s "")
  | InheritedValue _ => true
  end.

(** The function that [replace] calls on a match, lines 119 to 127. *)
Definition cookie_replacement (config : gmap string string)
    (prefix previousValue : string) : string :=
  let whole := String.append prefix previousValue in
  match config_get config previousValue with
  | Some newValue =>
      if value_truthy newValue then String.append prefix (value_text newValue)
      else ""
  | None =>
      match config_get config "*" with
      | Some newValue =>
          if value_truthy newValue
          then String.append prefix (value_text newValue)
          else ""
      | None => whole
      end
  end.

(** [rewriteCookieProperty(header, config, property)], shared.js lines 114
    to 128, for a header that is one string. *)
Definition rewriteCookieProperty (header : string)
    (config : gmap string string) (property : string) : string :=
  match find_match property header with
  | Some (before, prefix, previousValue, rest) =>
      String.append before
        (String.append (cookie_replacement config prefix previousValue) rest)
  | None => header
  end.

(** The same for a header that is an array of strings. *)
Definition rewriteCookieProperty_all (headers : list string)
    (config : gmap string string) (property : string) : list string :=
  map (fun h => rewriteCookieProperty h config property) headers.

From Stdlib Require Import DecimalPos.

(** ** Steps that end the chain

    Three more kinds of step for the ordering properties.  A step that
    pushes its index and returns without calling [next()]; one that pushes
    its index and throws; and one that wraps [await next()] in [try] and
    [catch] and pushes its index again whatever the promise settled with. *)

Definition stopper (i : nat) : prog (list nat) := Stmt (push i) Ret.

Definition thrower (i : nat) (e : thrown) : prog (list nat) :=
  Stmt (push i) (Throw e).

Definition catcher (i : nat) : prog (list nat) :=
  Stmt (push i) (Next (fun _ => Stmt (push i) Ret)).

(** ** Two stores for the same calls

    [pairing] lists the calls that are live in two runs of the same code:
    [(a, b)] says that the call whose index variable is the cell [a] of the
    first store is the call whose variable is the cell [b] of the second.
    Two stores agree on a pairing when the contexts are equal and the paired
    variables hold the same index. *)

Definition pairing : Type := list (nat * nat).

Definition one_to_one (S : pairing) : Prop :=
  forall a b a' b', (a, b) ∈ S -> (a', b') ∈ S -> (a = a' <-> b = b').

Definition agree {Ctx} (S : pairing) (w1 w2 : World Ctx) : Prop :=
  ctx w1 = ctx w2 /\
  one_to_one S /\
  forall a b, (a, b) ∈ S ->
    (a < length (cells w1))%nat /\ (b < length (cells w2))%nat /\
    index_of a w1 = index_of b w2.

(** Two continuations that settle alike, and leave stores that agree,
    whenever they are called in stores that agree on a pairing that extends
    [S]. *)
Definition alike {Ctx} (S : pairing) (k1 k2 : K Ctx) : Prop :=
  forall S' w1 w2, S ⊆ S' -> agree S' w1 w2 ->
    (k1 w1).1 = (k2 w2).1 /\ agree S' (k1 w1).2 (k2 w2).2.

(** ** router.js: the prefix of a router *)

(** [prefix.replace(/\/$/, "")]: a slash at the end is removed. *)
Fixpoint strip_trailing_slash (s : string) : string :=
  match s with
  | EmptyString => EmptyString
  | String c EmptyString => if Ascii.eqb c "/" then EmptyString else s
  | String c s' => String c (strip_trailing_slash s')
  end.

(** [router.prefix(prefix)], lines 722 to 728 *)
Definition router_prefix (prefix : string) (router : Router) : Router :=
  let prefix := strip_trailing_slash prefix in
  let o := router_opts router in
  mkRouter
    (mkRouterOpts (ropt_methods o) (ropt_exclusive o) (ropt_host o) prefix
       (ropt_routerPath o) (ropt_sensitive o) (ropt_strict o))
    (router_methods router) (exclusive router) (router_host router)
    (map (setPrefix prefix) (router_stack router)).

(** ** The proxy: requests, responses and header objects

    The passes of the proxy, with the place of their text in the sources:

    - [removeChunked], [setConnection], [writeHeaders], [writeStatusCode] of
      web.out.js: plugins/express/compose.js, lines 45 to 61 and 92 to 134;
    - [deleteLength], [XHeaders] and the loop over the outgoing passes of
      web.in.js: unnamed/part_006, lines 16 to 21, 39 to 54 and 135 to 139;
    - [setupOutgoing], [getPort], [hasEncryptedConnection], [urlJoin],
      [hasPort] and [required] of shared.js: unnamed/part_007, lines 18 to
      61, 81 to 106 and 135 to 150;
    - [checkMethodAndHeader] of ws.in.js: plugins/proxy/ws.in.js, lines 12
      to 21;
    - [before], [after] and the loop over the passes of [createRightProxy]:
      plugins/proxy/index.js, lines 41 to 59 and 94 to 97. *)

(** A header value: a string, or an array of strings as Node keeps
    [set-cookie]. *)
Inductive hvalue : Type :=
| HString (s : string)
| HArray (l : list string).


(** An object with string keys: its own properties in the order in which
    they were added, which is the order of [Object.keys]. *)
Definition jsobject : Type := list (string * hvalue).




(** The request of the client, as the passes read it. *)
Record IncomingMessage : Type := mkIncoming {
  in_method : string;
  in_url : string;
  in_httpVersion : string;
  in_headers : gmap string string;
  in_connection_remoteAddress : option string;
  in_socket_remoteAddress : option string;
  in_encrypted : bool;          (* [req.connection.encrypted] *)
  in_pair : bool;               (* [req.connection.pair] *)
  in_isSpdy : bool
}.

Definition with_in_headers (h : gmap string string) (req : IncomingMessage)
    : IncomingMessage :=
  mkIncoming (in_method req) (in_url req) (in_httpVersion req) h
    (in_connection_remoteAddress req) (in_socket_remoteAddress req)
    (in_encrypted req) (in_pair req) (in_isSpdy req).

(** The response of the target. *)
Record ProxyResponse : Type := mkProxyResponse {
  pres_statusCode : Z;
  pres_statusMessage : option string;
  pres_headers : jsobject;
  pres_rawHeaders : option (list string)
}.


(** The response to the client.  [res.setHeader(name, value)] keeps the
    header under the lower-cased name, with the name as it was given; the
    names are taken to be valid. *)
Record ServerResponse : Type := mkServerResponse {
  sres_statusCode : Z;
  sres_statusMessage : option string;
  sres_headers : gmap string (string * hvalue);
  sres_headersSent : bool
}.

Definition res_setHeader (name : string) (value : hvalue)
    (res : ServerResponse) : ServerResponse :=
  mkServerResponse (sres_statusCode res) (sres_statusMessage res)
    (<[toLowerCase name := (name, value)]> (sres_headers res))
    (sres_headersSent res).

(** [a || b] on header strings *)
Definition header_or (a : option string) (b : string) : string :=
  match a with
  | Some s => if String.eqb s "" then b else s
  | None => b
  end.

(** ** web.out.js: the passes on the response of the target *)





(** [s.trim()] on Latin-1 text *)
Fixpoint trim_end (s : string) : string :=
  match s with
  | EmptyString => EmptyString
  | String c s' =>
      let t := trim_end s' in
      if String.eqb t "" && regexp_space c then EmptyString else String c t
  end.

Fixpoint trim_start (s : string) : string :=
  match s with
  | String c s' => if regexp_space c then trim_start s' else s
  | EmptyString => s
  end.

Definition trim (s : string) : string := trim_end (trim_start s).

(** The options [cookieDomainRewrite] and [cookiePathRewrite]: not set (or
    [false]), a string, or an object. *)
Inductive CookieConfig : Type :=
| NoRewrite
| RewriteTo (s : string)
| RewriteMap (m : gmap string string).

(** Lines 102 to 105: a string stands for the object that maps ["*"] to
    it.  [None] is a falsy configuration. *)
Definition cookie_config (c : CookieConfig) : option (gmap string string) :=
  match c with
  | NoRewrite => None
  | RewriteTo s => Some {[ "*" := s ]}
  | RewriteMap m => Some m
  end.

Definition rewrite_hvalue (header : hvalue) (config : gmap string string)
    (property : string) : hvalue :=
  match header with
  | HString s => HString (rewriteCookieProperty s config property)
  | HArray l => HArray (rewriteCookieProperty_all l config property)
  end.

(** The options that the passes on the response read. *)
Record OutgoingOptions : Type := mkOutgoingOptions {
  opt_rewrite : RewriteOptions;
  cookieDomainRewrite : CookieConfig;
  cookiePathRewrite : CookieConfig;
  preserveHeaderKeyCase : bool;
  selfHandleResponse : bool
}.

(** The loop of lines 108 to 111 over [rawHeaders], which holds names and
    values in turn.  Assigning a string to [__proto__] does nothing. *)
Fixpoint rawHeaderKeyMap (raw : list string) (map : gmap string string)
    : gmap string string :=
  match raw with
  | [] => map
  | key :: rest =>
      let map := if String.eqb (toLowerCase key) "__proto__" then map
                 else <[toLowerCase key := key]> map in
      match rest with
      | [] => map
      | _ :: rest' => rawHeaderKeyMap rest' map
      end
  end.

(** [key.toLowerCase()] on a value that is not a string. *)
Definition TypeError_toLowerCase : thrown :=
  TError (Error "key.toLowerCase is not a function").

(** [setHeader(key, header)], lines 94 to 101.  The key is a string, or what
    [rawHeaderKeyMap[key]] found on the prototype. *)
Definition write_setHeader (domain path : option (gmap string string))
    (key : property_value) (header : hvalue) (res : ServerResponse)
    : Exc ServerResponse :=
  let is_cookie : Exc bool :=
    match key with
    | OwnValue k => Ok (String.eqb (toLowerCase k) "set-cookie")
    | InheritedValue _ => Raise TypeError_toLowerCase
    end in
  header ← match domain with
           | Some config =>
               b ← is_cookie;
               Ok (if b : bool then rewrite_hvalue header config "domain" else header)
           | None => Ok header
           end;
  header ← match path with
           | Some config =>
               b ← is_cookie;
               Ok (if b : bool then rewrite_hvalue header config "path" else header)
           | None => Ok header
           end;
  Ok (res_setHeader (trim (value_text key)) header res).

(** [rawHeaderKeyMap[key] || key], line 116 *)
Definition preserved_key (map : gmap string string) (key : string)
    : property_value :=
  match config_get map key with
  | Some v => if value_truthy v then v else OwnValue key
  | None => OwnValue key
  end.

(** [writeHeaders], lines 92 to 119 *)
Definition writeHeaders (res : ServerResponse) (proxyRes : ProxyResponse)
    (options : OutgoingOptions) : Exc ServerResponse :=
  let domain := cookie_config (cookieDomainRewrite options) in
  let path := cookie_config (cookiePathRewrite options) in
  let map :=
    if preserveHeaderKeyCase options then
      match pres_rawHeaders proxyRes with
      | Some raw => Some (rawHeaderKeyMap raw ∅)
      | None => None
      end
    else None in
  fold_left
    (fun (res : Exc ServerResponse) '(key, header) =>
       res ← res;
       let key := match map with
                  | Some map => preserved_key map key
                  | None => OwnValue key
                  end in
       write_setHeader domain path key header res)
    (pres_headers proxyRes) (Ok res).




(** ** web.in.js and shared.js: the passes on the request *)

(** [deleteLength], lines 16 to 21 *)
Definition deleteLength (req : IncomingMessage) : IncomingMessage :=
  if (String.eqb (in_method req) "DELETE" || String.eqb (in_method req) "OPTIONS")
     && negb (NodeUrl.truthy (in_headers req !! "content-length"))
  then with_in_headers
         (delete "transfer-encoding"
            (<["content-length" := "0"]> (in_headers req))) req
  else req.

(** [hasEncryptedConnection], shared.js lines 90 to 92 *)
Definition hasEncryptedConnection (req : IncomingMessage) : bool :=
  in_encrypted req || in_pair req.

(** The first match of [/:(\d+)/]: the digits after the first colon that a
    digit follows. *)
Fixpoint match_port (s : string) : option string :=
  match s with
  | EmptyString => None
  | String c s' =>
      if Ascii.eqb c ":" then
        let digits := fst (NodeUrl.span NodeUrl.is_digit s') in
        if String.eqb digits "" then match_port s' else Some digits
      else match_port s'
  end.

(** [getPort], shared.js lines 81 to 84 *)
Definition getPort (req : IncomingMessage) : string :=
  let res :=
    match in_headers req !! "host" with
    | Some host => if String.eqb host "" then None else match_port host
    | None => None
    end in
  match res with
  | Some port => port
  | None => if hasEncryptedConnection req then "443" else "80"
  end.

(** One round of the loop of [XHeaders], lines 48 to 51 *)
Definition forwarded (name value : string) (h : gmap string string)
    : gmap string string :=
  <[name := String.append (header_or (h !! name) "")
              (String.append (if NodeUrl.truthy (h !! name) then "," else "")
                 value)]> h.

(** [req.connection.remoteAddress || req.socket.remoteAddress], and the text
    that string concatenation makes of it. *)
Definition remote_address (req : IncomingMessage) : string :=
  if NodeUrl.truthy (in_connection_remoteAddress req)
  then default "" (in_connection_remoteAddress req)
  else default "undefined" (in_socket_remoteAddress req).

(** [XHeaders] of web.in.js, lines 39 to 54 *)
Definition XHeaders (xfwd : bool) (req : IncomingMessage) : IncomingMessage :=
  if negb xfwd then req
  else
    let encrypted := in_isSpdy req || hasEncryptedConnection req in
    let values_for := remote_address req in
    let values_port := getPort req in
    let values_proto := if encrypted then "https" else "http" in
    let h := forwarded "x-forwarded-for" values_for (in_headers req) in
    let h := forwarded "x-forwarded-port" values_port h in
    let h := forwarded "x-forwarded-proto" values_proto h in
    let h := <["x-forwarded-host" :=
                 header_or (h !! "x-forwarded-host")
                   (header_or (h !! "host") "")]> h in
    with_in_headers h req.

(** The request as the next proxy on the way sees it: the headers that this
    one has set, on a connection from the address [address]. *)
Definition next_hop (address : string) (req : IncomingMessage)
    : IncomingMessage :=
  mkIncoming (in_method req) (in_url req) (in_httpVersion req)
    (in_headers req) (Some address) (Some address) (in_encrypted req)
    (in_pair req) (in_isSpdy req).

(** ** ws.in.js and the loop over the passes *)

(** [checkMethodAndHeader], lines 12 to 21: [true] when the socket is
    destroyed, which is also when the pass returns [true]. *)
Definition checkMethodAndHeader (req : IncomingMessage) : bool :=
  if negb (String.eqb (in_method req) "GET")
     || negb (NodeUrl.truthy (in_headers req !! "upgrade"))
  then true
  else if negb (String.eqb (toLowerCase (default "" (in_headers req !! "upgrade")))
                  "websocket")
  then true
  else false.

(** [XHeaders] of ws.in.js, lines 28 to 41 *)
Definition ws_XHeaders (xfwd : bool) (req : IncomingMessage) : IncomingMessage :=
  if negb xfwd then req
  else
    let values_for := remote_address req in
    let values_port := getPort req in
    let values_proto := if hasEncryptedConnection req then "wss" else "ws" in
    let h := forwarded "x-forwarded-for" values_for (in_headers req) in
    let h := forwarded "x-forwarded-port" values_port h in
    let h := forwarded "x-forwarded-proto" values_proto h in
    with_in_headers h req.

(** What a websocket request and its socket have come to. *)
Record WsState : Type := mkWsState {
  ws_req : IncomingMessage;
  ws_destroyed : bool             (* [socket.destroy()] was called *)
}.

Section Passes.
Context {State : Type}.

(** A pass: a function of the state that returns a value, seen through its
    truthiness, and has a name. *)
Definition Pass : Type := string * (State -> bool * State).

(** The loop of [createRightProxy], plugins/proxy/index.js lines 94 to 97 *)
Fixpoint run_passes (passes : list Pass) (s : State) : State :=
  match passes with
  | [] => s
  | pass :: rest =>
      let '(stop, s') := pass.2 s in
      if stop then s' else run_passes rest s'
  end.

(** The index that the [forEach] of [before] and [after] leaves in [i]:
    that of the last pass with the name, [None] for [false]. *)
Definition pass_index (passName : string) (passes : list Pass) : option nat :=
  fold_left
    (fun i '(idx, v) => if String.eqb v.1 passName then Some idx else i)
    (imap (fun idx v => (idx, v)) passes) None.

(** [passes.splice(i, 0, callback)] *)
Definition splice (i : nat) (callback : Pass) (passes : list Pass) : list Pass :=
  take i passes ++ callback :: drop i passes.

Record ProxyServer : Type := mkProxyServer {
  webPasses : list Pass;
  wsPasses : list Pass
}.

(** [before(type, passName, callback)], lines 41 to 49 *)
Definition before (type passName : string) (callback : Pass)
    (server : ProxyServer) : Exc ProxyServer :=
  if negb (String.eqb type "ws") && negb (String.eqb type "web")
  then Raise (TError (Error "type must be `web` or `ws`"))
  else
    let passes := if String.eqb type "ws" then wsPasses server
                  else webPasses server in
    match pass_index passName passes with
    | None => Raise (TError (Error "No such pass"))
    | Some i =>
        let passes := splice i callback passes in
        Ok (if String.eqb type "ws"
            then mkProxyServer (webPasses server) passes
            else mkProxyServer passes (wsPasses server))
    end.

(** [after(type, passName, callback)], lines 51 to 59.  The argument of
    [splice] is [i++]: the value of [i] before it is incremented. *)
Definition after (type passName : string) (callback : Pass)
    (server : ProxyServer) : Exc ProxyServer :=
  if negb (String.eqb type "ws") && negb (String.eqb type "web")
  then Raise (TError (Error "type must be `web` or `ws`"))
  else
    let passes := if String.eqb type "ws" then wsPasses server
                  else webPasses server in
    match pass_index passName passes with
    | None => Raise (TError (Error "No such pass"))
    | Some i =>
        let '(argument, i) := (i, S i) in
        let passes := splice argument callback passes in
        Ok (if String.eqb type "ws"
            then mkProxyServer (webPasses server) passes
            else mkProxyServer passes (wsPasses server))
    end.
End Passes.
Arguments Pass State : clear implicits.
Arguments ProxyServer State : clear implicits.

(** The passes of ws.in.js, in the order of their definition; [stream] is
    the pass that makes the request to the target. *)
Definition ws_passes (xfwd : bool) (stream : WsState -> bool * WsState)
    : list (Pass WsState) :=
  [ ("checkMethodAndHeader",
     fun s => if checkMethodAndHeader (ws_req s)
              then (true, mkWsState (ws_req s) true)
              else (false, s));
    ("XHeaders",
     fun s => (false, mkWsState (ws_XHeaders xfwd (ws_req s)) (ws_destroyed s)));
    ("stream", stream) ].


(** ** A request, a response of the target and options for the examples *)

Definition sample_request : IncomingMessage :=
  mkIncoming "GET" "/next?from=a//b" "1.0" {[ "host" := "proxy.local" ]}
    (Some "10.0.0.7") (Some "10.0.0.7") false false false.



Definition sample_res : ServerResponse := mkServerResponse 200 None ∅ false.

(** [(type === "ws") ? this.wsPasses : this.webPasses] *)
Definition passes_of {State} (type : string) (server : ProxyServer State)
    : list (Pass State) :=
  if String.eqb type "ws" then wsPasses server else webPasses server.

(** ** shared.js: the request to the target *)

Fixpoint has_char (c : ascii) (s : string) : bool :=
  match s with
  | EmptyString => false
  | String d s' => Ascii.eqb d c || has_char c s'
  end.

(** [s.split(sep)] for a separator of one character *)
Fixpoint split_char (sep : ascii) (s : string) : list string :=
  match s with
  | EmptyString => [EmptyString]
  | String c s' =>
      if Ascii.eqb c sep then EmptyString :: split_char sep s'
      else match split_char sep s' with
           | x :: xs => String c x :: xs
           | [] => [String c EmptyString]
           end
  end.

(** [s.replace(/\/+/g, "/")] *)
Fixpoint collapse_slashes (s : string) : string :=
  match s with
  | EmptyString => EmptyString
  | String c s' =>
      if Ascii.eqb c "/" then
        match s' with
        | String c' _ =>
            if Ascii.eqb c' "/" then collapse_slashes s'
            else String c (collapse_slashes s')
        | EmptyString => String c EmptyString
        end
      else String c (collapse_slashes s')
  end.

(** [s.replace(pat, rep)] for a pattern that is a string: the first
    occurrence is replaced. *)
Fixpoint replace_first (pat rep s : string) : string :=
  if String.prefix pat s
  then String.append rep (NodeUrl.drop (String.length pat) s)
  else match s with
       | EmptyString => EmptyString
       | String c s' => String c (replace_first pat rep s')
       end.

(** [urlJoin(...args, last)], lines 97 to 106 *)
Definition urlJoin (args : list string) (last : string) : string :=
  let lastSegs := split_char "?" last in
  let args := args ++ [hd "" lastSegs] in
  let retSegs :=
    replace_first "https:/" "https://"
      (replace_first "http:/" "http://"
         (collapse_slashes
            (join "/" (List.filter (fun a => negb (String.eqb a "")) args))))
    :: tl lastSegs in
  join "?" retSegs.

(** [s] has an occurrence of [pat]. *)
Fixpoint contains (pat s : string) : bool :=
  String.prefix pat s
  || match s with
     | EmptyString => false
     | String _ s' => contains pat s'
     end.

(** [isSSL.test(protocol)] for [/^https|wss/]; a protocol that is not there
    is tested as the text [null] or [undefined]. *)
Definition isSSL (protocol : option string) : bool :=
  let s := default "undefined" protocol in
  String.prefix "https" s || contains "wss" s.

(** [UPGRADE_HEADER.test(s)] for [/(^|,)\s*upgrade\s*($|,)/i]: the match
    begins at the start or after a comma and ends at the end or before a
    comma, and there is no comma in between, so it is one of the parts that
    the commas separate. *)
Definition UPGRADE_HEADER (s : string) : bool :=
  existsb (fun part => String.eqb (toLowerCase (trim part)) "upgrade")
    (split_char "," s).

(** [hasPort(host)], lines 135 to 137 *)
Definition hasPort (host : string) : bool := has_char ":" host.

(** [+port] for a port that is a string of digits, as [url.parse] gives it;
    any other text is taken not to be a number. *)
Definition to_number (port : string) : option Z :=
  if NodeUrl.all_digits port then Some (default 0 (digits_value None port))
  else None.

(** [required(port, protocol)], lines 139 to 150 *)
Definition required (port : string) (protocol : option string) : Exc bool :=
  match to_number port with
  | None => Ok false
  | Some n =>
      if n =? 0 then Ok false
      else
        match protocol with
        | None => Raise TypeError_undefined
        | Some protocol =>
            let scheme := hd "" (split_char ":" protocol) in
            Ok (if String.eqb scheme "http" || String.eqb scheme "ws"
                then negb (n =? 80)
                else if String.eqb scheme "https" || String.eqb scheme "wss"
                then negb (n =? 443)
                else if String.eqb scheme "ftp" then negb (n =? 21)
                else if String.eqb scheme "gopher" then negb (n =? 70)
                else if String.eqb scheme "file" then false
                else negb (n =? 0))
        end
  end.

(** The target of the proxy: what [url.parse] gives for it, or an object
    that the user wrote. *)
Record Target : Type := mkTarget {
  t_protocol : option string;
  t_host : option string;
  t_hostname : option string;
  t_port : option string;
  t_path : option string;
  t_socketPath : option string;
  t_pfx : option string;
  t_key : option string;
  t_passphrase : option string;
  t_cert : option string;
  t_ca : option string;
  t_ciphers : option string;
  t_secureProtocol : option string
}.

(** The [path] of a [Url]: the path name and the search, when there is
    one of them. *)
Definition url_path (u : NodeUrl.Url) : option string :=
  if NodeUrl.truthy (NodeUrl.pathname u) || NodeUrl.truthy (NodeUrl.search u)
  then Some (String.append (NodeUrl.or_empty (NodeUrl.pathname u))
               (NodeUrl.or_empty (NodeUrl.search u)))
  else None.

(** The target that [createRightProxy] makes of a string,
    plugins/proxy/index.js lines 88 to 91. *)
Definition target_of_string (s : string) : Target :=
  let u := NodeUrl.parse s in
  mkTarget (NodeUrl.protocol u) (NodeUrl.host u) (NodeUrl.hostname u)
    (NodeUrl.port u) (url_path u) None None None None None None None None.

Record ProxyOptions : Type := mkProxyOptions {
  opt_target : option Target;
  opt_forward : option Target;
  opt_method : option string;
  opt_headers : option (gmap string string);
  opt_auth : option string;
  opt_ca : option string;
  opt_secure : option bool;            (* [None] is [undefined] *)
  opt_agent : option string;
  opt_localAddress : option string;
  opt_prependPath : bool;              (* [options.prependPath !== false] *)
  opt_toProxy : bool;
  opt_ignorePath : bool;
  opt_changeOrigin : bool
}.

(** The options of the request to the target.  A header may be set to
    [undefined], which is [None]. *)
Record Outgoing : Type := mkOutgoing {
  out_port : option string;
  out_host : option string;
  out_hostname : option string;
  out_socketPath : option string;
  out_pfx : option string;
  out_key : option string;
  out_passphrase : option string;
  out_cert : option string;
  out_ca : option string;
  out_ciphers : option string;
  out_secureProtocol : option string;
  out_method : option string;
  out_headers : gmap string (option string);
  out_auth : option string;
  out_rejectUnauthorized : option bool;
  out_agent : option string;           (* [None] is [false] *)
  out_localAddress : option string;
  out_path : option string
}.

(** [{}] *)
Definition empty_outgoing : Outgoing :=
  mkOutgoing None None None None None None None None None None None None ∅
    None None None None None.

(** [setupOutgoing(outgoing, options, req, forward)], lines 18 to 61;
    [forward] says whether the fourth argument is ["forward"]. *)
Definition setupOutgoing (outgoing : Outgoing) (options : ProxyOptions)
    (req : IncomingMessage) (forward : bool) : Exc Outgoing :=
  match (if forward then opt_forward options else opt_target options) with
  | None => Raise TypeError_undefined
  | Some target =>
      let port :=
        if NodeUrl.truthy (t_port target) then default "" (t_port target)
        else if isSSL (t_protocol target) then "443" else "80" in
      let method := header_or (opt_method options) (in_method req) in
      let headers : gmap string (option string) := Some <$> in_headers req in
      let headers :=
        match opt_headers options with
        | Some h => (Some <$> h) ∪ headers
        | None => headers
        end in
      let auth := if NodeUrl.truthy (opt_auth options) then opt_auth options
                  else out_auth outgoing in
      let ca := if NodeUrl.truthy (opt_ca options) then opt_ca options
                else t_ca target in
      let rejectUnauthorized :=
        if isSSL (t_protocol target)
        then Some (default true (opt_secure options))
        else out_rejectUnauthorized outgoing in
      let agent := if NodeUrl.truthy (opt_agent options) then opt_agent options
                   else None in
      let headers :=
        if negb (NodeUrl.truthy agent) then
          match headers !! "connection" with
          | Some (Some connection) =>
              if UPGRADE_HEADER connection then headers
              else <["connection" := Some "close"]> headers
          | _ => <["connection" := Some "close"]> headers
          end
        else headers in
      (* the final path is target path + relative path requested by user *)
      let targetPath :=
        if opt_prependPath options then NodeUrl.or_empty (t_path target)
        else "" in
      let outgoingPath :=
        if negb (opt_toProxy options)
        then NodeUrl.or_empty (url_path (NodeUrl.parse (in_url req)))
        else in_url req in
      let outgoingPath := if negb (opt_ignorePath options) then outgoingPath
                          else "" in
      let path := urlJoin [targetPath] outgoingPath in
      headers ←
        (if opt_changeOrigin options then
           r ← required port (t_protocol target);
           withPort ←
             (if r : bool then
                match t_host target with
                | Some host => Ok (negb (hasPort host))
                | None => Raise TypeError_undefined
                end
              else Ok false);
           Ok (<["host" :=
                   if withPort : bool
                   then Some (String.append (NodeUrl.or_empty (t_host target))
                                (String.append ":" port))
                   else t_host target]> headers)
         else Ok headers);
      Ok (mkOutgoing (Some port) (t_host target) (t_hostname target)
            (t_socketPath target) (t_pfx target) (t_key target)
            (t_passphrase target) (t_cert target) ca (t_ciphers target)
            (t_secureProtocol target) (Some method) headers auth
            rejectUnauthorized agent (opt_localAddress options) (Some path))
  end.

(** ** The stubs of the tests of the proxy *)

Definition stub_cookies : list string :=
  [ "hello-on-my.domain; domain=my.domain; path=/";
    "hello-on-my.old.domain; domain=my.old.domain; path=/";
    "hello-on-my.special.domain; domain=my.special.domain; path=/" ].

Definition stub_proxyRes : ProxyResponse :=
  mkProxyResponse 200 None
    [ ("hey", HString "hello"); ("how", HString "are you?");
      ("set-cookie", HArray stub_cookies) ]
    (Some ["Hey"; "hello"; "How"; "are you?"; "Set-Cookie"; "hello"]).

Definition stub_options (preserve : bool) : OutgoingOptions :=
  mkOutgoingOptions (mkRewriteOptions "" "" false "")
    (RewriteMap {[ "*" := ""; "my.old.domain" := "my.new.domain";
                   "my.special.domain" := "my.special.domain" ]})
    (RewriteTo "/dummyPath") preserve false.

Definition stub_request : IncomingMessage :=
  mkIncoming "GET" "/" "1.1" {[ "host" := "192.168.1.3:8181" ]}
    None (Some "192.168.1.3") false true false.

(** * Properties *)

(** ** The index of a call never goes back *)

Section Monotone.
Context {Ctx : Type}.
Implicit Types (w : World Ctx) (k : K Ctx).

Lemma cells_le_refl w : cells_le w w.
Proof. intros c v H. exists v. split; [done | lia]. Qed.

Lemma cells_le_trans w1 w2 w3 :
  cells_le w1 w2 -> cells_le w2 w3 -> cells_le w1 w3.
Proof.
  intros H12 H23 c v H.
  destruct (H12 c v H) as (v2 & H2 & Hle).
  destruct (H23 c v2 H2) as (v3 & H3 & Hle').
  exists v3. split; [done | lia].
Qed.

Lemma cells_le_same w1 w2 : cells w2 = cells w1 -> cells_le w1 w2.
Proof. intros E c v H. exists v. rewrite E. split; [done | lia]. Qed.

Lemma cells_le_alloc w : cells_le w (alloc w).
Proof.
  intros c v H. exists v. split; [| lia].
  simpl. by apply lookup_app_l_Some.
Qed.

Lemma cells_le_set_index cell i w :
  (index_of cell w <= i)%Z -> cells_le w (set_index cell i w).
Proof.
  intros Hi c v H. simpl.
  destruct (decide (c = cell)) as [-> | Hne].
  - exists i. split.
    + apply list_lookup_insert_eq. by eapply lookup_lt_Some.
    + unfold index_of in Hi. rewrite H in Hi. simpl in Hi. lia.
  - exists v. split; [| lia]. by rewrite list_lookup_insert_ne.
Qed.

Lemma cells_le_index cell w1 w2 :
  (cell < length (cells w1))%nat -> cells_le w1 w2 ->
  (index_of cell w1 <= index_of cell w2)%Z.
Proof.
  intros Hc Hle. unfold index_of.
  destruct (lookup_lt_is_Some_2 _ _ Hc) as [v Hv].
  destruct (Hle _ _ Hv) as (v' & Hv' & Hvv).
  by rewrite Hv, Hv'.
Qed.

Lemma index_of_set_index cell i w :
  (cell < length (cells w))%nat -> index_of cell (set_index cell i w) = i.
Proof.
  intros Hc. unfold index_of. simpl.
  by rewrite list_lookup_insert_eq.
Qed.

Section Dispatch.
Context {M : Type} (call : M -> K Ctx -> K Ctx).

Lemma dispatch_end_mono cell i : mono_K (dispatch_end (Ctx:=Ctx) cell i).
Proof.
  intros w. unfold dispatch_end.
  destruct (Z.leb_spec i (index_of cell w)); simpl.
  - apply cells_le_refl.
  - apply cells_le_set_index. lia.
Qed.

Lemma dispatch_mono cell next ms :
  Forall (fun m => mono_M (call m)) ms ->
  (forall f, next = Some f -> mono_M f) ->
  forall i, mono_K (dispatch call cell next ms i).
Proof.
  intros Hms Hnext.
  induction Hms as [| m ms Hm _ IH]; intros i w; simpl;
    destruct (Z.leb_spec i (index_of cell w)); simpl;
    try apply cells_le_refl.
  - destruct next as [f |]; simpl.
    + apply (cells_le_trans _ (set_index cell i w)); [apply cells_le_set_index; lia |].
      apply (Hnext f eq_refl), dispatch_end_mono.
    + apply cells_le_set_index. lia.
  - apply (cells_le_trans _ (set_index cell i w)); [apply cells_le_set_index; lia |].
    apply Hm, IH.
Qed.

Lemma compose_mono ms next :
  Forall (fun m => mono_M (call m)) ms ->
  (forall f, next = Some f -> mono_M f) ->
  mono_K (compose call ms next).
Proof.
  intros Hms Hnext w. unfold compose.
  eapply cells_le_trans; [apply cells_le_alloc |].
  by apply dispatch_mono.
Qed.
End Dispatch.

(** Whatever a body does, it leaves every index at least where it was. *)
Lemma run_mono (p : prog Ctx) : mono_M (run p).
Proof.
  induction p as [| e | f k IH | k IH | k IH | k IH | ms k IHms IH]
    using prog_nested_ind; intros next Hnext w; simpl.
  - apply cells_le_refl.
  - apply cells_le_refl.
  - destruct (f (ctx w)) as [c | e]; simpl; [| apply cells_le_refl].
    eapply cells_le_trans; [| apply IH, Hnext]. by apply cells_le_same.
  - by apply IH.
  - eapply cells_le_trans; [| apply IH, Hnext]. by apply cells_le_same.
  - pose proof Hnext as Hnext0.
    specialize (Hnext w). destruct (next w) as [o w'].
    eapply cells_le_trans; [exact Hnext |]. exact (IH o next Hnext0 w').
  - assert (Hc : mono_K (compose run ms (Some (fun _ => next)))).
    { apply compose_mono; [exact IHms |].
      intros f Hf k0 _. injection Hf as <-. exact Hnext. }
    specialize (Hc w).
    destruct (compose run ms (Some (fun _ => next)) w) as [o w'].
    eapply cells_le_trans; [exact Hc |]. exact (IH o next Hnext w').
Qed.
End Monotone.

(** ** Order of execution *)

Section Order.
Context {Ctx : Type}.
Implicit Types (w : World Ctx).

Lemma index_of_set_index_le cell i w :
  (index_of cell w < i)%Z -> (index_of cell (set_index cell i w) <= i)%Z.
Proof.
  intros Hi. unfold index_of in *. simpl.
  destruct (decide (cell < length (cells w))%nat) as [Hc | Hc].
  - rewrite list_lookup_insert_eq by done. simpl. lia.
  - rewrite list_insert_ge by lia. lia.
Qed.

Lemma run_pauses n (k : prog Ctx) next w :
  run (pauses n k) next w = run k next (Nat.iter n tick w).
Proof.
  revert w. induction n as [| n IH]; intros w; simpl; [done |].
  rewrite IH. f_equal. clear IH.
  induction n as [| n IH]; simpl; [done |]. by rewrite IH.
Qed.

Lemma cells_iter_tick n w : cells (Nat.iter n tick w) = cells w.
Proof. induction n as [| n IH]; simpl; [done | exact IH]. Qed.

Lemma ctx_iter_tick n w : ctx (Nat.iter n tick w) = ctx w.
Proof. induction n as [| n IH]; simpl; [done | exact IH]. Qed.
End Order.

Lemma dispatch_recorders styles : forall i cell j w,
  (index_of cell w < j)%Z ->
  exists w',
    dispatch run cell None (recorders i styles) j w = (Resolved, w') /\
    ctx w' = ctx w ++ seq i (length styles) ++ rev (seq i (length styles)).
Proof.
  induction styles as [| [before after] styles IH]; intros i cell j w Hj.
  - simpl. destruct (Z.leb_spec j (index_of cell w)); [lia |].
    eexists. split; [done |]. simpl. by rewrite app_nil_r.
  - cbn [recorders dispatch].
    destruct (Z.leb_spec j (index_of cell w)); [lia |].
    unfold recorder. cbn [run push]. rewrite run_pauses. cbn [run].
    set (w1 := Nat.iter before tick _).
    destruct (IH (S i) cell (j + 1)%Z w1) as (w2 & E & Hctx).
    { unfold w1, index_of. rewrite cells_iter_tick. simpl.
      pose proof (index_of_set_index_le cell j w ltac:(lia)) as Hle.
      unfold index_of in Hle. simpl in Hle. lia. }
    rewrite E. rewrite run_pauses. cbn [run push].
    eexists. split; [done |].
    simpl. rewrite ctx_iter_tick, Hctx. unfold w1.
    rewrite ctx_iter_tick. simpl.
    rewrite <- ?app_assoc. simpl. by rewrite <- ?app_assoc.
Qed.

(** C1.  Composing N steps that each push their index before and after
    [await next()] and running the result on a context resolves and leaves
    the indices 0, 1, ..., N-1 followed by N-1, ..., 1, 0 in the array,
    whatever number of timers each step awaits before and after its call of
    [next()] (none for a synchronous step). *)
Theorem compose_onion_order (styles : list (nat * nat)) (w : World (list nat)) :
  let N := length styles in
  let r := compose run (recorders 0 styles) None w in
  r.1 = Resolved /\ ctx r.2 = ctx w ++ seq 0 N ++ rev (seq 0 N).
Proof.
  simpl. unfold compose.
  destruct (dispatch_recorders styles 0 (length (cells w)) 0%Z (alloc w))
    as (w' & E & Hctx).
  { unfold index_of, alloc. simpl.
    rewrite lookup_app_r by lia. rewrite Nat.sub_diag. simpl. lia. }
  rewrite E. simpl. split; [done |]. exact Hctx.
Qed.

Example compose_three_steps :
  ctx (compose run (recorders 0 [(1, 1); (0, 0); (1, 0)]%nat) None
         (mkWorld [] [] 0)).2 = [0; 1; 2; 2; 1; 0]%nat.
Proof. reflexivity. Qed.

(** ** Calling [next()] again *)

Section Again.
Context {Ctx M : Type} (call : M -> K Ctx -> K Ctx).
Implicit Types (w : World Ctx).

(** Once [dispatch(i)] has been called, the index is at least [i]. *)
Lemma dispatch_index cell next ms i w :
  Forall (fun m => mono_M (call m)) ms ->
  (forall f, next = Some f -> mono_M f) ->
  (cell < length (cells w))%nat ->
  (i <= index_of cell (dispatch call cell next ms i w).2)%Z.
Proof.
  intros Hms Hnext Hc.
  destruct ms as [| m ms]; simpl;
    destruct (Z.leb_spec i (index_of cell w)); simpl; try done.
  - assert (Hi : index_of cell (set_index cell i w) = i)
      by by apply index_of_set_index.
    destruct next as [f |]; simpl; [| lia].
    pose proof (Hnext f eq_refl _ (dispatch_end_mono cell (i + 1))
                  (set_index cell i w)) as Hle.
    apply (cells_le_index cell) in Hle; [lia |].
    simpl. by rewrite length_insert.
  - assert (Hi : index_of cell (set_index cell i w) = i)
      by by apply index_of_set_index.
    inversion Hms as [| ? ? Hm Hms']; subst.
    pose proof (Hm _ (dispatch_mono call cell next ms Hms' Hnext (i + 1))
                  (set_index cell i w)) as Hle.
    apply (cells_le_index cell) in Hle; [lia |].
    simpl. by rewrite length_insert.
Qed.

(** A call of [dispatch(i)] at an index that is not past [index] is
    rejected and runs nothing. *)
Lemma dispatch_stale cell next ms i w :
  (i <= index_of cell w)%Z ->
  dispatch call cell next ms i w = (Rejected multiple_times, w).
Proof.
  intros Hi. destruct ms; simpl;
    by destruct (Z.leb_spec i (index_of cell w)); [| lia].
Qed.
End Again.

(** C2.  In every composed pipeline, for the continuation [next] of every
    step (the call [dispatch(i)] on the rest [ms] of the steps): after it has
    been called once from a store [w], calling it again from any later store
    [w2] gives a promise rejected with the error "next() called multiple
    times", and the store is left as it was, so no downstream step ran
    again. *)
Theorem next_twice_rejected {Ctx} (ms : list (prog Ctx))
    (next : option (K Ctx -> K Ctx)) (cell : nat) (i : Z) (w w2 : World Ctx) :
  (forall f, next = Some f -> mono_M f) ->
  (cell < length (cells w))%nat ->
  cells_le (dispatch run cell next ms i w).2 w2 ->
  dispatch run cell next ms i w2
    = (Rejected (TError (Error "next() called multiple times")), w2).
Proof.
  intros Hnext Hc Hle.
  apply dispatch_stale.
  assert (Hms : Forall (fun m => mono_M (run m)) ms).
  { apply Forall_forall. intros m _. apply run_mono. }
  pose proof (dispatch_index run cell next ms i w Hms Hnext Hc) as Hi.
  pose proof (dispatch_mono run cell next ms Hms Hnext i w) as Hw.
  assert (Hc1 : (cell < length (cells (dispatch run cell next ms i w).2))%nat).
  { destruct (lookup_lt_is_Some_2 _ _ Hc) as [v Hv].
    destruct (Hw _ _ Hv) as (v' & Hv' & _). by eapply lookup_lt_Some. }
  pose proof (cells_le_index cell _ _ Hc1 Hle). lia.
Qed.

Lemma next_twice_rejected_witness :
  let w := mkWorld [0%nat] [0%Z] 0 in
  let ms := recorders 1 [(0, 0)]%nat in
  let w2 := (dispatch run 0 None ms 1 w).2 in
  dispatch run 0 None ms 1 w2 = (Rejected multiple_times, w2).
Proof.
  intros w ms w2.
  apply (next_twice_rejected ms None 0 1 w w2).
  - intros f Hf. discriminate Hf.
  - simpl. lia.
  - intros c v H. exists v. split; [exact H | lia].
Defined.

Example twice_is_rejected :
  (compose run [twice] None (mkWorld tt [] 0)).1 = Rejected multiple_times.
Proof. reflexivity. Qed.

(** ** Status and body *)

Section Setters.
Variable lib : Libraries.
Variable req : Request.
Implicit Types (r : Response) (v : body).

Lemma get_remove_eq field r :
  headersSent r = false -> get field (remove field r) = None.
Proof.
  intros H. unfold get, remove. rewrite H. simpl. apply lookup_delete_eq.
Qed.

Lemma get_remove_ne field field' r :
  toLowerCase field <> toLowerCase field' ->
  get field (remove field' r) = get field r.
Proof.
  intros H. unfold get, remove. destruct (headersSent r); [done |].
  simpl. by rewrite lookup_delete_ne.
Qed.

Lemma remove_fields field r :
  statusCode (remove field r) = statusCode r /\
  headersSent (remove field r) = headersSent r /\
  _body (remove field r) = _body r /\
  _explicitNullBody (remove field r) = _explicitNullBody r /\
  _explicitStatus (remove field r) = _explicitStatus r /\
  output (remove field r) = output r /\
  writableEnded (remove field r) = writableEnded r /\
  socket (remove field r) = socket r.
Proof. unfold remove. destruct (headersSent r) eqn:E; cbn; by rewrite ?E. Qed.

Lemma set_fields field value r :
  statusCode (set field value r) = statusCode r /\
  headersSent (set field value r) = headersSent r /\
  _body (set field value r) = _body r /\
  _explicitNullBody (set field value r) = _explicitNullBody r /\
  _explicitStatus (set field value r) = _explicitStatus r /\
  output (set field value r) = output r /\
  writableEnded (set field value r) = writableEnded r /\
  socket (set field value r) = socket r.
Proof. unfold set. destruct (headersSent r) eqn:E; cbn; by rewrite ?E. Qed.

Lemma statusCode_remove field r : statusCode (remove field r) = statusCode r.
Proof. apply remove_fields. Qed.

Lemma headersSent_remove field r : headersSent (remove field r) = headersSent r.
Proof. apply remove_fields. Qed.

Lemma statusCode_set field value r : statusCode (set field value r) = statusCode r.
Proof. apply set_fields. Qed.

Lemma headersSent_set field value r :
  headersSent (set field value r) = headersSent r.
Proof. apply set_fields. Qed.

Lemma statusCode_set_type type r : statusCode (set_type lib type r) = statusCode r.
Proof.
  unfold set_type. destruct (mime_contentType lib type) as [m |];
    [destruct (String.eqb m "") |];
    auto using statusCode_remove, statusCode_set.
Qed.

Lemma statusCode_set_length n r : statusCode (set_length n r) = statusCode r.
Proof.
  unfold set_length. destruct (has _ r); auto using statusCode_set.
Qed.

Lemma removed_three r :
  headersSent r = false ->
  content_headers_removed
    (remove "Transfer-Encoding" (remove "Content-Length" (remove "Content-Type" r))).
Proof.
  intros H. unfold content_headers_removed, get, remove. rewrite H. simpl.
  rewrite H. simpl. rewrite H. simpl.
  repeat split.
  - rewrite lookup_delete_ne by done. rewrite lookup_delete_ne by done.
    apply lookup_delete_eq.
  - rewrite lookup_delete_ne by done. apply lookup_delete_eq.
  - apply lookup_delete_eq.
Qed.

(** The two setters, one call deep. *)
Lemma set_status_eq fuel code r :
  set_status lib req (S fuel) code r =
    if headersSent r then Ok r
    else if negb ((100 <=? code) && (code <=? 999)) then
      Raise (AssertionError
               (String.append "invalid status code: " (string_of_Z code)))
    else
      let r := assign_status lib req code r in
      if body_truthy (_body r) && statuses_empty code
      then set_body lib req fuel BNull r
      else Ok r.
Proof. reflexivity. Qed.

Lemma set_body_eq fuel value r :
  set_body lib req (S fuel) value r =
    let original := _body r in
    let r := with_body value r in
    if nullish value then
      if negb (statuses_empty (statusCode r))
         && String.eqb (get_type r) "application/json"
      then Ok (with_body (BString "null") r)
      else
        r ← (if negb (statuses_empty (statusCode r))
             then set_status lib req fuel 204 r else Ok r);
        let r := match value with
                 | BNull => with_explicitNullBody true r
                 | _ => r
                 end in
        Ok (remove "Transfer-Encoding"
              (remove "Content-Length" (remove "Content-Type" r)))
    else
      r ← (if negb (_explicitStatus r) then set_status lib req fuel 200 r
           else Ok r);
      let setType := negb (has "Content-Type" r) in
      match value with
      | BString s =>
          let r := if setType
                   then set_type lib (if starts_with_tag s then "html" else "text") r
                   else r in
          Ok (set_length (byteLength s) r)
      | BBuffer s =>
          let r := if setType then set_type lib "bin" r else r in
          Ok (set_length (byteLength s) r)
      | BStream id =>
          let r := if negb (bool_decide (original = value))
                      && negb (nullish original)
                   then remove "Content-Length" r else r in
          Ok (if setType then set_type lib "bin" r else r)
      | _ => Ok (set_type lib "json" (remove "Content-Length" r))
      end.
Proof. reflexivity. Qed.

(** Deeper calls change nothing: the setters never go deeper than
    [setter_depth]. *)
Lemma setters_depth n :
  (forall code r, set_status lib req (2 + n) code r = set_status lib req 2 code r) /\
  (forall v r, set_body lib req (2 + n) v r = set_body lib req 2 v r).
Proof.
  assert (Hs1 : forall code r, body_truthy (_body r) = false ->
            set_status lib req (1 + n) code r = set_status lib req 1 code r).
  { intros code r Hb. change (1 + n)%nat with (S n). rewrite !set_status_eq.
    destruct (headersSent r); [done |].
    destruct (negb _); [done |]. cbv zeta.
    assert (E : forall r', _body r' = _body r ->
              body_truthy (_body r') && statuses_empty code = false)
      by (intros r' ->; by rewrite Hb).
    rewrite E; [done |]. done. }
  assert (Hs1' : forall code r, statuses_empty code = false ->
            set_status lib req (1 + n) code r = set_status lib req 1 code r).
  { intros code r Hb. change (1 + n)%nat with (S n). rewrite !set_status_eq.
    rewrite Hb.
    destruct (headersSent r); [done |].
    destruct (negb _); [done |]. cbv zeta.
    by rewrite andb_false_r. }
  assert (Hb1 : forall v r, statuses_empty (statusCode r) = true ->
            nullish v = true ->
            set_body lib req (1 + n) v r = set_body lib req 1 v r).
  { intros v r He Hv. change (1 + n)%nat with (S n). rewrite !set_body_eq.
    cbv zeta. rewrite Hv.
    cbn [statusCode with_body]. rewrite He. done. }
  split.
  - intros code r. change (2 + n)%nat with (S (1 + n)).
    rewrite !set_status_eq.
    destruct (headersSent r); [done |].
    destruct (negb _); [done |]. cbv zeta.
    destruct (body_truthy _ && statuses_empty code) eqn:E; [| done].
    apply andb_true_iff in E as [_ E].
    apply Hb1; [| done]. done.
  - intros v r. change (2 + n)%nat with (S (1 + n)).
    rewrite !set_body_eq. cbv zeta.
    destruct (nullish v) eqn:Hv.
    + destruct (negb _ && _); [done |].
      destruct (negb (statuses_empty (statusCode (with_body v r)))); [| done].
      rewrite Hs1; [done |]. simpl. by destruct v.
    + destruct (negb (_explicitStatus (with_body v r))); [| done].
      rewrite Hs1'; done.
Qed.
End Setters.

Section Body.
Variable lib : Libraries.
Variable req : Request.
Implicit Types (r : Response) (v : body).

(** [status = 204] inside [body = null]: the body is already empty. *)
Lemma set_status_plain fuel code r :
  headersSent r = false -> (100 <= code <= 999) ->
  body_truthy (_body r) && statuses_empty code = false ->
  set_status lib req (S fuel) code r = Ok (assign_status lib req code r).
Proof.
  intros Hs Hc Hb. rewrite set_status_eq. rewrite Hs.
  destruct (Z.leb_spec 100 code); [| lia].
  destruct (Z.leb_spec code 999); [| lia]. cbn [andb negb]. cbv zeta.
  change (_body (assign_status lib req code r)) with (_body r).
  by rewrite Hb.
Qed.

Lemma set_body_null_eq fuel v r :
  nullish v = true ->
  set_body lib req (S fuel) v r =
    if negb (statuses_empty (statusCode r))
       && String.eqb (get_type r) "application/json"
    then Ok (with_body (BString "null") (with_body v r))
    else
      r1 ← (if negb (statuses_empty (statusCode r))
            then set_status lib req fuel 204 (with_body v r)
            else Ok (with_body v r));
      Ok (remove "Transfer-Encoding"
            (remove "Content-Length"
               (remove "Content-Type"
                  match v with
                  | BNull => with_explicitNullBody true r1
                  | _ => r1
                  end))).
Proof. intros Hv. rewrite set_body_eq. cbv zeta. rewrite Hv. reflexivity. Qed.


(** C4, as the code has it.  On a response whose headers have not been
    sent, assigning [null] or [undefined] to [body]: when the status is not
    204, 205 or 304 and the content type is not [application/json], sets the
    status to 204 and removes Content-Type, Content-Length and
    Transfer-Encoding; when the status is not one of the three and the
    content type is [application/json], makes the body the string ["null"]
    and leaves the status; when the status is one of the three, leaves the
    status and removes the three headers. *)
Theorem body_null_status r v :
  headersSent r = false ->
  nullish v = true ->
  exists r', set_body lib req setter_depth v r = Ok r' /\
    if statuses_empty (statusCode r) then
      statusCode r' = statusCode r /\ content_headers_removed r'
    else if String.eqb (get_type r) "application/json" then
      _body r' = BString "null" /\ statusCode r' = statusCode r
    else
      statusCode r' = 204 /\ content_headers_removed r'.
Proof.
  intros Hs Hv. unfold setter_depth. rewrite set_body_null_eq by done.
  destruct (statuses_empty (statusCode r)) eqn:He; cbn [negb andb].
  - cbn. eexists. split; [reflexivity |]. split.
    + rewrite !statusCode_remove. by destruct v.
    + destruct v; try discriminate; by apply removed_three.
  - destruct (String.eqb (get_type r) "application/json").
    + eexists. split; [reflexivity |]. done.
    + rewrite set_status_plain; [| done | lia |].
      2: { change (_body (with_body v r)) with v. by destruct v. }
      cbn. eexists. split; [reflexivity |].
      split.
      * rewrite !statusCode_remove. by destruct v.
      * destruct v; try discriminate; apply removed_three; cbn; done.
Qed.

End Body.

Lemma body_null_status_witness :
  exists r', set_body sample_lib (mkRequest "GET" "/" "" 1) setter_depth BNull
               (with_headers {[ "content-type" := "text/plain" ]} fresh_response)
             = Ok r' /\ statusCode r' = 204 /\ content_headers_removed r'.
Proof.
  exact (body_null_status sample_lib (mkRequest "GET" "/" "" 1)
           (with_headers {[ "content-type" := "text/plain" ]} fresh_response)
           BNull eq_refl eq_refl).
Defined.


(** A response whose headers have gone out, as after [ctx.flushHeaders()]:
    status 200, content type text/plain. *)
Example flushed_null_body :
  let r := mkResponse 200 None {[ "content-type" := "text/plain" ]} true false
             (Some true) false false BUndefined NotEnded in
  set_body sample_lib (mkRequest "GET" "/" "" 1) setter_depth BNull r
    = Ok (with_explicitNullBody true (with_body BNull r)).
Proof. reflexivity. Qed.

(** C4, as stated, fails: on a response with status 200 and content type
    text/plain whose headers have been sent, [body = null] leaves the status
    at 200 and the Content-Type header in place. *)
Lemma body_null_after_headers_sent :
  ~ (forall r : Response,
       statuses_empty (statusCode r) = false ->
       get_type r <> "application/json" ->
       exists r',
         set_body sample_lib (mkRequest "GET" "/" "" 1) setter_depth BNull r
           = Ok r' /\
         statusCode r' = 204 /\ content_headers_removed r').
Proof.
  intros H.
  destruct (H (mkResponse 200 None {[ "content-type" := "text/plain" ]} true
                 false (Some true) false false BUndefined NotEnded))
    as (r' & E & Hc & _); [done | done |].
  vm_compute in E. injection E as <-. discriminate Hc.
Qed.


(** ** Operations that touch the headers only *)

Section Headers.
Variable lib : Libraries.
Implicit Types (r : Response).

Lemma same_refl r : same_but_headers r r.
Proof. by repeat split. Qed.

Lemma same_trans r1 r2 r3 :
  same_but_headers r1 r2 -> same_but_headers r2 r3 -> same_but_headers r1 r3.
Proof.
  intros (A1 & A2 & A3 & A4 & A5 & A6 & A7 & A8 & A9)
         (B1 & B2 & B3 & B4 & B5 & B6 & B7 & B8 & B9).
  repeat split; congruence.
Qed.

Lemma same_with_headers h r : same_but_headers r (with_headers h r).
Proof. by repeat split. Qed.

Lemma same_set field value r : same_but_headers r (set field value r).
Proof. unfold set. destruct (headersSent r); [apply same_refl | by repeat split]. Qed.

Lemma same_remove field r : same_but_headers r (remove field r).
Proof. unfold remove. destruct (headersSent r); [apply same_refl | by repeat split]. Qed.

Lemma same_set_type type r : same_but_headers r (set_type lib type r).
Proof.
  unfold set_type. destruct (mime_contentType lib type) as [m |];
    [destruct (String.eqb m "") |]; auto using same_set, same_remove.
Qed.

Lemma same_set_length n r : same_but_headers r (set_length n r).
Proof.
  unfold set_length. destruct (has _ r); auto using same_set, same_refl.
Qed.

Lemma get_set_ne field field' value r :
  toLowerCase field <> toLowerCase field' ->
  get field (set field' value r) = get field r.
Proof.
  intros H. unfold get, set. destruct (headersSent r); [done |].
  simpl. by rewrite lookup_insert_ne.
Qed.

Lemma get_set_type_ne field type r :
  toLowerCase field <> "content-type" ->
  get field (set_type lib type r) = get field r.
Proof.
  intros H. unfold set_type.
  destruct (mime_contentType lib type) as [m |];
    [destruct (String.eqb m "") |];
    auto using get_set_ne, get_remove_ne.
Qed.

Lemma get_set_length_ne field n r :
  toLowerCase field <> "content-length" ->
  get field (set_length n r) = get field r.
Proof.
  intros H. unfold set_length. destruct (has _ r); auto using get_set_ne.
Qed.

Lemma writable_same r r' : same_but_headers r r' -> writable r' = writable r.
Proof.
  intros (_ & _ & _ & Hw & Hk & _). unfold writable. by rewrite Hw, Hk.
Qed.
End Headers.

(** ** Finalization *)

Lemma index_of_alloc {Ctx} (w : World Ctx) :
  index_of (length (cells w)) (alloc w) = -1.
Proof.
  unfold index_of, alloc. simpl.
  rewrite lookup_app_r by lia. by rewrite Nat.sub_diag.
Qed.

(** C3, as stated, fails: on a new context, a middleware function that sets
    the status to 404 and then the body to [null] gets a 204 response
    without a Content-Length header. *)
Lemma status_then_null_is_204 :
  exists w,
    callback sample_lib [status_then_null sample_lib]
      (mkWorld (createContext (mkRequest "GET" "/" "" 1)) [] 0%nat) = Ok w /\
    statusCode (response (ctx w)) = 204 /\
    statusCode (response (ctx w)) <> 404 /\
    get "Content-Length" (response (ctx w)) = None.
Proof. eexists. split; [vm_compute; reflexivity |]. by vm_compute. Qed.

Lemma compose_two_stmts {Ctx} (f1 f2 : Ctx -> Exc Ctx) (w : World Ctx) c1 c2 :
  f1 (ctx w) = Ok c1 -> f2 c1 = Ok c2 ->
  compose run [Stmt f1 (Stmt f2 Ret)] None w
    = (Resolved, mkWorld c2 (<[length (cells w) := 0]> (cells w ++ [-1])) (clock w)).
Proof.
  intros E1 E2. unfold compose. cbn [dispatch].
  rewrite index_of_alloc. cbn [Z.leb Z.compare].
  cbn [run set_index alloc ctx cells clock with_ctx].
  rewrite E1. cbn [run set_index alloc ctx cells clock with_ctx].
  by rewrite E2.
Qed.

Section Unsent.
Variable lib : Libraries.
Implicit Types (r : Response).

Lemma remove_unsent field r :
  headersSent r = false ->
  remove field r = with_headers (delete (toLowerCase field) (headers r)) r.
Proof. intros H. unfold remove. by rewrite H. Qed.

Lemma set_unsent field value r :
  headersSent r = false ->
  set field value r
    = with_headers (<[toLowerCase field := value]> (headers r)) r.
Proof. intros H. unfold set. by rewrite H. Qed.

Lemma has_false field r : get field r = None -> has field r = false.
Proof.
  intros H. unfold has. rewrite H. apply bool_decide_eq_false.
  by intros [x Hx].
Qed.

Lemma has_true field r x : get field r = Some x -> has field r = true.
Proof. intros H. unfold has. rewrite H. by apply bool_decide_eq_true. Qed.

(** C3, as the code has it.  On a context whose headers have not been sent,
    that is writable and to be answered, for a request other than HEAD and a
    content type other than [application/json]: when the middleware sets the
    body to [null] and then the status to 404, the finalized response has
    status 404, no Content-Type, no Transfer-Encoding, Content-Length 0 and
    an empty payload. *)
Theorem null_then_status_preserved (w : World Context) :
  headersSent (response (ctx w)) = false ->
  writable (response (ctx w)) = true ->
  respond (ctx w) = true ->
  method (request (ctx w)) <> "HEAD" ->
  get_type (response (ctx w)) <> "application/json" ->
  exists w',
    callback lib [null_then_status lib] w = Ok w' /\
    statusCode (response (ctx w')) = 404 /\
    get "Content-Type" (response (ctx w')) = None /\
    get "Transfer-Encoding" (response (ctx w')) = None /\
    get "Content-Length" (response (ctx w')) = Some "0" /\
    output (response (ctx w')) = Ended "".
Proof.
  destruct w as [c cs clk]. cbn [ctx].
  intros Hs Hw Hr Hm Hj.
  apply String.eqb_neq in Hm. apply String.eqb_neq in Hj.
  unfold callback, handleRequest. cbn [with_ctx ctx cells clock].
  set (r0 := with_statusCode 404 (response c)).
  set (r1 := assign_status lib (request c) 204 (with_body BNull r0)).
  set (h2 := delete "transfer-encoding"
               (delete "content-length" (delete "content-type" (headers r0)))).
  set (r2 := with_headers h2 (with_explicitNullBody true r1)).
  set (r3 := assign_status lib (request c) 404 r2).
  assert (E1 : ctx_set_body lib BNull (on_response (with_statusCode 404) c)
               = Ok (with_response r2 (on_response (with_statusCode 404) c))).
  { unfold ctx_set_body, setter_depth, on_response.
    cbn [request response with_response]. fold r0.
    rewrite set_body_null_eq by done.
    change (statuses_empty (statusCode r0)) with false.
    change (get_type r0) with (get_type (response c)). rewrite Hj.
    cbn [negb andb]. rewrite set_status_plain; [| exact Hs | lia | done].
    fold r1. cbn [mbind exc_bind mret exc_ret].
    rewrite (remove_unsent "Content-Type") by exact Hs.
    rewrite (remove_unsent "Content-Length") by exact Hs.
    rewrite (remove_unsent "Transfer-Encoding") by exact Hs.
    reflexivity. }
  assert (E2 : ctx_set_status lib 404
                 (with_response r2 (on_response (with_statusCode 404) c))
               = Ok (with_response r3 c)).
  { unfold ctx_set_status, setter_depth, on_response.
    cbn [request response with_response].
    rewrite set_status_plain; [| exact Hs | lia | done]. reflexivity. }
  unfold null_then_status.
  rewrite (compose_two_stmts _ _
             (with_ctx (on_response (with_statusCode 404)) (mkWorld c cs clk))
             _ _ E1 E2).
  cbn [ctx cells clock with_ctx].
  assert (Hct : h2 !! "content-type" = None).
  { unfold h2. rewrite lookup_delete_ne by done.
    rewrite lookup_delete_ne by done. apply lookup_delete_eq. }
  assert (Hte : h2 !! "transfer-encoding" = None) by apply lookup_delete_eq.
  unfold handleResponse. cbn [respond with_response response request].
  rewrite Hr. cbn [negb].
  change (writable r3) with (writable (response c)). rewrite Hw. cbn [negb].
  change (statuses_empty (statusCode r3)) with false. cbv iota.
  rewrite Hm.
  change (nullish (_body r3)) with true.
  change (_explicitNullBody r3) with true. cbv iota.
  unfold on_response. cbn [response with_response].
  rewrite (remove_unsent "Content-Type") by exact Hs.
  rewrite (remove_unsent "Transfer-Encoding") by exact Hs.
  unfold set_length. rewrite has_false by apply lookup_delete_eq.
  rewrite set_unsent by exact Hs.
  eexists. split; [reflexivity |].
  cbn [ctx with_ctx response with_response statusCode res_end output
       with_headers].
  unfold get. cbn [headers res_end with_headers].
  change (headers r3) with h2.
  change (toLowerCase "Content-Length") with "content-length".
  change (toLowerCase "Content-Type") with "content-type".
  change (toLowerCase "Transfer-Encoding") with "transfer-encoding".
  repeat split.
  - rewrite lookup_insert_ne by done. rewrite lookup_delete_ne by done.
    apply lookup_delete_eq.
  - rewrite lookup_insert_ne by done. apply lookup_delete_eq.
  - apply lookup_insert_eq.
Qed.
End Unsent.

Lemma null_then_status_preserved_witness :
  exists w',
    callback sample_lib [null_then_status sample_lib]
      (mkWorld (createContext (mkRequest "GET" "/" "" 1)) [] 0%nat) = Ok w' /\
    statusCode (response (ctx w')) = 404 /\
    get "Content-Type" (response (ctx w')) = None /\
    get "Transfer-Encoding" (response (ctx w')) = None /\
    get "Content-Length" (response (ctx w')) = Some "0" /\
    output (response (ctx w')) = Ended "".
Proof.
  apply (null_then_status_preserved sample_lib
           (mkWorld (createContext (mkRequest "GET" "/" "" 1)) [] 0%nat));
    [reflexivity | reflexivity | reflexivity | discriminate | discriminate].
Defined.

(** ** Errors *)

(** C8, as stated, fails: the ENOENT mapping comes before the error's own
    status, so an error with status 403 and code ENOENT is answered 404. *)
Lemma enoent_overrides_own_status :
  exists c,
    onerror sample_lib (TError forbidden_enoent)
      (createContext (mkRequest "GET" "/" "" 1)) = Ok c /\
    statusCode (response c) = 404 /\
    statusCode (response c) <> 403 /\
    output (response c) = Ended "Not Found".
Proof. eexists. split; [vm_compute; reflexivity |]. by vm_compute. Qed.

Section OnError.
Variable lib : Libraries.
Implicit Types (r : Response) (c : Context).

(** The headers of an object are set one after the other until one of them
    is refused. *)
Lemma set_all_spec fields r :
  headersSent r = false ->
  match set_all fields r with
  | Ok r1 => valid_headers fields = true /\ same_but_headers r r1
  | Raise _ => valid_headers fields = false
  end.
Proof.
  revert r. induction fields as [| [k v] fields IH]; intros r Hs.
  - cbn. split; [done |]. apply same_refl.
  - cbn [set_all valid_headers forallb fst snd]. rewrite Hs. unfold setHeader.
    destruct (validHeaderName k); [| done].
    destruct (validHeaderValue v); [| done].
    cbn [negb andb mbind exc_bind].
    set (r' := with_headers _ r).
    specialize (IH r' Hs).
    destruct (set_all fields r') as [r1 | t]; [| exact IH].
    destruct IH as [Hv Hsame]. split; [exact Hv |].
    eapply same_trans; [| exact Hsame]. apply same_with_headers.
Qed.

Lemma known_status_message f n :
  known_status lib f = Some n ->
  exists m, statuses_message lib n = Some m.
Proof.
  destruct f as [| k | s]; simpl; try discriminate.
  destruct (statuses_message lib k) as [m |] eqn:E; [| discriminate].
  destruct (String.eqb m ""); [discriminate |].
  intros [= <-]. eauto.
Qed.

(** A status without a body on a response that has one: the body goes, and
    the three headers with it. *)
Lemma set_status_emptied req fuel code r :
  headersSent r = false -> (100 <= code <= 999) ->
  body_truthy (_body r) = true -> statuses_empty code = true ->
  set_status lib req (S (S fuel)) code r =
    Ok (remove "Transfer-Encoding"
          (remove "Content-Length"
             (remove "Content-Type"
                (with_explicitNullBody true
                   (with_body BNull (assign_status lib req code r)))))).
Proof.
  intros Hs Hc Hb He. rewrite set_status_eq. rewrite Hs.
  destruct (Z.leb_spec 100 code); [| lia].
  destruct (Z.leb_spec code 999); [| lia]. cbn [andb negb]. cbv zeta.
  change (_body (assign_status lib req code r)) with (_body r).
  rewrite Hb, He. cbn [andb].
  rewrite set_body_null_eq by done.
  change (statusCode (assign_status lib req code r)) with code.
  rewrite He. cbn [negb andb mbind exc_bind]. reflexivity.
Qed.

(** C8, as the code has it.  For a value other than [null] and [undefined]
    routed to [onerror] while the headers have not been sent and the
    response is writable, with [e] the error (the value itself, or the Error
    that wraps it).  When a header of the error has a name or a value that
    [setHeader] refuses, [onerror] throws.  Otherwise the status is 404 when
    [e.code] is ENOENT, else the error's own status ([e.status], or
    [e.statusCode] when that is falsy) when it is a number with a reason
    phrase, else 500; the headers set before are gone and the headers of the
    error are set; the payload is [e.message] when [e.expose] holds and the
    reason phrase of the status otherwise; [e] is emitted on the
    application; and Content-Type is text/plain, unless the status is 204,
    205 or 304 and the response had a body: assigning the status then
    clears the body and removes Content-Type and Transfer-Encoding. *)
Theorem onerror_response c (err : thrown) :
  mime_contentType lib "text" = Some "text/plain; charset=utf-8" ->
  (forall n m, statuses_message lib n = Some m -> 100 <= n <= 999) ->
  known_status lib (FNumber 404) = Some 404 ->
  known_status lib (FNumber 500) = Some 500 ->
  err <> TNullish ->
  headersSent (response c) = false ->
  writable (response c) = true ->
  let e := wrap_non_error err in
  let code :=
    if bool_decide (err_code e = Some "ENOENT") then 404
    else default 500 (known_status lib (own_status e)) in
  let emptied := body_truthy (_body (response c)) && statuses_empty code in
  (valid_headers (err_headers e) = false ->
   exists t, onerror lib err c = Raise t) /\
  (valid_headers (err_headers e) = true ->
   exists c' r1 reason,
    onerror lib err c = Ok c' /\
    set_all (err_headers e) (with_headers ∅ (response c)) = Ok r1 /\
    statusCode (response c') = code /\
    get "Content-Type" (response c')
      = (if emptied then None else Some "text/plain; charset=utf-8") /\
    (emptied = true -> get "Transfer-Encoding" (response c') = None) /\
    (forall field,
        toLowerCase field <> "content-type" ->
        toLowerCase field <> "content-length" ->
        (emptied = true -> toLowerCase field <> "transfer-encoding") ->
        get field (response c') = get field r1) /\
    _body (response c') = (if emptied then BNull else _body (response c)) /\
    statuses_message lib code = Some reason /\
    output (response c')
      = Ended (if err_expose e then err_message e else reason) /\
    emitted c' = emitted c ++ [e]).
Proof.
  intros Hmime Hcodes H404 H500 Herr Hs Hw e code emptied.
  set (r0 := with_headers ∅ (response c)).
  assert (Hon : onerror lib err c
            = (r ← set_all (err_headers e) r0;
               let c1 := on_response (set_type lib "text")
                           (with_response r (emit_error e c)) in
               c2 ← ctx_set_status lib code c1;
               match (if err_expose e then Some (err_message e)
                      else statuses_message lib code) with
               | None =>
                   Raise (TError
                            (Error "Buffer.byteLength: argument is undefined"))
               | Some msg =>
                   Ok (on_response (res_end msg)
                         (on_response (set_length (byteLength msg)) c2))
               end)).
  { unfold onerror. fold e.
    destruct err as [e0 | | json]; [| done |];
      rewrite Hs, Hw; cbn [negb orb];
      change (response (on_response (with_headers ∅) (emit_error e c)))
        with r0;
      (destruct (set_all (err_headers e) r0) as [r |];
         cbn [mbind exc_bind]; [| reflexivity]);
      unfold own_status in code; unfold own_status;
      (replace (default 500
                  (known_status lib
                     (if bool_decide (err_code e = Some "ENOENT")
                      then FNumber 404
                      else field_or (err_status e) (err_statusCode e))))
         with code
         by (unfold code; destruct (bool_decide _); [by rewrite H404 | done]));
      reflexivity. }
  pose proof (set_all_spec (err_headers e) r0 Hs) as Hall.
  split.
  { intros Hv. rewrite Hon.
    destruct (set_all (err_headers e) r0) as [r1 | t].
    - destruct Hall as [Hv' _]. congruence.
    - by exists t. }
  intros Hv.
  destruct (set_all (err_headers e) r0) as [r1 | t] eqn:Eset;
    [| congruence].
  destruct Hall as [_ Hsame].
  assert (Hknown : known_status lib (FNumber code) = Some code).
  { unfold code. destruct (bool_decide _); [done |].
    destruct (known_status lib (own_status e)) as [n |] eqn:E; [| done].
    simpl. destruct (own_status e) as [| k | s]; simpl in E; try discriminate.
    destruct (statuses_message lib k) as [m |] eqn:Em; [| discriminate].
    destruct (String.eqb m "") eqn:Emm; [discriminate |].
    injection E as <-. simpl. by rewrite Em, Emm. }
  destruct (known_status_message _ _ Hknown) as [reason Hreason].
  pose proof (Hcodes _ _ Hreason) as Hrange.
  pose proof Hsame as (_ & _ & Hs1 & _ & _ & _ & _ & Hb1 & _).
  change (headersSent r0) with (headersSent (response c)) in Hs1.
  change (_body r0) with (_body (response c)) in Hb1.
  rewrite Hs in Hs1.
  set (r2 := with_headers (<["content-type" := "text/plain; charset=utf-8"]>
                             (headers r1)) r1).
  set (r3 := assign_status lib (request c) code r2).
  set (msg := if err_expose e then err_message e else reason).
  assert (Hmsg : (if err_expose e then Some (err_message e)
                  else statuses_message lib code) = Some msg).
  { unfold msg. rewrite Hreason. by destruct (err_expose e). }
  assert (Htype : set_type lib "text" r1 = r2).
  { unfold set_type. rewrite Hmime. cbn [String.eqb Ascii.eqb Bool.eqb].
    by rewrite (set_unsent "Content-Type") by exact Hs1. }
  cbn [mbind exc_bind] in Hon. rewrite Hmsg in Hon.
  unfold ctx_set_status, setter_depth, on_response in Hon.
  cbn [request response emit_error with_response] in Hon.
  rewrite Htype in Hon.
  assert (Hget_end : forall field n r,
            headersSent r = false ->
            toLowerCase field <> "content-length" ->
            get field (res_end msg (set_length n r)) = get field r).
  { intros field n r Hsr Hne. unfold get, set_length.
    destruct (has "Transfer-Encoding" r); [done |].
    rewrite set_unsent by exact Hsr.
    cbn [headers res_end with_headers].
    change (toLowerCase "Content-Length") with "content-length".
    by rewrite lookup_insert_ne. }
  destruct emptied eqn:Eemp; unfold emptied in Eemp.
  - (* the status clears the body *)
    apply andb_true_iff in Eemp as [Hbody Hempty].
    rewrite set_status_emptied in Hon;
      [| exact Hs1 | exact Hrange
       | change (_body r2) with (_body r1); by rewrite Hb1 | exact Hempty].
    fold r3 in Hon. cbn [mbind exc_bind] in Hon.
    set (r4 := with_explicitNullBody true (with_body BNull r3)) in *.
    set (r5 := remove "Transfer-Encoding"
                 (remove "Content-Length" (remove "Content-Type" r4))) in *.
    assert (Hs4 : headersSent r4 = false) by exact Hs1.
    assert (Hs5 : headersSent r5 = false)
      by (unfold r5; by rewrite !headersSent_remove).
    destruct (removed_three r4 Hs4) as (Hct & _ & Hte). fold r5 in Hct, Hte.
    eexists _, r1, reason. split; [exact Hon |].
    cbn [response with_response emit_error emitted statusCode res_end output
         _body].
    split; [reflexivity |].
    split; [by rewrite statusCode_set_length; unfold r5;
            rewrite !statusCode_remove |].
    split; [by rewrite Hget_end |].
    split; [intros _; by rewrite Hget_end |].
    split.
    { intros field Hnct Hncl Hnte. rewrite Hget_end by done.
      unfold r5. rewrite !get_remove_ne by (try done; by apply Hnte).
      unfold get. cbn [headers r4 r3 r2 with_headers with_explicitNullBody
                       with_body assign_status with_statusMessage
                       with_statusCode with_explicitStatus].
      by rewrite lookup_insert_ne. }
    split.
    { unfold set_length. destruct (has _ r5);
        [| rewrite set_unsent by exact Hs5];
        cbn [_body with_headers]; unfold r5;
        by rewrite !(proj1 (proj2 (proj2 (remove_fields _ _)))). }
    done.
  - (* the status leaves the body *)
    rewrite set_status_plain in Hon;
      [| exact Hs1 | exact Hrange
       | change (_body r2) with (_body r1); by rewrite Hb1].
    fold r3 in Hon. cbn [mbind exc_bind] in Hon.
    assert (Hs3 : headersSent r3 = false) by exact Hs1.
    eexists _, r1, reason. split; [exact Hon |].
    cbn [response with_response emit_error emitted statusCode res_end output
         _body].
    split; [reflexivity |].
    split; [by rewrite statusCode_set_length |].
    split; [rewrite Hget_end by done; apply lookup_insert_eq |].
    split; [done |].
    split.
    { intros field Hnct Hncl _. rewrite Hget_end by done.
      unfold get. cbn [headers r3 r2 with_headers assign_status
                       with_statusMessage with_statusCode with_explicitStatus].
      by rewrite lookup_insert_ne. }
    split.
    { unfold set_length. destruct (has _ r3);
        [| rewrite set_unsent by exact Hs3];
        cbn [_body with_headers]; exact Hb1. }
    done.
Qed.
End OnError.

Lemma onerror_response_witness :
  exists c',
    onerror sample_lib (TError no_content_error) context_with_body = Ok c' /\
    statusCode (response c') = 204 /\
    get "Content-Type" (response c') = None /\
    get "X-Reason" (response c') = Some "gone" /\
    _body (response c') = BNull /\
    output (response c') = Ended "No Content".
Proof.
  destruct (onerror_response sample_lib context_with_body
              (TError no_content_error)) as [_ H]; try reflexivity.
  - intros n m. unfold sample_lib, statuses_message, sample_message.
    repeat match goal with
      | |- context [Z.eqb ?a ?b] => destruct (Z.eqb_spec a b); [lia |]
      end.
    discriminate.
  - discriminate.
  - destruct (H eq_refl)
      as (c' & r1 & reason & E & Eset & Hst & Hct & _ & Hget & Hb & Hr & Hout & _).
    injection Hr as <-. injection Eset as <-.
    exists c'. split; [exact E |]. split; [exact Hst |].
    split; [exact Hct |]. split; [| split; [exact Hb | exact Hout]].
    rewrite Hget; [reflexivity | discriminate | discriminate | discriminate].
Defined.

(** ** Allowed methods *)

Lemma run_settle {Ctx} (o : Outcome) (next : K Ctx) (w : World Ctx) :
  run (settle o) next w = (o, w).
Proof. by destruct o. Qed.

Lemma run_Stmt_ok {Ctx} (f : Ctx -> Exc Ctx) k (next : K Ctx) w c :
  f (ctx w) = Ok c ->
  run (Stmt f k) next w = run k next (with_ctx (fun _ => c) w).
Proof. intros E. cbn [run]. by rewrite E. Qed.

(** A pipeline of two steps in which the first step does [f] on the context
    and returns what [next()] returns, and the second step begins by
    awaiting [next()]. *)
Lemma compose_pass_through {Ctx} (p1 : prog Ctx)
    (k2 : Outcome -> prog Ctx) (f : Ctx -> Ctx) (w : World Ctx) :
  (forall next,
      run p1 next (set_index (length (cells w)) 0 (alloc w))
        = next (with_ctx f (set_index (length (cells w)) 0 (alloc w)))) ->
  exists w',
    compose run [p1; Next k2] None w
      = run (k2 Resolved) (dispatch run (length (cells w)) None [] 2) w' /\
    ctx w' = f (ctx w).
Proof.
  intros Hp1. unfold compose. cbn [dispatch].
  rewrite index_of_alloc. cbn [Z.leb Z.compare]. rewrite Hp1.
  set (cell := length (cells w)).
  assert (Hc : (cell < length (cells (alloc w)))%nat)
    by (simpl; rewrite length_app; simpl; lia).
  set (w1 := with_ctx f (set_index cell 0 (alloc w))).
  assert (H1 : index_of cell w1 = 0)
    by (unfold w1; apply (index_of_set_index cell 0 (alloc w) Hc)).
  set (w2 := set_index cell 1 w1).
  assert (H2 : index_of cell w2 = 1).
  { unfold w2. apply index_of_set_index. unfold w1. simpl.
    rewrite length_insert, length_app. simpl. lia. }
  change (0 + 1) with 1. rewrite H1.
  change (1 <=? 0) with false. cbv iota.
  cbn [run dispatch]. change (1 + 1) with 2. fold w2. rewrite H2.
  change (2 <=? 1) with false. cbv iota.
  eexists. split; [reflexivity |]. reflexivity.
Qed.

Section AllowedMethods.
Variable lib : Libraries.

(** [routes()] hands over to [next()] when no layer takes the request. *)
Lemma routes_unmatched (router : Router) (next : K Context)
    (w : World Context) :
  router_host router = None ->
  ropt_routerPath (router_opts router) = "" ->
  routerPath (ctx w) = None ->
  route (router_match lib router (path (request (ctx w)))
           (method (request (ctx w)))) = false ->
  run (routes lib router) next w
    = next (with_ctx
              (fun c =>
                 with_matched
                   (Some (default [] (matched c)
                            ++ map info
                                 (matched_path
                                    (router_match lib router (path (request c))
                                       (method (request c)))))) c) w).
Proof.
  intros Hh Hrp Hcp Hr. unfold routes. cbn [run].
  unfold matchHost. rewrite Hh. cbn [negb].
  rewrite Hrp, Hcp. cbn [default or_string String.eqb].
  rewrite Hr. cbn [negb run].
  match goal with |- (let '(o, w') := next ?x in _) = next ?y =>
    change x with y; destruct (next y) as [o w']
  end.
  apply run_settle.
Qed.

Variables get_handlers put_handlers : list (prog Context).

Let router := users_router None get_handlers put_handlers.

Lemma users_stack :
  router_stack router
    = [mkLayer users_get get_handlers; mkLayer users_put put_handlers].
Proof. reflexivity. Qed.

Lemma users_match (p m : string) :
  m <> "HEAD" -> m <> "GET" -> m <> "PUT" ->
  route (router_match lib router p m) = false /\
  map info (matched_path (router_match lib router p m))
    = if layer_match lib users_get p then [users_get; users_put] else [].
Proof.
  intros H1 H2 H3.
  assert (E1 : bool_decide (m ∈ ["HEAD"; "GET"]) = false).
  { apply bool_decide_eq_false. rewrite !elem_of_cons, elem_of_nil. tauto. }
  assert (E2 : bool_decide (m ∈ ["PUT"]) = false).
  { apply bool_decide_eq_false. rewrite !elem_of_cons, elem_of_nil. tauto. }
  unfold router_match. rewrite users_stack.
  cbn [fold_left info].
  change (layer_match lib users_put p) with (layer_match lib users_get p).
  destruct (layer_match lib users_get p); [| done].
  change (layer_methods users_get) with ["HEAD"; "GET"].
  change (layer_methods users_put) with ["PUT"].
  rewrite E1. cbn [bool_decide orb]. rewrite E2. done.
Qed.

(** The two steps of the application, for a request that no layer takes:
    what is left to run is the function that [allowedMethods] chained, on a
    context that has status 404 and the layers matched by the path. *)
Lemma users_pipeline (m p host : string) (version : Z) (cs : list Z)
    (clk : nat) :
  m <> "HEAD" -> m <> "GET" -> m <> "PUT" ->
  let c0 := on_response (with_statusCode 404)
              (createContext (mkRequest m p host version)) in
  let c1 := with_matched
              (Some (if layer_match lib users_get p
                     then [users_get; users_put] else [])) c0 in
  exists w',
    compose run (users_app lib router) None
        (with_ctx (on_response (with_statusCode 404))
           (mkWorld (createContext (mkRequest m p host version)) cs clk))
      = run (allowed_respond lib router (mkAllowedOpts false None None) c1)
          (dispatch run (length cs) None [] 2) w' /\
    ctx w' = c1.
Proof.
  intros H1 H2 H3 c0 c1.
  destruct (users_match p m H1 H2 H3) as [Hr Hp].
  change (with_ctx (on_response (with_statusCode 404))
            (mkWorld (createContext (mkRequest m p host version)) cs clk))
    with (mkWorld c0 cs clk).
  unfold users_app, allowedMethods.
  destruct (compose_pass_through (routes lib router)
              (fun o => match o with
                        | Resolved =>
                            Read (allowed_respond lib router
                                    (mkAllowedOpts false None None))
                        | Rejected e => Throw e
                        end)
              (fun c => with_matched
                          (Some (default [] (matched c)
                                   ++ map info
                                        (matched_path
                                           (router_match lib router
                                              (path (request c))
                                              (method (request c)))))) c)
              (mkWorld c0 cs clk)) as (w' & E & Hctx).
  { intros next. apply routes_unmatched; done. }
  exists w'. split.
  - rewrite E. cbn [run]. rewrite Hctx. cbn [ctx].
    change (path (request c0)) with p. change (method (request c0)) with m.
    rewrite Hp. reflexivity.
  - rewrite Hctx. cbn [ctx].
    change (path (request c0)) with p. change (method (request c0)) with m.
    rewrite Hp. reflexivity.
Qed.

(** A response to which only a status has been assigned, and then the Allow
    header, is finalized with that status and that header. *)
Lemma finalize_status_allow (c1 : Context) (code : Z) (allow : string) :
  response c1 = with_statusCode 404 fresh_response ->
  respond c1 = true ->
  method (request c1) <> "HEAD" ->
  (100 <= code <= 999) ->
  statuses_empty code = false ->
  exists c2 cF,
    ctx_set_status lib code c1 = Ok c2 /\
    handleResponse lib (ctx_set "Allow" allow c2) = Ok cF /\
    statusCode (response cF) = code /\
    get "Allow" (response cF) = Some allow.
Proof.
  intros Hr Hresp Hm Hc He.
  apply String.eqb_neq in Hm.
  set (r2 := assign_status lib (request c1) code (response c1)).
  exists (with_response r2 c1).
  assert (E : ctx_set_status lib code c1 = Ok (with_response r2 c1)).
  { unfold ctx_set_status, setter_depth.
    rewrite set_status_plain; [done | by rewrite Hr | done |].
    rewrite Hr. done. }
  assert (Hs2 : headersSent r2 = false) by (unfold r2; by rewrite Hr).
  unfold handleResponse, ctx_set, on_response.
  cbn [respond response request with_response].
  rewrite (set_unsent "Allow") by exact Hs2.
  set (r3 := with_headers _ r2).
  assert (Hget : get "Allow" r3 = Some allow)
    by (unfold get; cbn [headers r3 with_headers]; apply lookup_insert_eq).
  rewrite Hresp. cbn [negb].
  assert (Hw : writable r3 = true) by (unfold r3, r2; by rewrite Hr).
  rewrite Hw. cbn [negb].
  assert (Hcode : statusCode r3 = code) by reflexivity.
  rewrite Hcode, He, Hm.
  assert (Hb : _body r3 = BUndefined) by (unfold r3, r2; by rewrite Hr).
  assert (Hn : _explicitNullBody r3 = false)
    by (unfold r3, r2; by rewrite Hr).
  assert (Hs : headersSent r3 = false) by exact Hs2.
  rewrite Hb, Hn, Hs. cbn [nullish negb].
  eexists. split; [exact E |]. split; [reflexivity |].
  cbn [response with_response statusCode res_end].
  split.
  - by rewrite statusCode_set_length, statusCode_set_type.
  - unfold get. cbn [headers res_end].
    match goal with |- headers ?r !! _ = _ => change (get "Allow" r = Some allow) end.
    rewrite get_set_length_ne by done. by rewrite get_set_type_ne.
Qed.

(** The answer to OPTIONS: status 200, an empty string as body, and then the
    Allow header. *)
Lemma finalize_options (c1 : Context) (allow : string) :
  response c1 = with_statusCode 404 fresh_response ->
  respond c1 = true ->
  method (request c1) = "OPTIONS" ->
  exists c2 c3 cF,
    ctx_set_status lib 200 c1 = Ok c2 /\
    ctx_set_body lib (BString "") c2 = Ok c3 /\
    handleResponse lib (ctx_set "Allow" allow c3) = Ok cF /\
    statusCode (response cF) = 200 /\
    get "Allow" (response cF) = Some allow /\
    output (response cF) = Ended "".
Proof.
  intros Hr Hresp Hm.
  set (r2 := assign_status lib (request c1) 200 (response c1)).
  set (r3 := set_length (byteLength "")
               (set_type lib "text" (with_body (BString "") r2))).
  exists (with_response r2 c1), (with_response r3 c1).
  assert (E2 : ctx_set_status lib 200 c1 = Ok (with_response r2 c1)).
  { unfold ctx_set_status, setter_depth.
    rewrite set_status_plain; [done | by rewrite Hr | done |].
    rewrite Hr. done. }
  assert (E3 : ctx_set_body lib (BString "") (with_response r2 c1)
               = Ok (with_response r3 c1)).
  { unfold ctx_set_body, setter_depth.
    cbn [request response with_response]. rewrite set_body_eq. cbv zeta.
    cbn [nullish]. change (_explicitStatus (with_body (BString "") r2)) with true.
    cbn [negb mbind exc_bind].
    assert (Hh : has "Content-Type" (with_body (BString "") r2) = false).
    { apply has_false. unfold get, r2. cbn [headers with_body assign_status
        with_statusMessage with_statusCode with_explicitStatus].
      by rewrite Hr. }
    rewrite Hh. reflexivity. }
  assert (H3 : same_but_headers (with_body (BString "") r2) r3).
  { eapply same_trans; [apply same_set_type | apply same_set_length]. }
  destruct H3 as (Hc3 & _ & Hs3 & Hwe3 & Hso3 & _ & _ & Hb3 & _).
  assert (Hs3' : headersSent r3 = false) by (rewrite Hs3; unfold r2; by rewrite Hr).
  unfold handleResponse, ctx_set, on_response.
  cbn [respond response request with_response].
  rewrite (set_unsent "Allow") by exact Hs3'.
  set (r4 := with_headers _ r3).
  rewrite Hresp. cbn [negb].
  assert (Hw : writable r4 = true).
  { unfold writable. change (writableEnded r4) with (writableEnded r3).
    change (socket r4) with (socket r3). rewrite Hwe3, Hso3.
    unfold r2. by rewrite Hr. }
  rewrite Hw. cbn [negb].
  change (statusCode r4) with (statusCode r3). rewrite Hc3.
  change (statusCode (with_body (BString "") r2)) with 200.
  change (statuses_empty 200) with false. cbv iota.
  rewrite Hm. change (String.eqb "OPTIONS" "HEAD") with false. cbv iota.
  change (_body r4) with (_body r3). rewrite Hb3.
  cbn [_body with_body nullish].
  eexists. split; [exact E2 |]. split; [exact E3 |]. split; [reflexivity |].
  cbn [response with_response statusCode res_end output].
  repeat split.
  - exact Hc3.
  - unfold get. cbn [headers res_end r4 with_headers]. apply lookup_insert_eq.
Qed.

Lemma not_in_default_table (m : string) :
  m ∉ ["HEAD"; "OPTIONS"; "GET"; "PUT"; "PATCH"; "POST"; "DELETE"] ->
  m <> "HEAD" /\ m <> "GET" /\ m <> "PUT".
Proof. rewrite !not_elem_of_cons. tauto. Qed.

(** C5.  For the router with a GET layer and a PUT layer at /users, used
    with [routes()] and [allowedMethods()] by an application: OPTIONS /users
    is answered 200 with Allow "HEAD, GET, PUT" and an empty body; POST
    /users is answered 405 with the same Allow header; and a request with a
    method that is not in the method table of the router is answered 501.
    HEAD is in the header because the GET layer has the methods HEAD and
    GET. *)
Theorem allowed_methods_users (host : string) (version : Z) (cs : list Z)
    (clk : nat) :
  is_Some (pathToRegexp lib "/users" users_opts "/users") ->
  let serve method path :=
    callback lib (users_app lib router)
      (mkWorld (createContext (mkRequest method path host version)) cs clk) in
  layer_methods_of ["get"] = ["HEAD"; "GET"] /\
  answer (serve "OPTIONS" "/users")
    = Some (200, Some "HEAD, GET, PUT", Ended "") /\
  (exists payload,
      answer (serve "POST" "/users")
        = Some (405, Some "HEAD, GET, PUT", payload)) /\
  (forall method path,
      method ∉ router_methods router ->
      exists allow payload,
        answer (serve method path) = Some (501, allow, payload)).
Proof.
  intros Hmatch serve.
  assert (Hlm : layer_match lib users_get "/users" = true)
    by (unfold layer_match; by apply bool_decide_eq_true).
  split; [reflexivity |].
  split; [| split].
  - destruct (users_pipeline "OPTIONS" "/users" host version cs clk)
      as (w' & E & Hctx); [done | done | done |].
    rewrite Hlm in E, Hctx.
    unfold serve, callback, handleRequest. rewrite E. clear E.
    set (c1 := with_matched _ _) in *.
    destruct (finalize_options c1 "HEAD, GET, PUT")
      as (c2 & c3 & cF & E2 & E3 & EF & Hc & Ha & Ho); [done | done | done |].
    unfold allowed_respond.
    change (statusCode (response c1)) with 404.
    cbn [Z.eqb orb Pos.eqb]. cbv iota.
    change (matched c1) with (Some [users_get; users_put]). cbv iota zeta.
    change (method (request c1)) with "OPTIONS".
    change (bool_decide ("OPTIONS" ∈ router_methods router)) with true.
    cbn [negb]. cbv iota.
    change (allowed_keys [users_get; users_put]) with ["HEAD"; "GET"; "PUT"].
    change (join ", " ["HEAD"; "GET"; "PUT"]) with "HEAD, GET, PUT".
    cbn [length Nat.ltb Nat.leb String.eqb Ascii.eqb Bool.eqb]. cbv iota.
    rewrite (run_Stmt_ok _ _ _ _ c2) by (by rewrite Hctx).
    rewrite (run_Stmt_ok _ _ _ _ c3) by exact E3.
    rewrite (run_Stmt_ok _ _ _ _ (ctx_set "Allow" "HEAD, GET, PUT" c3))
      by reflexivity.
    cbn [run with_ctx ctx]. rewrite EF.
    cbn [answer with_ctx ctx]. by rewrite Hc, Ha, Ho.
  - destruct (users_pipeline "POST" "/users" host version cs clk)
      as (w' & E & Hctx); [done | done | done |].
    rewrite Hlm in E, Hctx.
    unfold serve, callback, handleRequest. rewrite E. clear E.
    set (c1 := with_matched _ _) in *.
    destruct (finalize_status_allow c1 405 "HEAD, GET, PUT")
      as (c2 & cF & E2 & EF & Hc & Ha); [done | done | done | lia | done |].
    unfold allowed_respond.
    change (statusCode (response c1)) with 404.
    cbn [Z.eqb orb Pos.eqb]. cbv iota.
    change (matched c1) with (Some [users_get; users_put]). cbv iota zeta.
    change (method (request c1)) with "POST".
    change (bool_decide ("POST" ∈ router_methods router)) with true.
    cbn [negb]. cbv iota.
    change (allowed_keys [users_get; users_put]) with ["HEAD"; "GET"; "PUT"].
    change (allowed_has ["HEAD"; "GET"; "PUT"] "POST") with false.
    change (join ", " ["HEAD"; "GET"; "PUT"]) with "HEAD, GET, PUT".
    cbn [length Nat.ltb Nat.leb String.eqb Ascii.eqb Bool.eqb negb opt_throw].
    cbv iota.
    rewrite (run_Stmt_ok _ _ _ _ c2) by (by rewrite Hctx).
    rewrite (run_Stmt_ok _ _ _ _ (ctx_set "Allow" "HEAD, GET, PUT" c2))
      by reflexivity.
    cbn [run with_ctx ctx]. rewrite EF.
    cbn [answer with_ctx ctx]. rewrite Hc, Ha. eauto.
  - intros m p Hnot.
    destruct (not_in_default_table m Hnot) as (H1 & H2 & H3).
    destruct (users_pipeline m p host version cs clk H1 H2 H3)
      as (w' & E & Hctx).
    unfold serve, callback, handleRequest. rewrite E. clear E.
    set (c1 := with_matched _ _) in *.
    set (allow := join ", "
                    (allowed_keys
                       (if layer_match lib users_get p
                        then [users_get; users_put] else []))).
    destruct (finalize_status_allow c1 501 allow)
      as (c2 & cF & E2 & EF & Hc & Ha); [done | done | done | lia | done |].
    unfold allowed_respond.
    change (statusCode (response c1)) with 404.
    cbn [Z.eqb orb Pos.eqb]. cbv iota.
    change (matched c1)
      with (Some (if layer_match lib users_get p
                  then [users_get; users_put] else [])).
    cbv iota zeta.
    change (method (request c1)) with m.
    rewrite (bool_decide_eq_false_2 _ Hnot). cbn [negb opt_throw]. cbv iota.
    fold allow.
    rewrite (run_Stmt_ok _ _ _ _ c2) by (by rewrite Hctx).
    rewrite (run_Stmt_ok _ _ _ _ (ctx_set "Allow" allow c2)) by reflexivity.
    cbn [run with_ctx ctx]. rewrite EF.
    cbn [answer with_ctx ctx]. rewrite Hc, Ha. eauto.
Qed.
End AllowedMethods.

Lemma allowed_methods_users_witness :
  let serve method path :=
    callback sample_lib (users_app sample_lib (users_router None [] []))
      (mkWorld (createContext (mkRequest method path "localhost" 1)) []
         0%nat) in
  layer_methods_of ["get"] = ["HEAD"; "GET"] /\
  answer (serve "OPTIONS" "/users")
    = Some (200, Some "HEAD, GET, PUT", Ended "") /\
  (exists payload,
      answer (serve "POST" "/users")
        = Some (405, Some "HEAD, GET, PUT", payload)) /\
  (forall method path,
      method ∉ router_methods (users_router None [] []) ->
      exists allow payload,
        answer (serve method path) = Some (501, allow, payload)).
Proof.
  apply (allowed_methods_users sample_lib [] [] "localhost" 1 [] 0%nat).
  vm_compute. eauto.
Defined.

(** ** The redirect pass *)



(** The host ends at a semicolon, and a quote after the host is escaped. *)
Example redirect_semicolon :
  setRedirectHostRewrite None 302 (Some "http://backend.com;x/login")
    (mkRewriteOptions "http://backend.com" "ext-manual.com" false "")
  = Some "http://ext-manual.com/;x/login".
Proof. vm_compute. reflexivity. Qed.

Example redirect_quote :
  setRedirectHostRewrite None 302 (Some "http://backend.com/o'brien")
    (mkRewriteOptions "http://backend.com" "ext-manual.com" false "")
  = Some "http://ext-manual.com/o%27brien".
Proof. vm_compute. reflexivity. Qed.

(** A path is not a redirect to the target's host: it is left as it is. *)
Example redirect_path :
  setRedirectHostRewrite None 302 (Some "/login?next=/o'brien")
    (mkRewriteOptions "http://backend.com" "ext-manual.com" false "")
  = Some "/login?next=/o'brien".
Proof. vm_compute. reflexivity. Qed.



(** ** Cookie attributes *)

Lemma span_app (p : ascii -> bool) (s : string) :
  s = String.append (NodeUrl.span p s).1 (NodeUrl.span p s).2.
Proof.
  induction s as [| c s IH]; simpl; [done |].
  destruct (p c); [| done].
  destruct (NodeUrl.span p s) as [a b]. simpl in *. by rewrite IH at 1.
Qed.

Lemma append_assoc (a b c : string) :
  String.append (String.append a b) c = String.append a (String.append b c).
Proof.
  induction a as [| x a IH]; [done |].
  change (String x (String.append (String.append a b) c)
          = String x (String.append a (String.append b c))).
  by rewrite IH.
Qed.

Lemma match_property_app (property s m rest : string) :
  match_property property s = Some (m, rest) -> s = String.append m rest.
Proof.
  revert s m rest. induction property as [| p property IH]; intros s m rest.
  - simpl. intros [= <- <-]. reflexivity.
  - destruct s as [| c s]; simpl; [done |].
    destruct (Ascii.eqb _ _); [| done].
    destruct (match_property property s) as [[m' rest'] |] eqn:E; [| done].
    intros [= <- <-].
    change (String c s = String c (String.append m' rest')).
    f_equal. by apply IH.
Qed.

Lemma match_here_app (property s prefix value rest : string) :
  match_here property s = Some (prefix, value, rest) ->
  s = String.append prefix (String.append value rest).
Proof.
  unfold match_here. destruct s as [| c s1]; [done |].
  destruct (Ascii.eqb_spec c ";") as [-> | Hne].
  2: { destruct c as [[] [] [] [] [] [] [] []]; try done. }
  pose proof (span_app regexp_space s1) as H1.
  destruct (NodeUrl.span regexp_space s1) as [spaces s2]. simpl in H1.
  destruct (match_property property s2) as [[name s3'] |] eqn:E; [| done].
  apply match_property_app in E.
  destruct s3' as [| e s3]; [done |].
  destruct (Ascii.eqb_spec e "=") as [-> | Hne].
  2: { destruct e as [[] [] [] [] [] [] [] []]; try done. }
  pose proof (span_app (fun c => negb (Ascii.eqb c ";")) s3) as H3.
  destruct (NodeUrl.span _ s3) as [v r]. simpl in H3.
  destruct (String.eqb v ""); [done |].
  intros [= <- <- <-].
  change (String ";" s1
          = String ";"
              (String.append
                 (String.append spaces (String.append name "="))
                 (String.append v r))).
  f_equal. rewrite H1 at 1. rewrite E, H3 at 1.
  rewrite !append_assoc. reflexivity.
Qed.

Lemma find_match_app (property s before prefix value rest : string) :
  find_match property s = Some (before, prefix, value, rest) ->
  s = String.append before
        (String.append prefix (String.append value rest)).
Proof.
  revert before. induction s as [| c s IH]; intros before.
  - done.
  - cbn [find_match].
    destruct (match_here property (String c s)) as [[[p v] r] |] eqn:E.
    + intros [= <- <- <- <-]. by apply match_here_app in E.
    + destruct (find_match property s) as [[[[b p] v] r] |] eqn:E'; [| done].
      intros [= <- <- <- <-].
      change (String c s
              = String c
                  (String.append b
                     (String.append p (String.append v r)))).
      f_equal. by apply IH.
Qed.

(** For an attribute value that is not the name of an inherited property:
    the entry of the value is used when there is one, else the entry of "*"
    when there is one, else the header is returned as it is; an empty
    replacement removes the attribute. *)
Lemma rewriteCookieProperty_own (header property : string)
    (config : gmap string string) before prefix value rest :
  find_match property header = Some (before, prefix, value, rest) ->
  inherited value = false ->
  let replaced (newValue : string) :=
    String.append before
      (String.append
         (if String.eqb newValue "" then "" else String.append prefix newValue)
         rest) in
  rewriteCookieProperty header config property =
    match config !! value with
    | Some newValue => replaced newValue
    | None =>
        match config !! "*" with
        | Some newValue => replaced newValue
        | None => header
        end
    end.
Proof.
  intros Hm Hi replaced. unfold rewriteCookieProperty. rewrite Hm.
  unfold cookie_replacement, config_get. rewrite Hi.
  destruct (config !! value) as [v |].
  - unfold replaced. simpl. by destruct (String.eqb v "").
  - change (inherited "*") with false.
    destruct (config !! "*") as [v |].
    + unfold replaced. simpl. by destruct (String.eqb v "").
    + apply find_match_app in Hm. rewrite append_assoc. symmetry. exact Hm.
Qed.

Lemma rewriteCookieProperty_no_match (header property : string)
    (config : gmap string string) :
  find_match property header = None ->
  rewriteCookieProperty header config property = header.
Proof. intros H. unfold rewriteCookieProperty. by rewrite H. Qed.

(** C7 fails on the code for a domain that is the name of a property that
    every object inherits: with the configuration [{"*": "example.com"}],
    which has no entry for the domain "constructor", the wildcard is not
    used. *)
Theorem rewriteCookieProperty_inherited_key :
  let config : gmap string string := {[ "*" := "example.com" ]} in
  config !! "constructor" = None /\
  rewriteCookieProperty "sid=1; domain=constructor" config "domain"
    = "sid=1; domain=function Object() { [native code] }" /\
  rewriteCookieProperty "sid=1; domain=constructor" config "domain"
    <> "sid=1; domain=example.com".
Proof. by vm_compute. Qed.

(** ** Steps that end the chain *)

(** Steps that record their index, followed by steps [tail] whose run
    settles with [o] after appending [t] to the array. *)
Lemma dispatch_recorders_then (tail : list (prog (list nat))) (o : Outcome)
    (t : list nat) (cell : nat) :
  (forall j w, (index_of cell w < j)%Z ->
     exists w', dispatch run cell None tail j w = (o, w') /\
                ctx w' = ctx w ++ t) ->
  forall styles i j w,
    (index_of cell w < j)%Z ->
    exists w',
      dispatch run cell None (recorders i styles ++ tail) j w = (o, w') /\
      ctx w' = ctx w ++ seq i (length styles) ++ t ++
                 match o with
                 | Resolved => rev (seq i (length styles))
                 | Rejected _ => []
                 end.
Proof.
  intros Htail.
  induction styles as [| [before after] styles IH]; intros i j w Hj.
  - destruct (Htail j w Hj) as (w' & E & Hctx).
    exists w'. split; [exact E |]. rewrite Hctx. simpl.
    destruct o; by rewrite app_nil_r.
  - cbn [recorders app dispatch].
    destruct (Z.leb_spec j (index_of cell w)); [lia |].
    unfold recorder. cbn [run push]. rewrite run_pauses. cbn [run].
    set (w1 := Nat.iter before tick _).
    destruct (IH (S i) (j + 1)%Z w1) as (w2 & E & Hctx).
    { unfold w1, index_of. rewrite cells_iter_tick. simpl.
      pose proof (index_of_set_index_le cell j w ltac:(lia)) as Hle.
      unfold index_of in Hle. simpl in Hle. lia. }
    rewrite E. destruct o as [| e].
    + rewrite run_pauses. cbn [run push].
      eexists. split; [done |].
      simpl. rewrite ctx_iter_tick, Hctx. unfold w1.
      rewrite ctx_iter_tick. simpl.
      rewrite <- ?app_assoc. simpl. by rewrite <- ?app_assoc.
    + cbn [run]. eexists. split; [done |].
      rewrite Hctx. unfold w1. rewrite ctx_iter_tick. simpl.
      by rewrite <- ?app_assoc.
Qed.

Lemma index_of_fresh {Ctx} (w : World Ctx) :
  (index_of (length (cells w)) (alloc w) < 0)%Z.
Proof.
  unfold index_of, alloc. simpl.
  rewrite lookup_app_r by lia. rewrite Nat.sub_diag. simpl. lia.
Qed.

(** X1.  A step that returns without calling [next()] ends the chain: when
    the steps before it each push their index before and after
    [await next()], the composed function resolves, the steps after it never
    run, whatever they are, and the steps before it resume in reverse
    order. *)
Theorem compose_short_circuit (styles : list (nat * nat))
    (rest : list (prog (list nat))) (w : World (list nat)) :
  let N := length styles in
  let r := compose run (recorders 0 styles ++ stopper N :: rest) None w in
  r.1 = Resolved /\ ctx r.2 = ctx w ++ seq 0 N ++ [N] ++ rev (seq 0 N).
Proof.
  simpl. unfold compose.
  destruct (dispatch_recorders_then (stopper (length styles) :: rest) Resolved
              [length styles] (length (cells w))) with
    (styles := styles) (i := 0%nat) (j := 0%Z) (w := alloc w)
    as (w' & E & Hctx).
  - intros j w0 Hj. cbn [dispatch].
    destruct (Z.leb_spec j (index_of (length (cells w)) w0)); [lia |].
    eexists. split; [reflexivity | reflexivity].
  - apply index_of_fresh.
  - rewrite E. simpl. split; [done |]. exact Hctx.
Qed.

(** X2.  An exception ends the chain and skips what every step before has
    after its [await next()]: when a step throws [e], the composed promise
    is rejected with [e], no later step runs, and no earlier step pushes its
    index a second time.  A step that catches the rejection of its
    [next()] hides it from the steps before: when the step after it throws,
    the composed promise resolves and every earlier step runs the code
    after its [await next()], in reverse order. *)
Theorem compose_error_unwinds (styles : list (nat * nat)) (e : thrown)
    (rest : list (prog (list nat))) (w : World (list nat)) :
  let N := length styles in
  let failed := compose run (recorders 0 styles ++ thrower N e :: rest) None w in
  let caught := compose run
                  (recorders 0 styles ++ catcher N :: thrower (S N) e :: rest)
                  None w in
  (failed.1 = Rejected e /\ ctx failed.2 = ctx w ++ seq 0 N ++ [N]) /\
  (caught.1 = Resolved /\
   ctx caught.2 = ctx w ++ seq 0 N ++ [N; S N; N] ++ rev (seq 0 N)).
Proof.
  simpl. unfold compose. split.
  - destruct (dispatch_recorders_then (thrower (length styles) e :: rest)
                (Rejected e) [length styles] (length (cells w))) with
      (styles := styles) (i := 0%nat) (j := 0%Z) (w := alloc w)
      as (w' & E & Hctx).
    + intros j w0 Hj. cbn [dispatch].
      destruct (Z.leb_spec j (index_of (length (cells w)) w0)); [lia |].
      eexists. split; [reflexivity | reflexivity].
    + apply index_of_fresh.
    + rewrite E. simpl. split; [done |]. rewrite Hctx.
      by rewrite app_nil_r.
  - destruct (dispatch_recorders_then
                (catcher (length styles) :: thrower (S (length styles)) e :: rest)
                Resolved [length styles; S (length styles); length styles]
                (length (cells w))) with
      (styles := styles) (i := 0%nat) (j := 0%Z) (w := alloc w)
      as (w' & E & Hctx).
    + intros j w0 Hj. cbn [dispatch].
      destruct (Z.leb_spec j (index_of (length (cells w)) w0)); [lia |].
      unfold catcher, thrower. cbn [run push with_ctx ctx cells].
      destruct (Z.leb_spec (j + 1)
                  (index_of (length (cells w))
                     (with_ctx (fun _ => ctx (set_index (length (cells w)) j w0)
                                           ++ [length styles])
                        (set_index (length (cells w)) j w0)))) as [Hle | _].
      { pose proof (index_of_set_index_le (length (cells w)) j w0 ltac:(lia)) as H'.
        unfold index_of in *. simpl in *. lia. }
      cbn [run push with_ctx ctx cells set_index].
      eexists. split; [reflexivity |]. simpl. by rewrite <- !app_assoc.
    + apply index_of_fresh.
    + rewrite E. simpl. split; [done |]. exact Hctx.
Qed.

(** ** The index variables of other calls

    A composed function reads and writes the index variable of its own call
    only, so what it does to the context does not depend on the calls that
    were made before. *)

Section Independence.
Context {Ctx : Type}.
Implicit Types (w : World Ctx) (k : K Ctx) (S : pairing).

Lemma agree_sub S S' w1 w2 : S ⊆ S' -> agree S' w1 w2 -> agree S w1 w2.
Proof.
  intros Hsub (Hc & H1 & Hi). split; [exact Hc |]. split.
  - intros a b a' b' Ha Hb. apply H1; by apply Hsub.
  - intros a b Ha. apply Hi. by apply Hsub.
Qed.

Lemma alike_sub S S' k1 k2 : S ⊆ S' -> alike S k1 k2 -> alike S' k1 k2.
Proof.
  intros Hsub H S'' w1 w2 Hsub' Ha. apply H; [| exact Ha].
  by transitivity S'.
Qed.

Lemma agree_with_ctx S w1 w2 (c : Ctx) :
  agree S w1 w2 ->
  agree S (with_ctx (fun _ => c) w1) (with_ctx (fun _ => c) w2).
Proof. intros (_ & H1 & Hi). split; [done |]. split; [exact H1 | exact Hi]. Qed.

Lemma agree_tick S w1 w2 : agree S w1 w2 -> agree S (tick w1) (tick w2).
Proof. intros (Hc & H1 & Hi). split; [exact Hc |]. split; [exact H1 | exact Hi]. Qed.

Lemma agree_alloc S w1 w2 :
  agree S w1 w2 ->
  agree ((length (cells w1), length (cells w2)) :: S) (alloc w1) (alloc w2).
Proof.
  intros (Hc & H1 & Hi). split; [exact Hc |]. split.
  - intros a b a' b' Ha Hb.
    apply elem_of_cons in Ha as [Ha | Ha]; apply elem_of_cons in Hb as [Hb | Hb].
    + injection Ha as -> ->. injection Hb as -> ->. done.
    + injection Ha as -> ->. destruct (Hi _ _ Hb) as (? & ? & _). lia.
    + injection Hb as -> ->. destruct (Hi _ _ Ha) as (? & ? & _). lia.
    + by apply H1.
  - intros a b Ha. unfold index_of, alloc. simpl. rewrite !length_app. simpl.
    apply elem_of_cons in Ha as [Ha | Ha].
    + injection Ha as -> ->. split; [lia |]. split; [lia |].
      rewrite !lookup_app_r by lia. by rewrite !Nat.sub_diag.
    + destruct (Hi _ _ Ha) as (Hl1 & Hl2 & E). split; [lia |]. split; [lia |].
      rewrite !lookup_app_l by done. exact E.
Qed.

Lemma agree_set_index S c1 c2 i w1 w2 :
  (c1, c2) ∈ S -> agree S w1 w2 ->
  agree S (set_index c1 i w1) (set_index c2 i w2).
Proof.
  intros Hin (Hc & H1 & Hi). split; [exact Hc |]. split; [exact H1 |].
  intros a b Ha. destruct (Hi _ _ Ha) as (Hl1 & Hl2 & E).
  unfold index_of, set_index. simpl. rewrite !length_insert.
  split; [exact Hl1 |]. split; [exact Hl2 |].
  destruct (decide (a = c1)) as [-> | Hne].
  - assert (b = c2) as -> by (by apply (H1 c1 b c1 c2)).
    by rewrite !list_lookup_insert_eq.
  - assert (b <> c2) by (intros ->; by apply Hne, (H1 a c2 c1 c2)).
    by rewrite !list_lookup_insert_ne.
Qed.

Lemma dispatch_end_alike S c1 c2 i :
  (c1, c2) ∈ S -> alike S (dispatch_end (Ctx:=Ctx) c1 i) (dispatch_end c2 i).
Proof.
  intros Hin S' w1 w2 Hsub Ha. unfold dispatch_end.
  destruct Ha as (Hc & H1 & Hi).
  destruct (Hi _ _ (Hsub _ Hin)) as (_ & _ & E). rewrite <- E.
  destruct (i <=? index_of c1 w1)%Z; simpl.
  - done.
  - split; [done |]. apply agree_set_index; [by apply Hsub | done].
Qed.

(** Two calls of [dispatch(i)] on the same steps, in paired calls. *)
Lemma dispatch_alike (ms : list (prog Ctx)) :
  Forall (fun m => forall S k1 k2, alike S k1 k2 -> alike S (run m k1) (run m k2)) ms ->
  forall S c1 c2 (next1 next2 : option (K Ctx -> K Ctx)),
    (c1, c2) ∈ S ->
    match next1, next2 with
    | Some f1, Some f2 =>
        forall S' k1 k2, S ⊆ S' -> alike S' k1 k2 -> alike S' (f1 k1) (f2 k2)
    | None, None => True
    | _, _ => False
    end ->
    forall i, alike S (dispatch run c1 next1 ms i) (dispatch run c2 next2 ms i).
Proof.
  intros Hms S c1 c2 next1 next2 Hin Hnext.
  induction Hms as [| m ms Hm _ IH]; intros i S' w1 w2 Hsub Ha;
    cbn [dispatch];
    pose proof Ha as (Hc & H1 & Hi);
    destruct (Hi _ _ (Hsub _ Hin)) as (_ & _ & E); rewrite <- E;
    destruct (i <=? index_of c1 w1)%Z; try done;
    pose proof (agree_set_index S' c1 c2 i w1 w2 (Hsub _ Hin) Ha) as Ha'.
  - destruct next1 as [f1 |], next2 as [f2 |]; try done.
    apply (Hnext S'); [done | | done | exact Ha'].
    apply dispatch_end_alike. by apply Hsub.
  - apply (Hm S); [apply IH | exact Hsub | exact Ha'].
Qed.

(** A body does the same in two stores that agree. *)
Lemma run_alike (p : prog Ctx) :
  forall S k1 k2, alike S k1 k2 -> alike S (run p k1) (run p k2).
Proof.
  induction p as [| e | f k IH | k IH | k IH | k IH | ms k IHms IH]
    using prog_nested_ind; intros S k1 k2 Hk S' w1 w2 Hsub Ha; cbn [run].
  - done.
  - done.
  - pose proof Ha as (Hc & _). rewrite <- Hc.
    destruct (f (ctx w1)) as [c | e]; [| done].
    apply (IH S); [exact Hk | exact Hsub |]. by apply agree_with_ctx.
  - pose proof Ha as (Hc & _). rewrite <- Hc.
    by apply (IH (ctx w1) S).
  - apply (IH S); [exact Hk | exact Hsub |]. by apply agree_tick.
  - destruct (Hk S' w1 w2 Hsub Ha) as [Ho Ha'].
    destruct (k1 w1) as [o1 w1'], (k2 w2) as [o2 w2']. simpl in Ho, Ha'.
    subst o2. by apply (IH o1 S).
  - unfold compose.
    pose proof (agree_alloc S' w1 w2 Ha) as Ha0.
    set (S0 := (length (cells w1), length (cells w2)) :: S') in *.
    assert (Hsub0 : S' ⊆ S0) by (intros x Hx; by apply elem_of_cons; right).
    destruct (dispatch_alike ms IHms S0 (length (cells w1)) (length (cells w2))
                (Some (fun _ => k1)) (Some (fun _ => k2))
                ltac:(apply elem_of_cons; by left)
                ltac:(intros S1 ? ? Hs1 _;
                      apply (alike_sub S); [by do 2 etransitivity | exact Hk])
                0%Z S0 (alloc w1) (alloc w2) ltac:(done) Ha0) as [Ho Ha'].
    destruct (dispatch run _ _ ms 0 (alloc w1)) as [o1 w1'].
    destruct (dispatch run _ _ ms 0 (alloc w2)) as [o2 w2'].
    simpl in Ho, Ha'. subst o2.
    apply (IH o1 S); [exact Hk | exact Hsub |].
    by apply (agree_sub S' S0).
Qed.

(** X3.  A composed function does the same whatever calls were made before
    it: run on the same context in two stores, whose index variables may
    differ in number and in value, it settles with the same outcome and
    leaves the same context. *)
Theorem compose_store_independent (ms : list (prog Ctx)) (w1 w2 : World Ctx) :
  ctx w1 = ctx w2 ->
  (compose run ms None w1).1 = (compose run ms None w2).1 /\
  ctx (compose run ms None w1).2 = ctx (compose run ms None w2).2.
Proof.
  intros Hc. unfold compose.
  assert (Ha : agree [] w1 w2).
  { split; [exact Hc |]. split.
    - intros a b a' b' H. by apply elem_of_nil in H.
    - intros a b H. by apply elem_of_nil in H. }
  apply agree_alloc in Ha.
  destruct (dispatch_alike ms
              ltac:(apply Forall_forall; intros m _; apply run_alike)
              [(length (cells w1), length (cells w2))]
              (length (cells w1)) (length (cells w2)) None None
              ltac:(apply elem_of_cons; by left) I 0%Z _ _ _
              ltac:(done) Ha) as [Ho (Hc' & _)].
  split; [exact Ho | exact Hc'].
Qed.
End Independence.

Lemma compose_store_independent_witness :
  let ms := [twice; recorder 7 1 0] in
  (compose run ms None (mkWorld [] [] 0)).1
    = (compose run ms None (mkWorld [] [5; 0; 3]%Z 9)).1 /\
  ctx (compose run ms None (mkWorld [] [] 0)).2
    = ctx (compose run ms None (mkWorld [] [5; 0; 3]%Z 9)).2.
Proof.
  exact (compose_store_independent [twice; recorder 7 1 0]
           (mkWorld [] [] 0) (mkWorld [] [5; 0; 3]%Z 9) eq_refl).
Defined.

(** ** More on status, body and length *)

Section SettersMore.
Variable lib : Libraries.
Variable req : Request.
Implicit Types (r : Response) (v : body).

Lemma set_sent field value r : headersSent r = true -> set field value r = r.
Proof. intros H. unfold set. by rewrite H. Qed.

Lemma remove_sent field r : headersSent r = true -> remove field r = r.
Proof. intros H. unfold remove. by rewrite H. Qed.

Lemma set_type_sent type r : headersSent r = true -> set_type lib type r = r.
Proof.
  intros H. unfold set_type.
  destruct (mime_contentType lib type) as [m |];
    [destruct (String.eqb m "") |]; auto using set_sent, remove_sent.
Qed.

Lemma set_length_sent n r : headersSent r = true -> set_length n r = r.
Proof. intros H. unfold set_length. destruct (has _ r); auto using set_sent. Qed.

Lemma set_status_sent fuel code r :
  headersSent r = true -> set_status lib req (S fuel) code r = Ok r.
Proof. intros H. rewrite set_status_eq. by rewrite H. Qed.

(** X4.  Once the headers have been sent the response is frozen: assigning
    any status, even one outside 100..999, does nothing and does not throw;
    [set] and [remove] do nothing; and assigning any body does not throw and
    leaves the status code, the status message, the headers and the
    explicit-status mark as they are. *)
Theorem sent_response_frozen r :
  headersSent r = true ->
  (forall code, set_status lib req setter_depth code r = Ok r) /\
  (forall field value, set field value r = r) /\
  (forall field, remove field r = r) /\
  (forall v, exists r',
     set_body lib req setter_depth v r = Ok r' /\
     statusCode r' = statusCode r /\
     statusMessage r' = statusMessage r /\
     headers r' = headers r /\
     _explicitStatus r' = _explicitStatus r /\
     headersSent r' = true).
Proof.
  intros Hs. split; [| split; [| split]].
  - intros code. by apply set_status_sent.
  - intros. by apply set_sent.
  - intros. by apply remove_sent.
  - intros v. unfold setter_depth. rewrite set_body_eq. cbv zeta.
    assert (Hs' : headersSent (with_body v r) = true) by exact Hs.
    destruct (nullish v) eqn:Hv.
    + destruct (negb _ && _); [eexists; split; [reflexivity | done] |].
      rewrite (set_status_sent _ _ _ Hs').
      assert (E : (if negb (statuses_empty (statusCode (with_body v r)))
                   then Ok (with_body v r) else Ok (with_body v r))
                  = Ok (with_body v r)) by (by destruct (negb _)).
      rewrite E. cbn [mbind exc_bind].
      destruct v; try discriminate;
        match goal with
        | |- context [remove _ (remove _ (remove _ ?x))] =>
            rewrite (remove_sent _ x), (remove_sent _ x), (remove_sent _ x)
              by exact Hs
        end;
        (eexists; split; [reflexivity | done]).
    + rewrite (set_status_sent _ _ _ Hs').
      assert (E : (if negb (_explicitStatus (with_body v r))
                   then Ok (with_body v r) else Ok (with_body v r))
                  = Ok (with_body v r)) by (by destruct (negb _)).
      rewrite E. cbn [mbind exc_bind].
      destruct v; try discriminate;
        repeat match goal with
          | |- context [if ?b then _ else _] => destruct b
          end;
        rewrite ?(remove_sent _ (with_body _ r)) by exact Hs;
        rewrite ?(set_type_sent _ (with_body _ r)) by exact Hs;
        rewrite ?(set_length_sent _ (with_body _ r)) by exact Hs;
        (eexists; split; [reflexivity | done]).
Qed.

(** X5.  Assigning the status 204, 205 or 304 to a response that has a
    body (one that is truthy) takes the body away: the status is the new
    one, the body is [null] and marked as set to [null] on purpose, and
    Content-Type, Content-Length and Transfer-Encoding are removed. *)
Theorem status_empty_clears_body r code :
  headersSent r = false ->
  statuses_empty code = true ->
  body_truthy (_body r) = true ->
  exists r', set_status lib req setter_depth code r = Ok r' /\
    statusCode r' = code /\ _body r' = BNull /\
    _explicitNullBody r' = true /\ _explicitStatus r' = true /\
    content_headers_removed r'.
Proof.
  intros Hs He Hb. unfold setter_depth. rewrite set_status_eq. rewrite Hs.
  assert (Hc : (100 <=? code) && (code <=? 999) = true).
  { unfold statuses_empty in He.
    destruct (Z.eqb_spec code 204) as [-> |]; [done |].
    destruct (Z.eqb_spec code 205) as [-> |]; [done |].
    destruct (Z.eqb_spec code 304) as [-> |]; [done | done]. }
  rewrite Hc. cbn [negb]. cbv zeta.
  change (_body (assign_status lib req code r)) with (_body r).
  rewrite Hb, He. cbn [andb].
  rewrite set_body_null_eq by done.
  change (statusCode (assign_status lib req code r)) with code.
  rewrite He. cbn [negb andb mbind exc_bind].
  eexists. split; [reflexivity |].
  split; [by rewrite !statusCode_remove |].
  split; [| split; [| split]].
  - by rewrite !(proj1 (proj2 (proj2 (remove_fields _ _)))).
  - pose proof (fun f r => proj1 (proj2 (proj2 (proj2 (remove_fields f r))))) as H.
    by rewrite !H.
  - pose proof (fun f r =>
        proj1 (proj2 (proj2 (proj2 (proj2 (remove_fields f r)))))) as H.
    by rewrite !H.
  - by apply removed_three.
Qed.

(** X6.  Assigning a status throws exactly when the headers have not been
    sent and the code is outside 100..999; and for a code that is a safe
    integer, what it throws is the assertion error "invalid status code: "
    followed by the decimal text of the code. *)
Theorem set_status_throws r code :
  ((exists e, set_status lib req setter_depth code r = Raise e) <->
   headersSent r = false /\ ~ (100 <= code <= 999)) /\
  (isSafeInteger code = true ->
   forall e, set_status lib req setter_depth code r = Raise e ->
     e = AssertionError
           (String.append "invalid status code: " (string_of_Z code))).
Proof.
  unfold setter_depth. rewrite set_status_eq.
  destruct (headersSent r) eqn:Hs.
  { split; [split; [by intros [e ?] | by intros [? _]] | discriminate]. }
  destruct (Z.leb_spec 100 code), (Z.leb_spec code 999); cbn [andb negb];
    try (split; [split; [intros _; split; [done | lia] | intros _; by eexists]
                | by intros _ e [= <-]]).
  cbv zeta.
  destruct (body_truthy _ && statuses_empty code) eqn:E.
  - apply andb_true_iff in E as [_ E].
    rewrite set_body_null_eq by done.
    change (statusCode (assign_status lib req code r)) with code.
    rewrite E. cbn [negb andb mbind exc_bind].
    split; [split; [by intros [e ?] | intros (_ & ?); lia] | discriminate].
  - split; [split; [by intros [e ?] | intros (_ & ?); lia] | discriminate].
Qed.
End SettersMore.

Lemma set_status_throws_witness :
  set_status sample_lib (mkRequest "GET" "/" "" 1) setter_depth 1000
    fresh_response
  = Raise (AssertionError "invalid status code: 1000").
Proof.
  destruct (set_status_throws sample_lib (mkRequest "GET" "/" "" 1)
              fresh_response 1000) as [[_ Hthrows] Hwhat].
  destruct Hthrows as [e He]; [split; [reflexivity | lia] |].
  rewrite He. f_equal. exact (Hwhat eq_refl e He).
Defined.

Lemma status_empty_clears_body_witness :
  exists r',
    set_status sample_lib (mkRequest "GET" "/" "" 1) setter_depth 304
      (with_body (BString "cached") fresh_response) = Ok r' /\
    statusCode r' = 304 /\ _body r' = BNull /\
    _explicitNullBody r' = true /\ _explicitStatus r' = true /\
    content_headers_removed r'.
Proof.
  exact (status_empty_clears_body sample_lib (mkRequest "GET" "/" "" 1)
           (with_body (BString "cached") fresh_response) 304
           eq_refl eq_refl eq_refl).
Defined.

Lemma sent_response_frozen_witness :
  let r := mkResponse 200 None {[ "content-type" := "text/plain" ]} true false
             (Some true) false false BUndefined NotEnded in
  set_status sample_lib (mkRequest "GET" "/" "" 1) setter_depth 42 r = Ok r.
Proof.
  intros r.
  exact (proj1 (sent_response_frozen sample_lib (mkRequest "GET" "/" "" 1) r
                  eq_refl) 42).
Defined.

Section BodyHeaders.
Variable lib : Libraries.
Variable req : Request.
Implicit Types (r : Response) (v : body).

Lemma get_same_headers field r r' :
  headers r' = headers r -> get field r' = get field r.
Proof. intros H. unfold get. by rewrite H. Qed.

Lemma has_same_headers field r r' :
  headers r' = headers r -> has field r' = has field r.
Proof. intros H. unfold has. by rewrite (get_same_headers _ _ _ H). Qed.

Lemma get_set_eq field value r :
  headersSent r = false -> get field (set field value r) = Some value.
Proof.
  intros H. unfold get, set. rewrite H. simpl. apply lookup_insert_eq.
Qed.

Lemma headersSent_set_type type r :
  headersSent (set_type lib type r) = headersSent r.
Proof. apply (same_set_type lib type r). Qed.

Lemma has_set_type_ne field type r :
  toLowerCase field <> "content-type" ->
  has field (set_type lib type r) = has field r.
Proof. intros H. unfold has. by rewrite get_set_type_ne. Qed.

Lemma has_remove_ne field field' r :
  toLowerCase field <> toLowerCase field' ->
  has field (remove field' r) = has field r.
Proof. intros H. unfold has. by rewrite get_remove_ne. Qed.

(** The type that [type = t] leaves in the Content-Type header. *)
Lemma get_set_type type r :
  headersSent r = false ->
  get "Content-Type" (set_type lib type r) =
    match mime_contentType lib type with
    | Some m => if String.eqb m "" then None else Some m
    | None => None
    end.
Proof.
  intros H. unfold set_type.
  destruct (mime_contentType lib type) as [m |];
    [destruct (String.eqb m "") |];
    auto using get_set_eq, get_remove_eq.
Qed.

Lemma get_set_length n r :
  headersSent r = false ->
  get "Content-Length" (set_length n r) =
    if has "Transfer-Encoding" r then get "Content-Length" r
    else Some (string_of_Z n).
Proof.
  intros H. unfold set_length.
  destruct (has "Transfer-Encoding" r); [done |]. by apply get_set_eq.
Qed.

(** The status that [body = v] sets first, for a value that is not empty. *)
Lemma status_for_body v r :
  exists r1,
    (if negb (_explicitStatus r)
     then set_status lib req 1 200 (with_body v r)
     else Ok (with_body v r)) = Ok r1 /\
    headers r1 = headers r /\ headersSent r1 = headersSent r /\ _body r1 = v.
Proof.
  destruct (_explicitStatus r); cbn [negb]; [by eexists |].
  rewrite set_status_eq.
  change (headersSent (with_body v r)) with (headersSent r).
  destruct (headersSent r) eqn:Hs; [by eexists |].
  cbn [Z.leb Z.compare andb negb]. cbv zeta.
  change (statuses_empty 200) with false. rewrite andb_false_r.
  eexists. split; [reflexivity |]. done.
Qed.

(** The no-break space and the byte order mark are white space of [\s]. *)
Example tag_after_no_break_space :
  starts_with_tag
    (String (ascii_of_nat 194) (String (ascii_of_nat 160)
       (String (ascii_of_nat 239) (String (ascii_of_nat 187)
          (String (ascii_of_nat 191) " <p>"))))) = true.
Proof. reflexivity. Qed.

(** X7.  Assigning a string to the body of a response whose headers have
    not been sent: the Content-Length becomes the number of bytes of the
    string, unless a Transfer-Encoding header is present, in which case it
    is left alone; a Content-Type that is already set is kept, and
    otherwise the type is [html] when the string starts with white space
    and [<], and [text] when it does not. *)
Theorem body_string_headers r s :
  headersSent r = false ->
  exists r', set_body lib req setter_depth (BString s) r = Ok r' /\
    _body r' = BString s /\
    get "Content-Length" r' =
      (if has "Transfer-Encoding" r then get "Content-Length" r
       else Some (string_of_Z (byteLength s))) /\
    get "Content-Type" r' =
      (if has "Content-Type" r then get "Content-Type" r
       else match mime_contentType lib
                    (if starts_with_tag s then "html" else "text") with
            | Some m => if String.eqb m "" then None else Some m
            | None => None
            end).
Proof.
  intros Hs. unfold setter_depth. rewrite set_body_eq. cbv zeta.
  cbn [nullish].
  change (_explicitStatus (with_body (BString s) r)) with (_explicitStatus r).
  destruct (status_for_body (BString s) r) as (r1 & E & Hh & Hs1 & Hb).
  rewrite E. cbn [mbind exc_bind]. rewrite Hs in Hs1.
  rewrite (has_same_headers "Content-Type" r r1 Hh).
  eexists. split; [reflexivity |].
  destruct (has "Content-Type" r) eqn:Ht; cbn [negb].
  - split; [by rewrite (proj1 (proj2 (proj2 (proj2 (proj2 (proj2 (proj2
              (proj2 (same_set_length _ _))))))))) |].
    split.
    + rewrite get_set_length by done.
      rewrite (has_same_headers _ r r1 Hh). by rewrite (get_same_headers _ r r1 Hh).
    + rewrite get_set_length_ne by done. by apply get_same_headers.
  - set (t := if starts_with_tag s then "html" else "text").
    split.
    { pose proof (same_set_length (byteLength s) (set_type lib t r1)) as H1.
      pose proof (same_set_type lib t r1) as H2.
      destruct (same_trans _ _ _ H2 H1) as (_ & _ & _ & _ & _ & _ & _ & -> & _).
      exact Hb. }
    split.
    + rewrite get_set_length by (by rewrite headersSent_set_type).
      rewrite has_set_type_ne by done. rewrite get_set_type_ne by done.
      rewrite (has_same_headers _ r r1 Hh). by rewrite (get_same_headers _ r r1 Hh).
    + rewrite get_set_length_ne by done. by apply get_set_type.
Qed.

(** X8.  Assigning a stream to the body of a response whose headers have
    not been sent removes the Content-Length header when the stream
    replaces another body, one that is neither [null] nor [undefined]; it
    leaves the header when the same stream is assigned again and when there
    was no body. *)
Theorem body_stream_length r id :
  headersSent r = false ->
  exists r', set_body lib req setter_depth (BStream id) r = Ok r' /\
    _body r' = BStream id /\
    get "Content-Length" r' =
      if bool_decide (_body r = BStream id) || nullish (_body r)
      then get "Content-Length" r else None.
Proof.
  intros Hs. unfold setter_depth. rewrite set_body_eq. cbv zeta.
  cbn [nullish].
  change (_explicitStatus (with_body (BStream id) r)) with (_explicitStatus r).
  destruct (status_for_body (BStream id) r) as (r1 & E & Hh & Hs1 & Hb).
  rewrite E. cbn [mbind exc_bind]. rewrite Hs in Hs1.
  eexists. split; [reflexivity |].
  set (r2 := if negb (bool_decide (_body r = BStream id)) && negb (nullish (_body r))
             then remove "Content-Length" r1 else r1).
  assert (H2 : _body r2 = BStream id /\ headersSent r2 = false /\
               get "Content-Length" r2 =
                 if bool_decide (_body r = BStream id) || nullish (_body r)
                 then get "Content-Length" r else None).
  { unfold r2. destruct (bool_decide _), (nullish (_body r)); cbn [negb andb orb];
      rewrite ?(proj1 (proj2 (proj2 (remove_fields _ _)))),
              ?headersSent_remove, ?get_remove_eq by done;
      auto using get_same_headers. }
  destruct H2 as (Hb2 & Hs2 & Hl2).
  destruct (negb (has "Content-Type" r1)).
  - split.
    + destruct (same_set_type lib "bin" r2) as (_ & _ & _ & _ & _ & _ & _ & -> & _).
      exact Hb2.
    + by rewrite get_set_type_ne.
  - done.
Qed.

(** X9.  Assigning a boolean, a number, an object or an array to the body
    of a response whose headers have not been sent removes the
    Content-Length header and sets the Content-Type to the JSON type,
    whatever Content-Type was set before. *)
Theorem body_json_headers r v :
  headersSent r = false ->
  match v with BBool _ | BNumber _ | BObject _ => True | _ => False end ->
  exists r', set_body lib req setter_depth v r = Ok r' /\
    _body r' = v /\
    get "Content-Length" r' = None /\
    get "Content-Type" r' =
      match mime_contentType lib "json" with
      | Some m => if String.eqb m "" then None else Some m
      | None => None
      end.
Proof.
  intros Hs Hv. unfold setter_depth. rewrite set_body_eq. cbv zeta.
  assert (Hn : nullish v = false) by (by destruct v).
  rewrite Hn.
  change (_explicitStatus (with_body v r)) with (_explicitStatus r).
  destruct (status_for_body v r) as (r1 & E & Hh & Hs1 & Hb).
  rewrite E. cbn [mbind exc_bind]. rewrite Hs in Hs1.
  assert (exists r', Ok (set_type lib "json" (remove "Content-Length" r1)) = Ok r' /\
            _body r' = v /\ get "Content-Length" r' = None /\
            get "Content-Type" r' =
              match mime_contentType lib "json" with
              | Some m => if String.eqb m "" then None else Some m
              | None => None
              end) as H.
  { eexists. split; [reflexivity |]. split; [| split].
    - destruct (same_set_type lib "json" (remove "Content-Length" r1))
        as (_ & _ & _ & _ & _ & _ & _ & -> & _).
      by rewrite (proj1 (proj2 (proj2 (remove_fields _ _)))).
    - rewrite get_set_type_ne by done. by apply get_remove_eq.
    - apply get_set_type. by rewrite headersSent_remove. }
  by destruct v.
Qed.
End BodyHeaders.

Lemma body_string_headers_witness :
  exists r',
    set_body sample_lib (mkRequest "GET" "/" "" 1) setter_depth
      (BString "<h1>Hello</h1>") fresh_response = Ok r' /\
    _body r' = BString "<h1>Hello</h1>" /\
    get "Content-Length" r' = Some "14" /\
    get "Content-Type" r' = Some "text/html; charset=utf-8".
Proof.
  exact (body_string_headers sample_lib (mkRequest "GET" "/" "" 1)
           fresh_response "<h1>Hello</h1>" eq_refl).
Defined.

Lemma body_stream_length_witness :
  exists r',
    set_body sample_lib (mkRequest "GET" "/" "" 1) setter_depth (BStream 1)
      (with_body (BString "old")
         (with_headers {[ "content-length" := "3" ]} fresh_response)) = Ok r' /\
    _body r' = BStream 1 /\ get "Content-Length" r' = None.
Proof.
  exact (body_stream_length sample_lib (mkRequest "GET" "/" "" 1)
           (with_body (BString "old")
              (with_headers {[ "content-length" := "3" ]} fresh_response))
           1%nat eq_refl).
Defined.

Lemma body_json_headers_witness :
  exists r',
    set_body sample_lib (mkRequest "GET" "/" "" 1) setter_depth
      (BObject "{}")
      (with_headers {[ "content-type" := "text/plain" ]} fresh_response)
      = Ok r' /\
    _body r' = BObject "{}" /\
    get "Content-Length" r' = None /\
    get "Content-Type" r' = Some "application/json; charset=utf-8".
Proof.
  exact (body_json_headers sample_lib (mkRequest "GET" "/" "" 1)
           (with_headers {[ "content-type" := "text/plain" ]} fresh_response)
           (BObject "{}") eq_refl I).
Defined.

(** ** The Content-Length that was set is the length that is read *)

Ltac eval_digit :=
  match goal with
  | |- context [digit_of ?c] =>
      let v := eval vm_compute in (digit_of c) in
      change (digit_of c) with v
  end.

Lemma digits_value_acc (d : Decimal.uint) : forall acc : positive,
  digits_value (Some (Z.pos acc)) (NilEmpty.string_of_uint d)
    = Some (Z.pos (Pos.of_uint_acc d acc)).
Proof.
  induction d; intros acc;
    cbn [NilEmpty.string_of_uint Pos.of_uint_acc digits_value];
    [reflexivity | ..];
    eval_digit; cbn [default]; unfold id;
    match goal with
    | |- digits_value (Some ?x) _ = Some (Z.pos (Pos.of_uint_acc _ ?y)) =>
        replace x with (Z.pos y) by lia
    end; apply IHd.
Qed.

Lemma digits_value_uint (d : Decimal.uint) :
  digits_value (Some 0) (NilEmpty.string_of_uint d)
    = Some (Z.of_N (Pos.of_uint d)).
Proof.
  induction d; cbn [NilEmpty.string_of_uint Pos.of_uint digits_value];
    [reflexivity | ..]; eval_digit; cbn [default]; unfold id;
    [exact IHd | ..]; apply (digits_value_acc d).
Qed.

(** [parseInt] reads back the decimal text of a positive number. *)
Lemma parseInt_pos (p : positive) :
  digits_value None (NilEmpty.string_of_uint (Pos.to_uint p)) = Some (Z.pos p) /\
  parseInt (NilEmpty.string_of_uint (Pos.to_uint p)) = Some (Z.pos p).
Proof.
  pose proof (digits_value_uint (Pos.to_uint p)) as H.
  rewrite Unsigned.of_to in H. simpl Z.of_N in H.
  pose proof (Unsigned.to_uint_nonnil p) as Hn.
  unfold parseInt.
  destruct (Pos.to_uint p) as [| d | d | d | d | d | d | d | d | d | d];
    [done | ..]; cbn [NilEmpty.string_of_uint] in *;
    split; exact H.
Qed.

Lemma parseInt_string_of_Z (n : Z) : parseInt (string_of_Z n) = Some n.
Proof.
  unfold string_of_Z. destruct n as [| p | p]; [reflexivity | |];
    cbn [Z.to_int NilZero.string_of_int NilZero.string_of_uint];
    destruct (parseInt_pos p) as (Hd & Hp);
    pose proof (Unsigned.to_uint_nonnil p) as Hn.
  - destruct (Pos.to_uint p); [done | ..]; exact Hp.
  - assert (E : NilZero.string_of_uint (Pos.to_uint p)
                = NilEmpty.string_of_uint (Pos.to_uint p))
      by (by destruct (Pos.to_uint p)).
    cbn [NilZero.string_of_uint]. unfold parseInt.
    change (skip_spaces (String "-" ?s)) with (String "-" s).
    cbv iota beta. rewrite E, Hd. reflexivity.
Qed.

Section Length.
Implicit Types (r : Response).

(** X10.  On a response whose headers have not been sent and that has no
    Transfer-Encoding header, the length that is read after [length = n],
    for a safe integer [n], is [n]: the header holds the decimal text of
    the number and [parseInt] reads it back.  With a Transfer-Encoding
    header the assignment does nothing. *)
Theorem length_round_trip r (n : Z) :
  headersSent r = false ->
  (has "Transfer-Encoding" r = false -> isSafeInteger n = true ->
     get_length (set_length n r) = Some n) /\
  (has "Transfer-Encoding" r = true -> set_length n r = r).
Proof.
  intros Hs. unfold set_length. split; intros Ht; rewrite Ht; [| done].
  intros _.
  unfold get_length.
  rewrite (has_true "Content-Length" _ (string_of_Z n)) by (by apply get_set_eq).
  rewrite get_set_eq by done. cbn [default]. unfold id.
  by rewrite parseInt_string_of_Z.
Qed.
End Length.

Lemma length_round_trip_witness :
  get_length (set_length 1024 fresh_response) = Some 1024.
Proof.
  exact (proj1 (length_round_trip fresh_response 1024 eq_refl) eq_refl eq_refl).
Defined.

(** ** More on finalization *)

Section FinalizeMore.
Variable lib : Libraries.
Implicit Types (r : Response) (c : Context).

(** X11.  A HEAD request never gets a payload.  When the response is to be
    answered, writable, and its status is not 204, 205 or 304, the answer
    to a HEAD request ends with an empty payload and the status it had;
    when the headers have not been sent and no Content-Length is set, the
    Content-Length that the body would have had is set (unless a
    Transfer-Encoding header is present), and a Content-Length that is set
    is left as it is.  A body that is a number is a safe integer. *)
Theorem head_sends_no_payload c :
  respond c = true ->
  writable (response c) = true ->
  statuses_empty (statusCode (response c)) = false ->
  method (request c) = "HEAD" ->
  json_exact (_body (response c)) = true ->
  exists c', handleResponse lib c = Ok c' /\
    output (response c') = Ended "" /\
    statusCode (response c') = statusCode (response c) /\
    (has "Content-Length" (response c) = true ->
       get "Content-Length" (response c') = get "Content-Length" (response c)) /\
    (headersSent (response c) = false ->
     has "Content-Length" (response c) = false ->
     has "Transfer-Encoding" (response c) = false ->
     get "Content-Length" (response c')
       = string_of_Z <$> get_length (response c)).
Proof.
  intros Hr Hw He Hm _. unfold handleResponse.
  rewrite Hr, Hw, He, Hm. cbn [negb String.eqb Ascii.eqb Bool.eqb].
  eexists. split; [reflexivity |].
  destruct (headersSent (response c)) eqn:Hs; cbn [negb andb].
  - split; [done |]. split; [done |]. split; [done | discriminate].
  - destruct (has "Content-Length" (response c)) eqn:Hl; cbn [negb].
    + split; [done |]. split; [done |]. split; [done | discriminate].
    + destruct (get_length (response c)) as [n |] eqn:Hn.
      * cbn [on_response res_end response with_response output statusCode].
        split; [done |]. split; [apply statusCode_set_length |].
        split; [discriminate |]. intros _ _ Ht.
        change (get "Content-Length" (set_length n (response c)) = Some (string_of_Z n)).
        rewrite get_set_length by done. by rewrite Ht.
      * split; [done |]. split; [done |]. split; [discriminate |].
        intros _ _ _. cbn. unfold has in Hl.
        apply bool_decide_eq_false in Hl.
        destruct (get "Content-Length" (response c)) eqn:E; [| done].
        exfalso. apply Hl. by eexists.
Qed.

(** X12.  A response with status 204, 205 or 304 is answered without a
    payload, whatever body was assigned: the body is set to [null], the
    status stays and, when the headers have not been sent, Content-Type,
    Content-Length and Transfer-Encoding are removed. *)
Theorem empty_status_no_payload c :
  respond c = true ->
  writable (response c) = true ->
  statuses_empty (statusCode (response c)) = true ->
  exists c', handleResponse lib c = Ok c' /\
    output (response c') = Ended "" /\
    statusCode (response c') = statusCode (response c) /\
    _body (response c') = BNull /\
    (headersSent (response c) = false ->
     content_headers_removed (response c')).
Proof.
  intros Hr Hw He. unfold handleResponse. rewrite Hr, Hw, He. cbn [negb].
  unfold ctx_set_body, setter_depth.
  rewrite set_body_null_eq by done. rewrite He. cbn [negb andb mbind exc_bind].
  eexists. split; [reflexivity |].
  cbn [on_response res_end response with_response output statusCode _body].
  split; [done |].
  split; [by rewrite !statusCode_remove |].
  split; [by rewrite !(proj1 (proj2 (proj2 (remove_fields _ _)))) |].
  intros Hs. unfold content_headers_removed, get.
  cbn [headers].
  change (content_headers_removed
            (remove "Transfer-Encoding"
               (remove "Content-Length"
                  (remove "Content-Type"
                     (with_explicitNullBody true (with_body BNull (response c))))))).
  by apply removed_three.
Qed.

(** X13.  After the headers have been sent, or when the response is no
    longer writable, the error handler of the context leaves the response
    as it is: it hands the error, marked with [headerSent], to the
    application and does nothing else. *)
Theorem onerror_after_headers_sent c (err : thrown) :
  err <> TNullish ->
  headersSent (response c) || negb (writable (response c)) = true ->
  exists e, onerror lib err c = Ok (emit_error e c) /\
    err_headerSent e = true /\
    err_message e = err_message (wrap_non_error err) /\
    err_status e = err_status (wrap_non_error err).
Proof.
  intros Hn Hs. unfold onerror.
  destruct err as [e | | json]; [| done |]; rewrite Hs; by eexists.
Qed.

Lemma dispatch_pass_through {Ctx} (n : nat) : forall cell j (w : World Ctx),
  (index_of cell w < j)%Z ->
  exists w', dispatch run cell None (replicate n (Next settle)) j w
               = (Resolved, w') /\ ctx w' = ctx w.
Proof.
  induction n as [| n IH]; intros cell j w Hj; cbn [replicate dispatch];
    destruct (Z.leb_spec j (index_of cell w)); try lia.
  - by eexists.
  - cbn [run].
    destruct (IH cell (j + 1)%Z (set_index cell j w)) as (w' & E & Hc).
    { pose proof (index_of_set_index_le cell j w ltac:(lia)). lia. }
    rewrite E. cbn [settle run]. by eexists.
Qed.

(** X14.  A request that no middleware answers gets 404.  When every
    middleware function only returns [next()] (or there is none), the
    response to a request other than HEAD has status 404, the payload is
    the reason phrase of 404 (the text ["404"] over HTTP/2 and when the
    table has none), Content-Length is the number of its bytes and
    Content-Type is the text type. *)
Theorem unanswered_is_404 (req : Request) (n : nat) (cs : list Z) (clk : nat) :
  method req <> "HEAD" ->
  let text :=
    if 2 <=? httpVersionMajor req then "404"
    else match statuses_message lib 404 with
         | Some m => if String.eqb m "" then "404" else m
         | None => "404"
         end in
  exists w',
    callback lib (replicate n (Next settle)) (mkWorld (createContext req) cs clk)
      = Ok w' /\
    statusCode (response (ctx w')) = 404 /\
    output (response (ctx w')) = Ended text /\
    get "Content-Length" (response (ctx w'))
      = Some (string_of_Z (byteLength text)) /\
    get "Content-Type" (response (ctx w'))
      = match mime_contentType lib "text" with
        | Some m => if String.eqb m "" then None else Some m
        | None => None
        end.
Proof.
  intros Hm text. unfold callback, handleRequest, compose.
  set (w0 := with_ctx _ _).
  destruct (dispatch_pass_through n (length (cells w0)) 0 (alloc w0))
    as (w' & E & Hc); [apply index_of_fresh |].
  rewrite E. rewrite Hc.
  change (ctx (alloc w0))
    with (on_response (with_statusCode 404) (createContext req)).
  unfold handleResponse.
  cbn [respond createContext on_response with_response response negb
       writable fresh_response with_statusCode writableEnded socket
       statusCode _body request nullish _explicitNullBody headersSent].
  change (statuses_empty 404) with false. cbv iota.
  destruct (String.eqb_spec (method req) "HEAD") as [Heq | _]; [done |].
  change (string_of_Z 404) with "404".
  change (get_message lib _) with (statuses_message lib 404).
  fold text.
  eexists. split; [reflexivity |].
  cbn [ctx with_ctx response with_response res_end statusCode output].
  split; [| split; [done |]].
  - change (statusCode (set_length (byteLength text)
                           (set_type lib "text"
                              (with_statusCode 404 fresh_response))) = 404).
    rewrite statusCode_set_length. by rewrite statusCode_set_type.
  - set (r0 := with_statusCode 404 fresh_response).
    change (get "Content-Length" (set_length (byteLength text) (set_type lib "text" r0))
              = Some (string_of_Z (byteLength text)) /\
            get "Content-Type" (set_length (byteLength text) (set_type lib "text" r0))
              = match mime_contentType lib "text" with
                | Some m => if String.eqb m "" then None else Some m
                | None => None
                end).
    split.
    + rewrite get_set_length by (by rewrite headersSent_set_type).
      rewrite has_set_type_ne by done. reflexivity.
    + rewrite get_set_length_ne by done. by apply get_set_type.
Qed.
End FinalizeMore.

Lemma head_sends_no_payload_witness :
  exists c',
    handleResponse sample_lib
      (on_response (with_body (BString "Hello"))
         (createContext (mkRequest "HEAD" "/" "" 1))) = Ok c' /\
    output (response c') = Ended "" /\
    get "Content-Length" (response c') = Some "5".
Proof.
  destruct (head_sends_no_payload sample_lib
              (on_response (with_body (BString "Hello"))
                 (createContext (mkRequest "HEAD" "/" "" 1)))
              eq_refl eq_refl eq_refl eq_refl eq_refl)
    as (c' & E & Ho & _ & _ & Hl).
  exists c'. split; [exact E |]. split; [exact Ho |].
  exact (Hl eq_refl eq_refl eq_refl).
Defined.

Lemma empty_status_no_payload_witness :
  exists c',
    handleResponse sample_lib
      (on_response (with_statusCode 304)
         (on_response (with_body (BString "Hello"))
            (createContext (mkRequest "GET" "/" "" 1)))) = Ok c' /\
    output (response c') = Ended "" /\
    statusCode (response c') = 304 /\
    _body (response c') = BNull /\
    content_headers_removed (response c').
Proof.
  destruct (empty_status_no_payload sample_lib
              (on_response (with_statusCode 304)
                 (on_response (with_body (BString "Hello"))
                    (createContext (mkRequest "GET" "/" "" 1))))
              eq_refl eq_refl eq_refl) as (c' & E & Ho & Hc & Hb & Hh).
  exists c'. split; [exact E |]. split; [exact Ho |]. split; [exact Hc |].
  split; [exact Hb |]. exact (Hh eq_refl).
Defined.

Lemma onerror_after_headers_sent_witness :
  let c := on_response (res_end "partial")
             (createContext (mkRequest "GET" "/" "" 1)) in
  exists e, onerror sample_lib (TError (Error "boom")) c = Ok (emit_error e c) /\
    err_headerSent e = true /\
    err_message e = "boom" /\
    err_status e = FUndefined.
Proof.
  intros c.
  exact (onerror_after_headers_sent sample_lib c (TError (Error "boom"))
           ltac:(discriminate) eq_refl).
Defined.

Lemma unanswered_is_404_witness :
  exists w',
    callback sample_lib (replicate 2 (Next settle))
      (mkWorld (createContext (mkRequest "GET" "/" "" 1)) [] 0) = Ok w' /\
    statusCode (response (ctx w')) = 404 /\
    output (response (ctx w')) = Ended "Not Found" /\
    get "Content-Length" (response (ctx w')) = Some "9" /\
    get "Content-Type" (response (ctx w')) = Some "text/plain; charset=utf-8".
Proof.
  exact (unanswered_is_404 sample_lib (mkRequest "GET" "/" "" 1) 2 [] 0%nat
           ltac:(discriminate)).
Defined.

(** ** The length of the payload *)

Section Payload.
Variable lib : Libraries.

(** The payload of a body that is not a stream. *)
Let payload (v : body) : string :=
  match v with
  | BString s | BBuffer s => s
  | _ => JSON_stringify v
  end.

(** X15.  The Content-Length of an answer is the length of its payload.
    When the only middleware function of an application assigns to the body
    a value that is not [null], [undefined] or a stream (a number being a
    safe integer), the answer to a request other than HEAD has status 200,
    its payload is the string or the bytes that were assigned, or the JSON
    text of the value, and its Content-Length header is the number of bytes
    of that payload. *)
Theorem body_payload_length (req : Request) (v : body) (cs : list Z)
    (clk : nat) :
  method req <> "HEAD" ->
  nullish v = false ->
  (forall id, v <> BStream id) ->
  json_exact v = true ->
  exists w',
    callback lib [Stmt (ctx_set_body lib v) Ret]
      (mkWorld (createContext req) cs clk) = Ok w' /\
    statusCode (response (ctx w')) = 200 /\
    output (response (ctx w')) = Ended (payload v) /\
    get "Content-Length" (response (ctx w'))
      = Some (string_of_Z (byteLength (payload v))).
Proof.
  intros Hm Hv Hst _.
  set (r0 := with_statusCode 404 fresh_response).
  set (r1 := assign_status lib req 200 (with_body v r0)).
  assert (Hte : forall r, headers r = headers r1 -> headersSent r = false ->
            has "Transfer-Encoding" r = false).
  { intros r Hh _. apply has_false. unfold get. by rewrite Hh. }
  (* the assignment *)
  assert (Hset : exists r',
            set_body lib req setter_depth v r0 = Ok r' /\
            same_but_headers r1 r' /\
            has "Transfer-Encoding" r' = false /\
            match v with
            | BString s | BBuffer s =>
                get "Content-Length" r' = Some (string_of_Z (byteLength s))
            | _ => True
            end).
  { unfold setter_depth. rewrite set_body_eq. cbv zeta. rewrite Hv.
    change (_explicitStatus (with_body v r0)) with false. cbn [negb].
    rewrite set_status_plain; [| done | lia |].
    2: { change (statuses_empty 200) with false. by rewrite andb_false_r. }
    fold r1. cbn [mbind exc_bind].
    assert (Ht1 : has "Transfer-Encoding" r1 = false) by (by apply Hte).
    destruct v as [| | s | s | id | b | n | json]; try discriminate;
      try (by destruct (Hst id)).
    - eexists. split; [reflexivity |].
      change (negb (has "Content-Type" r1)) with true. cbv iota.
      set (t := if starts_with_tag s then "html" else "text").
      split; [| split].
      + eapply same_trans; [apply (same_set_type lib t) | apply same_set_length].
      + unfold has. rewrite get_set_length_ne by done.
        rewrite get_set_type_ne by done. exact Ht1.
      + rewrite get_set_length by (by rewrite headersSent_set_type).
        by rewrite has_set_type_ne.
    - eexists. split; [reflexivity |].
      change (negb (has "Content-Type" r1)) with true. cbv iota.
      split; [| split].
      + eapply same_trans; [apply (same_set_type lib "bin") | apply same_set_length].
      + unfold has. rewrite get_set_length_ne by done.
        rewrite get_set_type_ne by done. exact Ht1.
      + rewrite get_set_length by (by rewrite headersSent_set_type).
        by rewrite has_set_type_ne.
    - eexists. split; [reflexivity |]. split; [| split; [| done]].
      + eapply same_trans; [apply same_remove | apply (same_set_type lib)].
      + rewrite has_set_type_ne by done. by rewrite has_remove_ne.
    - eexists. split; [reflexivity |]. split; [| split; [| done]].
      + eapply same_trans; [apply same_remove | apply (same_set_type lib)].
      + rewrite has_set_type_ne by done. by rewrite has_remove_ne.
    - eexists. split; [reflexivity |]. split; [| split; [| done]].
      + eapply same_trans; [apply same_remove | apply (same_set_type lib)].
      + rewrite has_set_type_ne by done. by rewrite has_remove_ne. }
  destruct Hset as (r' & Eset & Hsame & Hte' & Hlen).
  pose proof Hsame as (Hc & _ & Hs & _ & _ & _ & _ & Hb & _).
  change (statusCode r1) with 200 in Hc.
  change (headersSent r1) with false in Hs.
  change (_body r1) with v in Hb.
  assert (Hw : writable r' = true) by (by rewrite (writable_same r1 r' Hsame)).
  (* the pipeline *)
  unfold callback, handleRequest, compose. cbn [dispatch].
  rewrite index_of_alloc. cbn [Z.leb Z.compare].
  cbn [run set_index alloc with_ctx ctx cells clock].
  unfold ctx_set_body at 1.
  change (request (on_response (with_statusCode 404) (createContext req)))
    with req.
  change (response (on_response (with_statusCode 404) (createContext req)))
    with r0.
  rewrite Eset. cbn [mbind exc_bind run with_ctx ctx cells clock].
  set (c1 := with_response r' _).
  unfold handleResponse.
  change (respond c1) with true. change (response c1) with r'.
  change (request c1) with req.
  rewrite Hw, Hc, Hb, Hv. cbn [negb]. change (statuses_empty 200) with false.
  cbv iota.
  rewrite (proj2 (String.eqb_neq _ _) Hm).
  destruct v as [| | s | s | id | b | n | json]; try discriminate;
    try (by destruct (Hst id)).
  - eexists. split; [reflexivity |]. by cbn.
  - eexists. split; [reflexivity |]. by cbn.
  - rewrite Hs. cbn [negb]. eexists. split; [reflexivity |].
    cbn [ctx with_ctx response on_response with_response res_end statusCode
         output].
    split; [by rewrite statusCode_set_length |]. split; [done |].
    change (get "Content-Length"
              (set_length (byteLength (JSON_stringify (BBool b))) r')
            = Some (string_of_Z (byteLength (JSON_stringify (BBool b))))).
    rewrite get_set_length by done. by rewrite Hte'.
  - rewrite Hs. cbn [negb]. eexists. split; [reflexivity |].
    cbn [ctx with_ctx response on_response with_response res_end statusCode
         output].
    split; [by rewrite statusCode_set_length |]. split; [done |].
    change (get "Content-Length"
              (set_length (byteLength (JSON_stringify (BNumber n))) r')
            = Some (string_of_Z (byteLength (JSON_stringify (BNumber n))))).
    rewrite get_set_length by done. by rewrite Hte'.
  - rewrite Hs. cbn [negb]. eexists. split; [reflexivity |].
    cbn [ctx with_ctx response on_response with_response res_end statusCode
         output].
    split; [by rewrite statusCode_set_length |]. split; [done |].
    change (get "Content-Length"
              (set_length (byteLength (JSON_stringify (BObject json))) r')
            = Some (string_of_Z (byteLength (JSON_stringify (BObject json))))).
    rewrite get_set_length by done. by rewrite Hte'.
Qed.
End Payload.

Lemma body_payload_length_witness :
  exists w',
    callback sample_lib [Stmt (ctx_set_body sample_lib (BObject "{}")) Ret]
      (mkWorld (createContext (mkRequest "GET" "/" "" 1)) [] 0) = Ok w' /\
    statusCode (response (ctx w')) = 200 /\
    output (response (ctx w')) = Ended "{}" /\
    get "Content-Length" (response (ctx w')) = Some "2".
Proof.
  exact (body_payload_length sample_lib (mkRequest "GET" "/" "" 1)
           (BObject "{}") [] 0%nat ltac:(discriminate) eq_refl
           ltac:(discriminate) eq_refl).
Defined.

(** ** More on the router *)

(** X16.  The methods of a layer are the methods it was made with, in upper
    case, and HEAD when one of them is GET: nothing else gets in and
    nothing is left out. *)
Theorem layer_methods_of_spec (methods : list string) (m : string) :
  m ∈ layer_methods_of methods <->
  (exists x, x ∈ methods /\ m = toUpperCase x) \/
  (m = "HEAD" /\ exists x, x ∈ methods /\ toUpperCase x = "GET").
Proof.
  unfold layer_methods_of.
  set (f := fun (acc : list string) (x : string) =>
              let acc := acc ++ [toUpperCase x] in
              if String.eqb (toUpperCase x) "GET" then "HEAD" :: acc else acc).
  assert (H : forall acc,
            m ∈ fold_left f methods acc <->
            m ∈ acc \/
            (exists x, x ∈ methods /\ m = toUpperCase x) \/
            (m = "HEAD" /\ exists x, x ∈ methods /\ toUpperCase x = "GET")).
  { induction methods as [| x methods IH]; intros acc; cbn [fold_left].
    - split; [by left |].
      intros [H | [(x & Hx & _) | (_ & x & Hx & _)]]; [done | |];
        by apply elem_of_nil in Hx.
    - rewrite IH. unfold f. cbv zeta.
      destruct (String.eqb_spec (toUpperCase x) "GET") as [Hg | Hg].
      + rewrite elem_of_cons, elem_of_app, list_elem_of_singleton.
        split.
        * intros [[-> | [H | ->]] | [(y & Hy & ->) | (-> & y & Hy & Hu)]].
          -- right. right. split; [done |]. exists x. split; [by left | done].
          -- by left.
          -- right. left. exists x. split; [by left | done].
          -- right. left. exists y. split; [by right | done].
          -- right. right. split; [done |]. exists y. split; [by right | done].
        * intros [H | [(y & Hy & ->) | (-> & y & Hy & Hu)]].
          -- left. right. by left.
          -- apply elem_of_cons in Hy as [-> | Hy].
             ++ left. right. by right.
             ++ right. left. by exists y.
          -- left. by left.
      + rewrite elem_of_app, list_elem_of_singleton.
        split.
        * intros [[H | ->] | [(y & Hy & ->) | (-> & y & Hy & Hu)]].
          -- by left.
          -- right. left. exists x. split; [by left | done].
          -- right. left. exists y. split; [by right | done].
          -- right. right. split; [done |]. exists y. split; [by right | done].
        * intros [H | [(y & Hy & ->) | (-> & y & Hy & Hu)]].
          -- left. by left.
          -- apply elem_of_cons in Hy as [-> | Hy].
             ++ left. by right.
             ++ right. left. by exists y.
          -- apply elem_of_cons in Hy as [-> | Hy]; [done |].
             right. right. split; [done |]. by exists y. }
  rewrite H. split; [| by right].
  intros [Hn | H']; [by apply elem_of_nil in Hn | done].
Qed.

(** X17.  The methods that the Allow header lists: each method of each
    matched layer, once. *)
Theorem allowed_keys_spec (layers : list LayerInfo) :
  NoDup (allowed_keys layers) /\
  forall m, m ∈ allowed_keys layers <->
            exists l, l ∈ layers /\ m ∈ layer_methods l.
Proof.
  unfold allowed_keys.
  set (f := fun (allowed : list string) (method : string) =>
              if bool_decide (method ∈ allowed) then allowed
              else allowed ++ [method]).
  assert (H : forall ms acc,
            NoDup acc ->
            NoDup (fold_left f ms acc) /\
            forall m, m ∈ fold_left f ms acc <-> m ∈ acc \/ m ∈ ms).
  { induction ms as [| x ms IH]; intros acc Hnd; cbn [fold_left].
    - split; [done |]. intros m. split; [by left |].
      intros [H | H]; [done | by apply elem_of_nil in H].
    - destruct (IH (f acc x)) as [H1 H2].
      { unfold f. destruct (bool_decide_reflect (x ∈ acc)) as [Hx | Hx]; [done |].
        apply NoDup_app. split; [done |]. split; [| apply NoDup_singleton].
        intros y Hy Hy'. apply list_elem_of_singleton in Hy'. by subst. }
      split; [done |].
      intros m. rewrite H2. unfold f.
      destruct (bool_decide_reflect (x ∈ acc)) as [Hx | Hx];
        rewrite ?elem_of_app, ?list_elem_of_singleton, elem_of_cons.
      + split; [tauto |]. intros [H | [-> | H]]; tauto.
      + tauto. }
  destruct (H (flat_map layer_methods layers) [] (NoDup_nil_2)) as [H1 H2].
  split; [exact H1 |].
  intros m. rewrite H2. split.
  - intros [Hn | Hm]; [by apply elem_of_nil in Hn |].
    apply list_elem_of_In, in_flat_map in Hm as (l & Hl & Hm).
    exists l. by rewrite !list_elem_of_In.
  - intros (l & Hl & Hm). right.
    apply list_elem_of_In, in_flat_map. exists l. by rewrite <- !list_elem_of_In.
Qed.

Section RouterMore.
Variable lib : Libraries.

(** The test of [match] on one layer: its path matches and its methods are
    empty or contain the method. *)
Let takes (p m : string) (l : Layer) : bool :=
  layer_match lib (info l) p &&
  (bool_decide (layer_methods (info l) = []) ||
   bool_decide (m ∈ layer_methods (info l))).

(** X18.  What [match] returns: [path] holds the layers whose pattern
    matches the path, in the order of the stack; [pathAndMethod] holds
    those of them that have no methods or have the method; [route] is true
    exactly when one of the latter has methods.  So whenever [route] is
    true, [pathAndMethod] has a last element: the most specific layer that
    [routes] reads is never [undefined]. *)
Theorem router_match_spec (router : Router) (p m : string) :
  let found := router_match lib router p m in
  matched_path found
    = filter (fun l => layer_match lib (info l) p = true) (router_stack router) /\
  pathAndMethod found
    = filter (fun l => takes p m l = true) (router_stack router) /\
  (route found = true <->
   exists l, l ∈ router_stack router /\ takes p m l = true /\
             layer_methods (info l) <> []) /\
  (route found = true -> is_Some (last (pathAndMethod found))).
Proof.
  cbv zeta. unfold router_match.
  set (f := fun (m0 : Matched) (layer : Layer) => _).
  assert (H : forall layers acc,
            matched_path (fold_left f layers acc)
              = matched_path acc
                  ++ filter (fun l => layer_match lib (info l) p = true) layers /\
            pathAndMethod (fold_left f layers acc)
              = pathAndMethod acc ++ filter (fun l => takes p m l = true) layers /\
            (route (fold_left f layers acc) = true <->
             route acc = true \/
             exists l, l ∈ layers /\ takes p m l = true /\
                       layer_methods (info l) <> [])).
  { induction layers as [| l layers IH]; intros acc; cbn [fold_left].
    - cbn. rewrite !app_nil_r. split; [done |]. split; [done |].
      split; [by left |]. intros [H | (l & Hl & _)]; [done |].
      by apply elem_of_nil in Hl.
    - destruct (IH (f acc l)) as (H1 & H2 & H3).
      rewrite H1, H2, H3. clear H1 H2 H3 IH.
      rewrite !filter_cons. unfold f, takes.
      destruct (layer_match lib (info l) p) eqn:Hm; cbn [andb].
      + destruct (bool_decide_reflect (layer_methods (info l) = [])) as [He | He];
          cbn [orb].
        * cbn [matched_path pathAndMethod route].
          rewrite decide_True by done. rewrite decide_True by done.
          rewrite <- !app_assoc. split; [done |]. split; [done |].
          split.
          -- intros [H | (l' & Hl' & Ht & Hne)]; [by left |].
             right. exists l'. split; [by right | done].
          -- intros [H | (l' & Hl' & Ht & Hne)]; [by left |].
             apply elem_of_cons in Hl' as [-> | Hl']; [done |].
             right. by exists l'.
        * destruct (bool_decide_reflect (m ∈ layer_methods (info l))) as [Hi | Hi].
          -- cbn [matched_path pathAndMethod route].
             rewrite decide_True by done. rewrite decide_True by done.
             rewrite <- !app_assoc. split; [done |]. split; [done |].
             split; [| by left].
             intros _. right. exists l. split; [by left |].
             split; [| done]. unfold takes. rewrite Hm. cbn [andb].
             rewrite (bool_decide_eq_true_2 _ Hi). by rewrite orb_true_r.
          -- cbn [matched_path pathAndMethod route].
             rewrite decide_True by done. rewrite decide_False by done.
             rewrite <- !app_assoc. split; [done |]. split; [done |].
             split.
             ++ intros [H | (l' & Hl' & Ht & Hne)]; [by left |].
                right. exists l'. split; [by right | done].
             ++ intros [H | (l' & Hl' & Ht & Hne)]; [by left |].
                apply elem_of_cons in Hl' as [-> | Hl'].
                ** unfold takes in Ht. rewrite Hm in Ht. cbn [andb] in Ht.
                   rewrite (bool_decide_eq_false_2 _ He) in Ht.
                   rewrite (bool_decide_eq_false_2 _ Hi) in Ht. done.
                ** right. by exists l'.
      + rewrite decide_False by done. rewrite decide_False by done.
        split; [done |]. split; [done |].
        split.
        * intros [H | (l' & Hl' & Ht & Hne)]; [by left |].
          right. exists l'. split; [by right | done].
        * intros [H | (l' & Hl' & Ht & Hne)]; [by left |].
          apply elem_of_cons in Hl' as [-> | Hl'].
          -- unfold takes in Ht. by rewrite Hm in Ht.
          -- right. by exists l'. }
  destruct (H (router_stack router) (mkMatched [] [] false)) as (H1 & H2 & H3).
  cbn [matched_path pathAndMethod route app] in H1, H2, H3.
  split; [exact H1 |]. split; [exact H2 |].
  assert (H4 : route (fold_left f (router_stack router) (mkMatched [] [] false))
               = true <->
               exists l, l ∈ router_stack router /\ takes p m l = true /\
                         layer_methods (info l) <> []).
  { rewrite H3. split; [| by right]. by intros [? | ?]. }
  split; [exact H4 |].
  intros Hr. apply H4 in Hr as (l & Hl & Ht & _). rewrite H2.
  assert (Hin : l ∈ filter (fun l => takes p m l = true) (router_stack router))
    by (by apply list_elem_of_filter).
  revert Hin.
  generalize (filter (fun l => takes p m l = true) (router_stack router)).
  intros fl Hin. destruct fl as [| a s _] using rev_ind.
  - by apply elem_of_nil in Hin.
  - rewrite last_snoc. by eexists.
Qed.

(** X19.  The parameters that a layer adds to those of the layers before
    it: a parameter that is not among the names of the layer keeps its
    value; so does the parameter of an empty capture, and the parameter
    named [__proto__], which an ordinary object does not store; the
    parameter of any other capture gets the capture decoded, or as it is
    when it cannot be decoded. *)
Theorem layer_params_loop_spec (names captures : list string)
    (params : gmap string string) :
  NoDup names ->
  (forall k, k ∉ names ->
     layer_params_loop lib names captures params !! k = params !! k) /\
  (forall i name capture,
     names !! i = Some name -> captures !! i = Some capture ->
     layer_params_loop lib names captures params !! name =
       if String.eqb capture "" || String.eqb name "__proto__"
       then params !! name
       else Some (default capture (decodeURIComponent lib capture))).
Proof.
  revert captures params.
  induction names as [| n names IH]; intros captures params Hnd.
  - split; [done |]. intros i name capture H. by rewrite lookup_nil in H.
  - apply NoDup_cons in Hnd as [Hn Hnd].
    destruct captures as [| c captures].
    + split; [done |]. intros i name capture _ H. by rewrite lookup_nil in H.
    + cbn [layer_params_loop].
      set (params' := if String.eqb c "" then params else _).
      assert (Hne : forall k, k <> n -> params' !! k = params !! k).
      { intros k Hk. unfold params', assign_param.
        destruct (String.eqb c ""); [done |].
        destruct (String.eqb n "__proto__"); [done |].
        by rewrite lookup_insert_ne. }
      destruct (IH captures params' Hnd) as [IH1 IH2].
      split.
      * intros k Hk. apply not_elem_of_cons in Hk as [Hkn Hk].
        rewrite IH1 by done. by apply Hne.
      * intros [| i] name capture Hname Hcap.
        -- injection Hname as <-. injection Hcap as <-.
           rewrite IH1 by done. unfold params', assign_param.
           destruct (String.eqb c ""); [done |].
           destruct (String.eqb n "__proto__"); [done |].
           by rewrite lookup_insert_eq.
        -- cbn in Hname, Hcap. rewrite (IH2 i name capture) by done.
           destruct (String.eqb capture "" || String.eqb name "__proto__");
             [| done].
           apply Hne. intros <-. apply Hn. by eapply list_elem_of_lookup_2.
Qed.

(** A route /:__proto__ leaves the parameters as they are. *)
Example layer_params_proto :
  layer_params_loop sample_lib ["__proto__"; "id"] ["x"; "42"] ∅
  = {[ "id" := "42" ]}.
Proof. reflexivity. Qed.
End RouterMore.

Lemma layer_params_loop_witness :
  layer_params_loop sample_lib ["id"; "tab"] ["42"; ""]
    {[ "tab" := "home"; "user" := "7" ]} !! "tab" = Some "home".
Proof.
  exact (proj2 (layer_params_loop_spec sample_lib ["id"; "tab"] ["42"; ""]
                  {[ "tab" := "home"; "user" := "7" ]}
                  ltac:(apply NoDup_cons; split;
                          [rewrite list_elem_of_singleton; discriminate
                          | apply NoDup_singleton]))
           1%nat "tab" "" eq_refl eq_refl).
Defined.

(** ** The prefix of a router *)

Lemma strip_trailing_slash_snoc (p : string) :
  strip_trailing_slash (String.append p "/") = p.
Proof.
  induction p as [| c p IH]; [done |].
  change (String.append (String c p) "/") with (String c (String.append p "/")).
  cbn [strip_trailing_slash]. rewrite IH. by destruct p.
Qed.

(** X20.  The prefix of a router does not depend on a slash at its end:
    [prefix(p + "/")] gives the router that [prefix(p)] gives when [p] does
    not end with a slash itself.  In that router the path of every layer
    begins with [p]: a layer at ["/"] that is not strict is at [p], any
    other layer at [p] followed by its path; a layer without a path is
    left. *)
Theorem router_prefix_slash (p : string) (router : Router) :
  strip_trailing_slash p = p ->
  router_prefix (String.append p "/") router = router_prefix p router /\
  ropt_prefix (router_opts (router_prefix p router)) = p /\
  map (fun l => layer_path (info l)) (router_stack (router_prefix p router))
    = map (fun l =>
             let path := layer_path (info l) in
             if String.eqb path "" then ""
             else if String.eqb path "/" && negb (opt_strict (layer_opts (info l)))
             then p else String.append p path)
        (router_stack router).
Proof.
  intros Hp. unfold router_prefix. rewrite strip_trailing_slash_snoc, Hp.
  split; [done |]. split; [done |].
  cbn [router_stack]. rewrite map_map. apply map_ext. intros l.
  unfold setPrefix.
  destruct (String.eqb_spec (layer_path (info l)) "") as [E | E]; [done |].
  cbn [info layer_path].
  destruct (String.eqb (layer_path (info l)) "/"),
           (opt_strict (layer_opts (info l))); done.
Qed.

Lemma router_prefix_slash_witness :
  let router := verb "get" "/" [] (verb "get" "/users" [] (new_Router default_opts)) in
  router_prefix "/admin/" router = router_prefix "/admin" router /\
  map (fun l => layer_path (info l)) (router_stack (router_prefix "/admin" router))
    = ["/admin/users"; "/admin"].
Proof.
  intros router.
  destruct (router_prefix_slash "/admin" router eq_refl) as (H1 & _ & H3).
  split; [exact H1 | exact H3].
Defined.

(** ** The passes on the response of the target *)

Section Objects.
Implicit Types (o : jsobject) (k : string) (v : hvalue).








End Objects.

Section WriteHeaders.
Implicit Types (res : ServerResponse) (proxyRes : ProxyResponse).






End WriteHeaders.

Section WebOutgoing.
Implicit Types (req : IncomingMessage) (res : ServerResponse)
  (proxyRes : ProxyResponse) (options : OutgoingOptions).










End WebOutgoing.






(** ** The passes on the request *)

(** X24.  [deleteLength]: a DELETE or OPTIONS request leaves the pass with
    a Content-Length; the pass changes nothing else, and nothing at all for
    other methods or when a Content-Length is there; when it does set the
    header, to 0, it removes Transfer-Encoding; and running it again
    changes nothing. *)
Theorem deleteLength_spec (req : IncomingMessage) :
  deleteLength (deleteLength req) = deleteLength req /\
  (in_method req = "DELETE" \/ in_method req = "OPTIONS" ->
     NodeUrl.truthy (in_headers (deleteLength req) !! "content-length") = true) /\
  (deleteLength req <> req ->
     in_headers (deleteLength req) !! "content-length" = Some "0" /\
     in_headers (deleteLength req) !! "transfer-encoding" = None) /\
  (forall k, k <> "content-length" -> k <> "transfer-encoding" ->
     in_headers (deleteLength req) !! k = in_headers req !! k) /\
  (in_method req <> "DELETE" -> in_method req <> "OPTIONS" ->
     deleteLength req = req).
Proof.
  unfold deleteLength.
  destruct ((String.eqb (in_method req) "DELETE"
             || String.eqb (in_method req) "OPTIONS")
            && negb (NodeUrl.truthy (in_headers req !! "content-length")))
    eqn:E.
  - apply andb_true_iff in E as [Hm Ht].
    set (req' := with_in_headers _ req).
    assert (Hl : in_headers req' !! "content-length" = Some "0").
    { cbn. rewrite lookup_delete_ne by done. apply lookup_insert_eq. }
    assert (Hte : in_headers req' !! "transfer-encoding" = None)
      by apply lookup_delete_eq.
    change (in_method req') with (in_method req). rewrite Hm, Hl.
    cbn [NodeUrl.truthy String.eqb negb andb].
    split; [done |]. split; [done |]. split; [done |]. split.
    + intros k Hk1 Hk2. cbn.
      rewrite lookup_delete_ne by done. by rewrite lookup_insert_ne.
    + intros Hd Ho. apply orb_true_iff in Hm as [Hm | Hm];
        apply String.eqb_eq in Hm; done.
  - rewrite E. split; [done |]. split; [| split; [done |]; split; [done | done]].
    intros Hm. apply andb_false_iff in E as [E | E].
    + destruct Hm as [Hm | Hm]; rewrite Hm in E; discriminate E.
    + by apply negb_false_iff in E.
Qed.

Section Forwarded.
Implicit Types (req : IncomingMessage) (h : gmap string string).

Lemma forwarded_ne name name' value h :
  name <> name' -> forwarded name' value h !! name = h !! name.
Proof. intros H. unfold forwarded. by rewrite lookup_insert_ne. Qed.

Lemma forwarded_eq name value h :
  forwarded name value h !! name
    = Some (String.append (header_or (h !! name) "")
              (String.append (if NodeUrl.truthy (h !! name) then "," else "")
                 value)).
Proof. unfold forwarded. by rewrite lookup_insert_eq. Qed.

Lemma XHeaders_for req :
  in_headers (XHeaders true req) !! "x-forwarded-for"
    = Some (String.append (header_or (in_headers req !! "x-forwarded-for") "")
              (String.append
                 (if NodeUrl.truthy (in_headers req !! "x-forwarded-for")
                  then "," else "")
                 (remote_address req))).
Proof.
  unfold XHeaders. cbn [negb in_headers with_in_headers].
  rewrite lookup_insert_ne by done.
  rewrite !forwarded_ne by done. apply forwarded_eq.
Qed.

Lemma append_empty (a b : string) : String.append a b = "" -> a = "".
Proof. by destruct a. Qed.

Lemma join_snoc (sep : string) (l : list string) (x : string) :
  l <> [] ->
  join sep (l ++ [x]) = String.append (join sep l) (String.append sep x).
Proof.
  induction l as [| a l IH]; [done |]. intros _.
  destruct l as [| b l]; [done |].
  change (join sep ((a :: b :: l) ++ [x]))
    with (String.append a (String.append sep (join sep ((b :: l) ++ [x])))).
  rewrite IH by done.
  change (join sep (a :: b :: l))
    with (String.append a (String.append sep (join sep (b :: l)))).
  by rewrite !append_assoc.
Qed.

Lemma join_nonempty (sep : string) (l : list string) :
  l <> [] -> Forall (fun a => a <> "") l -> join sep l <> "".
Proof.
  intros Hl Hf. destruct Hf as [| a l Ha Hf]; [done |].
  destruct l as [| b l]; [done |].
  change (join sep (a :: b :: l))
    with (String.append a (String.append sep (join sep (b :: l)))).
  intros H. by apply append_empty in H.
Qed.

(** X25.  Through a chain of proxies that set the forwarding headers, the
    header X-Forwarded-For collects the addresses: when a request that has
    no such header passes proxies that see it coming from the addresses
    [a1], ..., [an], none of them empty, the header is [a1,...,an]. *)
Theorem XHeaders_chain (addresses : list string) req :
  in_headers req !! "x-forwarded-for" = None ->
  addresses <> [] ->
  Forall (fun a => a <> "") addresses ->
  in_headers
    (fold_left (fun r a => XHeaders true (next_hop a r)) addresses req)
    !! "x-forwarded-for"
  = Some (join "," addresses).
Proof.
  intros Hnone Hne Hf.
  induction addresses as [| a l IH] using rev_ind; [done |].
  rewrite fold_left_app. cbn [fold_left].
  apply Forall_app in Hf as [Hf Ha]. apply Forall_singleton in Ha.
  rewrite XHeaders_for.
  assert (Hr : forall r, remote_address (next_hop a r) = a).
  { intros r. unfold remote_address, next_hop. cbn.
    destruct (String.eqb_spec a ""); done. }
  rewrite Hr. change (in_headers (next_hop a ?r)) with (in_headers r).
  destruct l as [| b l].
  - cbn [fold_left]. rewrite Hnone. cbn. done.
  - rewrite IH by done.
    pose proof (join_nonempty "," (b :: l) ltac:(done) Hf) as Hj.
    cbn [header_or NodeUrl.truthy].
    rewrite (proj2 (String.eqb_neq _ _) Hj). cbn [negb].
    by rewrite join_snoc.
Qed.
End Forwarded.

Lemma XHeaders_chain_witness :
  in_headers
    (fold_left (fun r a => XHeaders true (next_hop a r))
       ["203.0.113.9"; "10.0.0.7"] sample_request)
    !! "x-forwarded-for"
  = Some "203.0.113.9,10.0.0.7".
Proof.
  apply (XHeaders_chain ["203.0.113.9"; "10.0.0.7"] sample_request).
  - reflexivity.
  - discriminate.
  - repeat (apply Forall_cons; split; [discriminate |]). apply Forall_nil_2.
Defined.

(** ** The passes of a websocket request *)

(** X26.  Only a websocket handshake reaches the target.  The first pass
    lets a request through exactly when its method is GET and its Upgrade
    header is [websocket], in any case; for any other request the socket is
    destroyed and no later pass runs, so no forwarding header is set and no
    request is made to the target; a request that is let through goes to
    [XHeaders] and then to [stream]. *)
Theorem ws_gate (xfwd : bool) (stream : WsState -> bool * WsState)
    (s : WsState) :
  (checkMethodAndHeader (ws_req s) = false <->
   in_method (ws_req s) = "GET" /\
   toLowerCase (default "" (in_headers (ws_req s) !! "upgrade")) = "websocket") /\
  run_passes (ws_passes xfwd stream) s
    = if checkMethodAndHeader (ws_req s) then mkWsState (ws_req s) true
      else (stream (mkWsState (ws_XHeaders xfwd (ws_req s)) (ws_destroyed s))).2.
Proof.
  split.
  - unfold checkMethodAndHeader.
    destruct (String.eqb_spec (in_method (ws_req s)) "GET") as [Hm | Hm];
      cbn [negb orb].
    + destruct (in_headers (ws_req s) !! "upgrade") as [u |]; cbn.
      * destruct (String.eqb_spec u "") as [-> | Hu]; cbn.
        -- split; [done | by intros [_ ?]].
        -- destruct (String.eqb_spec (toLowerCase u) "websocket"); cbn.
           ++ done.
           ++ split; [done | by intros [_ ?]].
      * split; [done | by intros [_ ?]].
    + split; [done | by intros [? _]].
  - unfold ws_passes. cbn [run_passes snd].
    destruct (checkMethodAndHeader (ws_req s)); [done |].
    cbn [run_passes snd]. by destruct (stream _) as [[] ?].
Qed.

(** ** Inserting passes *)

Section Insert.
Context {State : Type}.
Implicit Types (passes : list (Pass State)) (server : ProxyServer State).

Lemma pass_index_snoc passName passes (p : Pass State) :
  pass_index passName (passes ++ [p])
    = if String.eqb p.1 passName then Some (length passes)
      else pass_index passName passes.
Proof.
  unfold pass_index. rewrite imap_app, fold_left_app. cbn.
  by rewrite Nat.add_0_r.
Qed.

(** The index that [before] and [after] look up is that of the last pass
    with the name. *)
Lemma pass_index_Some passName passes i (p : Pass State) :
  passes !! i = Some p -> p.1 = passName ->
  (forall j q, passes !! j = Some q -> q.1 = passName -> (j <= i)%nat) ->
  pass_index passName passes = Some i.
Proof.
  revert i p. induction passes as [| q passes IH] using rev_ind;
    intros i p Hi Hp Hlast; [done |].
  rewrite pass_index_snoc.
  destruct (String.eqb_spec q.1 passName) as [Hq | Hq].
  - f_equal. apply lookup_lt_Some in Hi as Hlt. rewrite length_app in Hlt.
    cbn in Hlt.
    assert (length passes <= i)%nat; [| lia].
    apply (Hlast _ q); [| done]. by rewrite lookup_app_r, Nat.sub_diag.
  - assert (Hlt : (i < length passes)%nat).
    { apply lookup_lt_Some in Hi as Hlt. rewrite length_app in Hlt.
      cbn in Hlt.
      destruct (decide (i = length passes)) as [-> | ?]; [| lia].
      rewrite lookup_app_r, Nat.sub_diag in Hi by lia.
      injection Hi as ->. done. }
    rewrite lookup_app_l in Hi by done.
    apply (IH i p Hi Hp). intros j q' Hj Hq'.
    apply (Hlast j q'); [| done].
    rewrite lookup_app_l; [done |]. by eapply lookup_lt_Some.
Qed.

Lemma pass_index_None passName passes :
  (forall p, p ∈ passes -> p.1 <> passName) ->
  pass_index passName passes = None.
Proof.
  induction passes as [| q passes IH] using rev_ind; intros Hn; [done |].
  rewrite pass_index_snoc.
  rewrite (proj2 (String.eqb_neq _ _)).
  - apply IH. intros p Hp. apply Hn. apply elem_of_app. by left.
  - apply Hn. apply elem_of_app. right. by left.
Qed.

(** X27.  [after] puts the new pass where [before] puts it: in front of
    the pass that was named.  For the type [web] or [ws], when the last
    pass with the name is at position [i]: [after] and [before] return the
    same list of passes, in which the new pass is at position [i] and the
    named pass right after it, at [i + 1]; the passes of the other type
    are left. *)
Theorem after_inserts_before (type passName : string) (callback : Pass State)
    server (i : nat) (p : Pass State) :
  type = "web" \/ type = "ws" ->
  passes_of type server !! i = Some p ->
  p.1 = passName ->
  (forall j q, passes_of type server !! j = Some q -> q.1 = passName ->
               (j <= i)%nat) ->
  exists server',
    after type passName callback server = Ok server' /\
    before type passName callback server = Ok server' /\
    passes_of type server' !! i = Some callback /\
    passes_of type server' !! S i = Some p /\
    length (passes_of type server') = S (length (passes_of type server)) /\
    (forall type', type' <> type -> (type' = "web" \/ type' = "ws") ->
       passes_of type' server' = passes_of type' server).
Proof.
  intros Ht Hi Hp Hlast.
  pose proof (pass_index_Some passName _ i p Hi Hp Hlast) as Hidx.
  pose proof (lookup_lt_Some _ _ _ Hi) as Hlt.
  assert (Hs : forall passes, (i < length passes)%nat -> passes !! i = Some p ->
            splice i callback passes !! i = Some callback /\
            splice i callback passes !! S i = Some p /\
            length (splice i callback passes) = S (length passes)).
  { intros passes Hl Hpi. unfold splice. split; [| split].
    - rewrite lookup_app_r by (rewrite length_take; lia).
      rewrite length_take. by replace (i - i `min` length passes)%nat with 0%nat by lia.
    - rewrite lookup_app_r by (rewrite length_take; lia).
      rewrite length_take.
      replace (S i - i `min` length passes)%nat with 1%nat by lia.
      change ((callback :: drop i passes) !! 1%nat)
        with (drop i passes !! 0%nat).
      rewrite lookup_drop. by rewrite Nat.add_0_r.
    - rewrite length_app. cbn. rewrite length_take, length_drop. lia. }
  unfold after, before, passes_of in *.
  destruct Ht as [-> | ->]; cbn [String.eqb Ascii.eqb Bool.eqb negb andb] in *;
    rewrite Hidx; eexists; (split; [reflexivity |]); (split; [reflexivity |]);
    cbn [wsPasses webPasses];
    destruct (Hs _ Hlt Hi) as (H1 & H2 & H3);
    (split; [exact H1 |]); (split; [exact H2 |]); (split; [exact H3 |]);
    intros type' Hne [-> | ->]; done.
Qed.

(** [before] and [after] throw when the type is neither [web] nor [ws],
    and when no pass has the name. *)
Lemma insert_errors (type passName : string) (callback : Pass State) server :
  (type <> "web" -> type <> "ws" ->
     before type passName callback server
       = Raise (TError (Error "type must be `web` or `ws`")) /\
     after type passName callback server
       = Raise (TError (Error "type must be `web` or `ws`"))) /\
  (type = "web" \/ type = "ws" ->
   (forall p, p ∈ passes_of type server -> p.1 <> passName) ->
     before type passName callback server = Raise (TError (Error "No such pass")) /\
     after type passName callback server = Raise (TError (Error "No such pass"))).
Proof.
  unfold before, after, passes_of. split.
  - intros H1 H2.
    rewrite (proj2 (String.eqb_neq _ _) H1), (proj2 (String.eqb_neq _ _) H2).
    done.
  - intros Ht Hn. apply pass_index_None in Hn.
    destruct Ht as [-> | ->]; cbn [String.eqb Ascii.eqb Bool.eqb negb andb] in *;
      by rewrite Hn.
Qed.
End Insert.

Lemma after_inserts_before_witness :
  let stream := fun s : WsState => (false, s) in
  let audit : Pass WsState := ("audit", fun s => (false, s)) in
  let server := mkProxyServer [] (ws_passes true stream) in
  exists server',
    after "ws" "stream" audit server = Ok server' /\
    before "ws" "stream" audit server = Ok server' /\
    passes_of "ws" server' !! 2%nat = Some audit /\
    passes_of "ws" server' !! 3%nat = Some ("stream", stream).
Proof.
  intros stream audit server.
  destruct (after_inserts_before "ws" "stream" audit server 2 ("stream", stream))
    as (server' & E1 & E2 & H1 & H2 & _).
  - by right.
  - reflexivity.
  - reflexivity.
  - intros j q Hj _. apply lookup_lt_Some in Hj. cbn in Hj. lia.
  - exists server'. done.
Defined.

(** ** The path of the request to the target *)

Section UrlJoin.
Implicit Types (s p q : string) (sep : ascii).

Lemma split_char_cons sep s : exists x xs, split_char sep s = x :: xs.
Proof.
  induction s as [| c s (x & xs & IH)]; cbn [split_char]; [by eexists _, _ |].
  destruct (Ascii.eqb c sep); [by eexists _, _ |]. rewrite IH. by eexists _, _.
Qed.

Lemma split_char_none sep p : has_char sep p = false -> split_char sep p = [p].
Proof.
  induction p as [| c p IH]; [done |]. cbn [has_char split_char].
  intros H. apply orb_false_iff in H as [Hc Hp]. rewrite Hc, (IH Hp). done.
Qed.

Lemma split_char_app sep p q :
  has_char sep p = false ->
  split_char sep (String.append p (String sep q)) = p :: split_char sep q.
Proof.
  induction p as [| c p IH].
  - intros _. change (split_char sep (String sep q) = "" :: split_char sep q).
    cbn [split_char]. by rewrite Ascii.eqb_refl.
  - cbn [has_char]. intros H. apply orb_false_iff in H as [Hc Hp].
    change (String.append (String c p) (String sep q))
      with (String c (String.append p (String sep q))).
    cbn [split_char]. rewrite Hc, (IH Hp). done.
Qed.

Lemma join_cons (sepa : string) (x : string) (xs : list string) :
  xs <> [] ->
  join sepa (x :: xs) = String.append x (String.append sepa (join sepa xs)).
Proof. by destruct xs. Qed.

(** Joining what [split] gave, with the separator, gives the string back. *)
Lemma join_split_char sep q :
  join (String sep EmptyString) (split_char sep q) = q.
Proof.
  induction q as [| c q IH]; [done |]. cbn [split_char].
  destruct (split_char_cons sep q) as (x & xs & E). rewrite E in *.
  destruct (Ascii.eqb_spec c sep) as [-> | Hc].
  - rewrite join_cons by done. rewrite IH. done.
  - destruct xs as [| y ys].
    + cbn in *. by rewrite IH.
    + rewrite join_cons by done. rewrite join_cons in IH by done.
      change (String.append (String c x) ?t) with (String c (String.append x t)).
      by rewrite IH.
Qed.

(** X28.  [urlJoin] does not touch the query string: what follows the
    first question mark of the last argument is appended as it is, also
    when it has slashes in a row, question marks or the text of a URL in
    it. *)
Theorem urlJoin_query (args : list string) p q :
  has_char "?" p = false ->
  urlJoin args (String.append p (String "?" q))
    = String.append (urlJoin args p) (String "?" q).
Proof.
  intros Hp. unfold urlJoin.
  rewrite (split_char_app "?" p q Hp), (split_char_none "?" p Hp).
  cbn [hd tl].
  destruct (split_char_cons "?" q) as (x & xs & E).
  rewrite join_cons by (by rewrite E).
  change (String "?" EmptyString) with (String "?" "").
  rewrite (join_split_char "?" q). reflexivity.
Qed.
End UrlJoin.

Lemma urlJoin_query_witness :
  urlJoin ["/forward"] "/?foo=bar//&target=http://foobar.com/?a=1%26b=2&other=2"
    = "/forward/?foo=bar//&target=http://foobar.com/?a=1%26b=2&other=2".
Proof.
  exact (urlJoin_query ["/forward"] "/"
           "foo=bar//&target=http://foobar.com/?a=1%26b=2&other=2" eq_refl).
Defined.

(** The paths that the tests of the proxy expect. *)
Example urlJoin_paths :
  urlJoin ["/forward"] "/static/path" = "/forward/static/path" /\
  urlJoin ["/"] "https://google.com:/join/join.js"
    = "/https://google.com:/join/join.js" /\
  urlJoin [""] "" = "".
Proof. repeat split; reflexivity. Qed.


(** ** The headers of the request to the target *)

Section SetupOutgoing.
Implicit Types (options : ProxyOptions) (req : IncomingMessage)
  (target : Target).




End SetupOutgoing.



(** ** The tests of the proxy

    The models give what the tests of the repository expect of the
    functions. *)

Example writeHeaders_stub :
  exists res',
    writeHeaders sample_res stub_proxyRes (stub_options true) = Ok res' /\
    sres_headers res' =
       {[ "hey" := ("Hey", HString "hello");
          "how" := ("How", HString "are you?");
          "set-cookie" :=
            ("Set-Cookie",
             HArray
               [ "hello-on-my.domain; path=/dummyPath";
                 "hello-on-my.old.domain; domain=my.new.domain; path=/dummyPath";
                 "hello-on-my.special.domain; domain=my.special.domain; path=/dummyPath" ]) ]}.
Proof. eexists. split; vm_compute; reflexivity. Qed.

Example XHeaders_stub :
  in_headers (XHeaders true stub_request)
  = {[ "host" := "192.168.1.3:8181";
       "x-forwarded-for" := "192.168.1.3";
       "x-forwarded-port" := "8181";
       "x-forwarded-proto" := "https";
       "x-forwarded-host" := "192.168.1.3:8181" ]} /\
  in_headers (ws_XHeaders true stub_request) !! "x-forwarded-proto" = Some "wss".
Proof. split; vm_compute; reflexivity. Qed.

Example setupOutgoing_stub :
  exists out,
    setupOutgoing empty_outgoing
                 (mkProxyOptions
                    (Some (target_of_string "http://sometarget.com:80")) None
                    None None None None None None None true true false false)
                 (mkIncoming "GET" "https://google.com" "1.1" ∅ None None
                    false false false) false = Ok out /\
    out_path out = Some "/https://google.com".
Proof. eexists. split; vm_compute; reflexivity. Qed.
